(** * Zebra PBR rules over netlink (zebra/rule_netlink.c)

    A shallow embedding of [netlink_rule_update], [kernel_add_pbr_rule],
    [kernel_del_pbr_rule] and [netlink_rule_change], and the properties of
    the rule codec and of the notification handler proved over it.

    Conventions.  C integers are [Z] with every conversion written out
    ([u8], [u16], [u32], [int_of]).  A byte is a [Z] in [0, 256).  The
    request under construction is kept structured: the [nlmsghdr], the
    [fib_rule_hdr] that follows it, and the sequence of [rtattr] records
    laid out after the header, each with its [rta_len], [rta_type] and
    payload bytes.  A received notification is its [nlmsghdr] and the
    bytes of the receive buffer that follow it, which the handler reads
    through pointers.  The host is little-endian (a 32-bit value is stored
    low byte first). *)

From Stdlib Require Import ZArith Lia List Bool.
From Stdlib Require String Ascii.
From stdpp Require Import base list.
From coqutil Require Import Z.bitblast.
Import ListNotations.
Local Open Scope Z_scope.

(** ** C integer conversions *)

Module CInt.

Definition u8 (x : Z) : Z := x mod 2 ^ 8.
Definition u16 (x : Z) : Z := x mod 2 ^ 16.
Definition u32 (x : Z) : Z := x mod 2 ^ 32.

(** Conversion to [int]: the low 32 bits, read as two's complement. *)
Definition int_of (x : Z) : Z := (x + 2 ^ 31) mod 2 ^ 32 - 2 ^ 31.

(** [memcpy(&v, p, 4)] / [*(uint32_t * )p] and its inverse on a
    little-endian host. *)
Fixpoint le_combine (bs : list Z) : Z :=
  match bs with
  | [] => 0
  | b :: rest => Z.lor b (Z.shiftl (le_combine rest) 8)
  end.

Fixpoint le_split (n : nat) (v : Z) : list Z :=
  match n with
  | O => []
  | S n' => u8 v :: le_split n' (Z.shiftr v 8)
  end.

Definition store_u32 (v : Z) : list Z := le_split 4 v.
Definition load_u32 (bs : list Z) : Z := le_combine (take 4 bs).

(** [memcpy(dst, src, n)] on byte sequences: the first [n] bytes of [dst]
    are replaced by the first [n] bytes of [src]. *)
Definition memcpy (dst src : list Z) (n : nat) : list Z :=
  take n src ++ drop n dst.

(** The C string starting at a buffer: the bytes before the first NUL. *)
Fixpoint c_str (bs : list Z) : list Z :=
  match bs with
  | [] => []
  | b :: rest => if b =? 0 then [] else b :: c_str rest
  end.

Definition is_byteb (b : Z) : bool := (0 <=? b) && (b <? 256).

End CInt.
Import CInt.

(** ** Linux UAPI: netlink, rtnetlink and fib_rules constants and macros *)

Module Linux.

Definition AF_INET : Z := 2.
Definition AF_INET6 : Z := 10.

Definition RTM_NEWRULE : Z := 32.
Definition RTM_DELRULE : Z := 33.
Definition NLM_F_REQUEST : Z := 1.

Definition FR_ACT_TO_TBL : Z := 1.
Definition RT_TABLE_UNSPEC : Z := 0.

Definition FRA_DST : Z := 1.
Definition FRA_SRC : Z := 2.
Definition FRA_IFNAME : Z := 3.
Definition FRA_PRIORITY : Z := 6.
Definition FRA_TABLE : Z := 15.
Definition FRA_MAX : Z := 24.

Definition sizeof_nlmsghdr : Z := 16.
Definition sizeof_rtmsg : Z := 12.
Definition sizeof_fib_rule_hdr : Z := 12.
Definition sizeof_rtattr : Z := 4.

(** [#define NLMSG_ALIGN(len) (((len) + 3) & ~3)] and its [RTA_] twin. *)
Definition NLMSG_ALIGN (len : Z) : Z := Z.land (len + 3) (Z.lnot 3).
Definition NLMSG_HDRLEN : Z := NLMSG_ALIGN sizeof_nlmsghdr.
Definition NLMSG_LENGTH (len : Z) : Z := len + NLMSG_HDRLEN.

Definition RTA_ALIGN (len : Z) : Z := Z.land (len + 3) (Z.lnot 3).
Definition RTA_LENGTH (len : Z) : Z := RTA_ALIGN sizeof_rtattr + len.

(** [struct nlmsghdr] *)
Record nlmsghdr := mk_nlmsghdr {
  nlmsg_len : Z;      (* __u32 *)
  nlmsg_type : Z;     (* __u16 *)
  nlmsg_flags : Z;    (* __u16 *)
  nlmsg_seq : Z;      (* __u32 *)
  nlmsg_pid : Z       (* __u32 *)
}.

(** [struct fib_rule_hdr]; every field but [flags] is one byte. *)
Record fib_rule_hdr := mk_fib_rule_hdr {
  frh_family : Z;
  frh_dst_len : Z;
  frh_src_len : Z;
  frh_tos : Z;
  frh_table : Z;
  frh_res1 : Z;
  frh_res2 : Z;
  frh_action : Z;
  frh_flags : Z       (* __u32 *)
}.

(** [struct rtattr] together with the payload that follows it. *)
Record rtattr := mk_rtattr {
  rta_len : Z;        (* unsigned short *)
  rta_type : Z;       (* unsigned short *)
  rta_data : list Z   (* RTA_DATA(rta) *)
}.

(** [#define RTA_OK(rta,len) ((len) >= (int)sizeof(struct rtattr) &&
    (rta)->rta_len >= sizeof(struct rtattr) && (rta)->rta_len <= (len))] *)
Definition RTA_OK (rta : rtattr) (len : Z) : bool :=
  (sizeof_rtattr <=? len) && (sizeof_rtattr <=? rta_len rta)
  && (rta_len rta <=? len).

End Linux.
Import Linux.

(** A rule message: the netlink header, the rule header at [NLMSG_DATA] and
    the attributes after it, in buffer order. *)
Record nlmsg := mk_nlmsg {
  n : nlmsghdr;
  frh : fib_rule_hdr;
  rtattrs : list rtattr
}.

(** The attributes of one type, in buffer order. *)
Definition attrs_of_type (ty : Z) (l : list rtattr) : list rtattr :=
  List.filter (fun a => rta_type a =? ty) l.

(** Field updates of the message under construction ([req.n.x = v],
    [req.frh.x = v]). *)
Module Req.

Definition with_n (f : nlmsghdr -> nlmsghdr) (m : nlmsg) : nlmsg :=
  mk_nlmsg (f (n m)) (frh m) (rtattrs m).
Definition with_frh (f : fib_rule_hdr -> fib_rule_hdr) (m : nlmsg) : nlmsg :=
  mk_nlmsg (n m) (f (frh m)) (rtattrs m).

Definition set_nlmsg_len (v : Z) : nlmsg -> nlmsg :=
  with_n (fun h => mk_nlmsghdr v (nlmsg_type h) (nlmsg_flags h)
                               (nlmsg_seq h) (nlmsg_pid h)).
Definition set_nlmsg_type (v : Z) : nlmsg -> nlmsg :=
  with_n (fun h => mk_nlmsghdr (nlmsg_len h) v (nlmsg_flags h)
                               (nlmsg_seq h) (nlmsg_pid h)).
Definition set_nlmsg_flags (v : Z) : nlmsg -> nlmsg :=
  with_n (fun h => mk_nlmsghdr (nlmsg_len h) (nlmsg_type h) v
                               (nlmsg_seq h) (nlmsg_pid h)).
Definition set_nlmsg_pid (v : Z) : nlmsg -> nlmsg :=
  with_n (fun h => mk_nlmsghdr (nlmsg_len h) (nlmsg_type h) (nlmsg_flags h)
                               (nlmsg_seq h) v).

Definition set_family (v : Z) : nlmsg -> nlmsg :=
  with_frh (fun f => mk_fib_rule_hdr v (frh_dst_len f) (frh_src_len f)
    (frh_tos f) (frh_table f) (frh_res1 f) (frh_res2 f) (frh_action f)
    (frh_flags f)).
Definition set_dst_len (v : Z) : nlmsg -> nlmsg :=
  with_frh (fun f => mk_fib_rule_hdr (frh_family f) v (frh_src_len f)
    (frh_tos f) (frh_table f) (frh_res1 f) (frh_res2 f) (frh_action f)
    (frh_flags f)).
Definition set_src_len (v : Z) : nlmsg -> nlmsg :=
  with_frh (fun f => mk_fib_rule_hdr (frh_family f) (frh_dst_len f) v
    (frh_tos f) (frh_table f) (frh_res1 f) (frh_res2 f) (frh_action f)
    (frh_flags f)).
Definition set_table (v : Z) : nlmsg -> nlmsg :=
  with_frh (fun f => mk_fib_rule_hdr (frh_family f) (frh_dst_len f)
    (frh_src_len f) (frh_tos f) v (frh_res1 f) (frh_res2 f) (frh_action f)
    (frh_flags f)).
Definition set_action (v : Z) : nlmsg -> nlmsg :=
  with_frh (fun f => mk_fib_rule_hdr (frh_family f) (frh_dst_len f)
    (frh_src_len f) (frh_tos f) (frh_table f) (frh_res1 f) (frh_res2 f) v
    (frh_flags f)).

(** [memset(&req, 0, sizeof(req) - NL_PKT_BUF_SIZE)]: both headers are
    zeroed and no attribute has been laid out yet. *)
Definition zero : nlmsg :=
  mk_nlmsg (mk_nlmsghdr 0 0 0 0 0) (mk_fib_rule_hdr 0 0 0 0 0 0 0 0 0) [].

End Req.

(** ** FRR declarations used by the file *)

Module Frr.

(** Modelled from the spec: [NL_PKT_BUF_SIZE] (zebra/kernel_netlink.h) and
    [INTERFACE_NAMSIZ] (lib/if.h) are not among the sources.  Section 4.2
    only says the message buffer has a bounded fixed capacity that the
    reference code takes as generously sized; the values are those of the
    FRR headers. *)
Definition NL_PKT_BUF_SIZE : Z := 8192.
Definition INTERFACE_NAMSIZ : Z := 20.

(** [sizeof(req)] for [struct { struct nlmsghdr n; struct fib_rule_hdr frh;
    char buf[NL_PKT_BUF_SIZE]; }]. *)
Definition sizeof_req : Z :=
  sizeof_nlmsghdr + sizeof_fib_rule_hdr + NL_PKT_BUF_SIZE.

(** Modelled from the spec: [struct prefix] (lib/prefix.h) is not among the
    sources.  Section 3: a prefix is an address family, an address and a
    prefix length.  [u_prefix] holds the bytes of the address union
    [u.prefix] (16 of them, of which IPv4 uses the first 4). *)
Record prefix := mk_prefix {
  family : Z;         (* uint8_t *)
  prefixlen : Z;      (* uint8_t *)
  u_prefix : list Z
}.

Definition PREFIX_FAMILY (p : prefix) : Z := family p.

(** Modelled from the spec: [struct interface] (lib/if.h) is not among the
    sources.  Section 3: an interface is referred to by name; [name] holds
    the characters before the terminating NUL of [char name[]]. *)
Record interface := mk_interface {
  name : list Z;
  ifindex : Z
}.

Definition strlen (s : list Z) : Z := Z.of_nat (length s).

(** Modelled from the spec: [struct zebra_pbr_rule] and the
    [IS_RULE_FILTERING_ON_*] macros (zebra/zebra_pbr.h) are not among the
    sources.  Sections 3 and 9: a rule has a priority, an optional
    interface, a filter made of a bitmask plus parallel source and
    destination prefix fields, and an action holding the table id. *)
Definition PBR_FILTER_SRC_IP : Z := Z.shiftl 1 0.
Definition PBR_FILTER_DST_IP : Z := Z.shiftl 1 1.

Record zebra_pbr_filter := mk_filter {
  filter_bm : Z;      (* uint32_t *)
  src_ip : prefix;
  dst_ip : prefix
}.

Record zebra_pbr_action := mk_action {
  table : Z           (* uint32_t *)
}.

Record zebra_pbr_rule := mk_rule {
  priority : Z;       (* uint32_t *)
  ifp : option interface;   (* struct interface *, NULL is None *)
  filter : zebra_pbr_filter;
  action : zebra_pbr_action
}.

Definition IS_RULE_FILTERING_ON_SRC_IP (r : zebra_pbr_rule) : bool :=
  negb (Z.land (filter_bm (filter r)) PBR_FILTER_SRC_IP =? 0).
Definition IS_RULE_FILTERING_ON_DST_IP (r : zebra_pbr_rule) : bool :=
  negb (Z.land (filter_bm (filter r)) PBR_FILTER_DST_IP =? 0).

(** [memset(&rule, 0, sizeof(rule))] *)
Definition prefix_zero : prefix := mk_prefix 0 0 (replicate 16 0).
Definition rule_zero : zebra_pbr_rule :=
  mk_rule 0 None (mk_filter 0 prefix_zero prefix_zero) (mk_action 0).

(** Assignments to the fields of the local [rule]. *)
Definition set_priority (v : Z) (r : zebra_pbr_rule) : zebra_pbr_rule :=
  mk_rule v (ifp r) (filter r) (action r).
Definition set_table (v : Z) (r : zebra_pbr_rule) : zebra_pbr_rule :=
  mk_rule (priority r) (ifp r) (filter r) (mk_action v).
Definition set_filter (f : zebra_pbr_filter) (r : zebra_pbr_rule)
  : zebra_pbr_rule :=
  mk_rule (priority r) (ifp r) f (action r).

(** Modelled from the spec: [enum southbound_results] (zebra/rt.h) is not
    among the sources.  Section 3: the four outcomes of one install or
    uninstall attempt. *)
Inductive southbound_results :=
| SOUTHBOUND_INSTALL_SUCCESS
| SOUTHBOUND_INSTALL_FAILURE
| SOUTHBOUND_DELETE_SUCCESS
| SOUTHBOUND_DELETE_FAILURE.

End Frr.
Import Frr.

(** ** Helpers of zebra/kernel_netlink.c *)

(** Modelled from the spec: [addattr_l] and [addattr32]
    (zebra/kernel_netlink.c) are not among the sources.  Sections 3 and 6:
    attributes are type-tagged, variable-length and ordered, and the buffer
    has a bounded capacity ([maxlen]).  An attribute of [alen] payload bytes
    is laid out after the aligned end of the message and [nlmsg_len] is
    advanced; one that does not fit in [maxlen] is not written and -1 is
    returned. *)
Definition addattr_l (req : nlmsg) (maxlen type : Z) (data : list Z)
  (alen : Z) : Z * nlmsg :=
  let len := RTA_LENGTH alen in
  if maxlen <? NLMSG_ALIGN (nlmsg_len (n req)) + RTA_ALIGN len then (-1, req)
  else
    let rta := mk_rtattr (u16 len) (u16 type) (take (Z.to_nat alen) data) in
    (0, Req.set_nlmsg_len
          (u32 (NLMSG_ALIGN (nlmsg_len (n req)) + RTA_ALIGN len))
          (mk_nlmsg (n req) (frh req) (rtattrs req ++ [rta]))).

Definition addattr32 (req : nlmsg) (maxlen type data : Z) : Z * nlmsg :=
  addattr_l req maxlen type (store_u32 data) 4.

(** ** Memory

    A pointer into a buffer is modelled by the bytes from the address it
    points to up to the end of the buffer, so that [p + k] is [drop k p].
    A read has a value only when all the bytes it touches lie within the
    buffer. *)

(** [k] bytes at [p]. *)
Definition rd_bytes (p : list Z) (k : nat) : option (list Z) :=
  if (k <=? length p)%nat then Some (take k p) else None.

(** The byte field at offset [off] of the struct at [p], and
    [*(uint16_t * )p], [*(uint32_t * )p]. *)
Definition rd_u8 (p : list Z) (off : Z) : option Z := p !! Z.to_nat off.
Definition rd_u16 (p : list Z) : option Z :=
  option_map le_combine (rd_bytes p 2).
Definition rd_u32 (p : list Z) : option Z :=
  option_map le_combine (rd_bytes p 4).

(** The C string at [p], read up to its NUL. *)
Definition rd_str (p : list Z) : option (list Z) :=
  if existsb (Z.eqb 0) p then Some (c_str p) else None.

(** [offsetof(struct fib_rule_hdr, f)] for the fields the handler reads,
    and [offsetof(struct rtattr, rta_type)]. *)
Definition offsetof_family : Z := 0.
Definition offsetof_dst_len : Z := 1.
Definition offsetof_src_len : Z := 2.
Definition offsetof_table : Z := 4.
Definition offsetof_action : Z := 7.
Definition offsetof_rta_type : Z := 2.

(** [#define RTM_RTA(r) ((struct rtattr* )(((char* )(r)) +
    NLMSG_ALIGN(sizeof(struct rtmsg))))] and
    [#define RTA_DATA(rta) ((void* )(((char* )(rta)) + RTA_LENGTH(0)))]. *)
Definition RTM_RTA (r : list Z) : list Z :=
  drop (Z.to_nat (NLMSG_ALIGN sizeof_rtmsg)) r.
Definition RTA_DATA (rta : list Z) : list Z :=
  drop (Z.to_nat (RTA_LENGTH 0)) rta.

(** The table [struct rtattr *tb[max + 1]]: slot [i] is [tb[i]], [None] is
    NULL. *)
Definition tb_at (tb : list (option (list Z))) (i : Z) : option (list Z) :=
  mjoin (tb !! Z.to_nat i).

(** Modelled from the spec: [netlink_parse_rtattr] (zebra/kernel_netlink.c)
    is not among the sources.  Section 4.2: decoding yields the parsed
    attribute set, each attribute independently optional.  The attributes
    are walked in buffer order,
    [while (RTA_OK(rta, len)) { if (rta->rta_type <= max)
    tb[rta->rta_type] = rta; rta = RTA_NEXT(rta, len); }],
    so that a later attribute of a type replaces an earlier one.  [RTA_OK]
    tests [len >= (int)sizeof(struct rtattr)] before it reads
    [rta->rta_len]; [RTA_NEXT] advances by [RTA_ALIGN(rta->rta_len)].
    Every turn of the loop moves [rta] forward by at least four bytes, so
    the number of bytes at [rta] bounds the number of turns. *)
Fixpoint netlink_parse_rtattr_loop (turns : nat) (tb : list (option (list Z)))
  (max : Z) (rta : list Z) (len : Z) : option (list (option (list Z))) :=
  if len <? sizeof_rtattr then Some tb
  else
    match turns with
    | O => None
    | S turns' =>
        match rd_u16 rta with
        | None => None
        | Some l =>
            if (l <? sizeof_rtattr) || (len <? l) then Some tb
            else
              match rd_u16 (drop (Z.to_nat offsetof_rta_type) rta) with
              | None => None
              | Some ty =>
                  let tb' :=
                    if ty <=? max then <[Z.to_nat ty := Some rta]> tb
                    else tb in
                  netlink_parse_rtattr_loop turns' tb' max
                    (drop (Z.to_nat (RTA_ALIGN l)) rta) (len - RTA_ALIGN l)
              end
        end
    end.

Definition netlink_parse_rtattr (tb : list (option (list Z))) (max : Z)
  (rta : list Z) (len : Z) : option (list (option (list Z))) :=
  netlink_parse_rtattr_loop (length rta) tb max rta len.

(** ** Effects

    The calls that leave the file are recorded in order: the blocking
    round trip [netlink_talk], the status callback
    [kernel_pbr_rule_add_del_status] and the deletion callback
    [kernel_pbr_rule_del]. *)
Inductive event :=
| EvTalk (req : nlmsg)
| EvStatus (rule : zebra_pbr_rule) (res : southbound_results)
| EvRuleDel (rule : zebra_pbr_rule).

(** How a call ends: it returns a value, or its behaviour is undefined
    because it dereferences a NULL pointer or reads outside the buffer. *)
Inductive outcome (A : Type) :=
| Returned (ret : A)
| Fault.
Arguments Returned {A} ret.
Arguments Fault {A}.

Definition status_events (tr : list event) : list event :=
  List.filter (fun e => match e with EvStatus _ _ => true | _ => false end) tr.
Definition del_events (tr : list event) : list event :=
  List.filter (fun e => match e with EvRuleDel _ => true | _ => false end) tr.

Section RuleNetlink.

(** The collaborators outside the file.  [nl_pid] is
    [zns->netlink_cmd.snl.nl_pid] of the default namespace;
    [netlink_talk] is the result of the round trip for a request;
    [if_lookup_by_name_per_ns ns_id ifname] stands for
    [if_lookup_by_name_per_ns(zebra_ns_lookup(ns_id), ifname)];
    [kernel_pbr_rule_del] is the value the deletion callback returns;
    [zebra_debug_kernel] is [IS_ZEBRA_DEBUG_KERNEL]. *)
Variable nl_pid : Z.
Variable netlink_talk : nlmsg -> Z.
Variable if_lookup_by_name_per_ns : Z -> list Z -> option interface.
Variable kernel_pbr_rule_del : zebra_pbr_rule -> Z.
Variable zebra_debug_kernel : bool.

(** [netlink_rule_update], lines 68-108: the request handed to
    [netlink_talk].  The results of [addattr32] and [addattr_l] are
    dropped, as in the source.  The [zlog_debug] call of lines 110-118 only
    formats its arguments (it guards [rule->ifp]) and is left out. *)
Definition netlink_rule_update_req (cmd : Z) (rule : zebra_pbr_rule) : nlmsg :=
  let req := Req.zero in
  let family := PREFIX_FAMILY (src_ip (filter rule)) in
  let bytelen := if family =? AF_INET then 4 else 16 in
  let req := Req.set_nlmsg_type (u16 cmd) req in
  let req := Req.set_nlmsg_len (NLMSG_LENGTH sizeof_rtmsg) req in
  let req := Req.set_nlmsg_flags NLM_F_REQUEST req in
  let req := Req.set_nlmsg_pid nl_pid req in
  let req := Req.set_family (u8 family) req in
  let req := Req.set_action FR_ACT_TO_TBL req in
  (* rule's pref # *)
  let req := snd (addattr32 req sizeof_req FRA_PRIORITY (priority rule)) in
  (* interface on which applied *)
  let req :=
    match ifp rule with
    | Some i =>
        snd (addattr_l req sizeof_req FRA_IFNAME (name i ++ [0])
                       (strlen (name i) + 1))
    | None => req
    end in
  (* source IP, if specified *)
  let req :=
    if IS_RULE_FILTERING_ON_SRC_IP rule then
      let req := Req.set_src_len (prefixlen (src_ip (filter rule))) req in
      snd (addattr_l req sizeof_req FRA_SRC
                     (u_prefix (src_ip (filter rule))) bytelen)
    else req in
  (* destination IP, if specified *)
  let req :=
    if IS_RULE_FILTERING_ON_DST_IP rule then
      let req := Req.set_dst_len (prefixlen (dst_ip (filter rule))) req in
      snd (addattr_l req sizeof_req FRA_DST
                     (u_prefix (dst_ip (filter rule))) bytelen)
    else req in
  (* Route table to use to forward, if filter criteria matches. *)
  if table (action rule) <? 256 then
    Req.set_table (u8 (table (action rule))) req
  else
    let req := Req.set_table RT_TABLE_UNSPEC req in
    snd (addattr32 req sizeof_req FRA_TABLE (table (action rule))).

(** [netlink_rule_update]: ship the request and return the status of the
    round trip. *)
Definition netlink_rule_update (cmd : Z) (rule : zebra_pbr_rule)
  : Z * list event :=
  let req := netlink_rule_update_req cmd rule in
  (netlink_talk req, [EvTalk req]).

(** [kernel_add_pbr_rule], lines 137-145. *)
Definition kernel_add_pbr_rule (rule : zebra_pbr_rule) : list event :=
  let '(ret, tr) := netlink_rule_update RTM_NEWRULE rule in
  tr ++ [EvStatus rule (if ret =? 0 then SOUTHBOUND_INSTALL_SUCCESS
                        else SOUTHBOUND_INSTALL_FAILURE)].

(** [kernel_del_pbr_rule], lines 150-158. *)
Definition kernel_del_pbr_rule (rule : zebra_pbr_rule) : list event :=
  let '(ret, tr) := netlink_rule_update RTM_DELRULE rule in
  tr ++ [EvStatus rule (if ret =? 0 then SOUTHBOUND_DELETE_SUCCESS
                        else SOUTHBOUND_DELETE_FAILURE)].

(** Sequencing of reads: [read x <- m ;; k] runs [k] on the value [m]
    reads.  A read outside the buffer ends the computation, without a
    value in the decoder ([<-]) and as a [Fault] in the handler ([<-!]). *)
Local Notation "'read' x <- m ;; k" :=
  (match m with Some x => k | None => None end)
  (at level 10, x name, m at level 10, k at level 200, only parsing).
Local Notation "'read' x <-! m ;; k" :=
  (match m with Some x => k | None => (Fault, []) end)
  (at level 10, x name, m at level 10, k at level 200, only parsing).

(** [netlink_rule_change], lines 211-240: the local [rule] is zeroed and
    then filled from the rule header at [frh] and the parsed attributes.
    Each read is the one the source makes: four bytes at [RTA_DATA] for
    PRIORITY and TABLE, and 4 or 16 bytes at [RTA_DATA] for SRC and DST
    according to [frh->family], whatever [rta_len] says. *)
Definition netlink_rule_change_decode (frh : list Z)
  (tb : list (option (list Z))) : option zebra_pbr_rule :=
  let rule := rule_zero in
  read rule <-
    match tb_at tb FRA_PRIORITY with
    | Some rta =>
        read v <- rd_u32 (RTA_DATA rta) ;;
        Some (set_priority v rule)
    | None => Some rule
    end ;;
  read rule <-
    match tb_at tb FRA_SRC with
    | Some rta =>
        let f := filter rule in
        let p := src_ip f in
        read fam <- rd_u8 frh offsetof_family ;;
        read bytes <-
          (if fam =? AF_INET
           then read src <- rd_bytes (RTA_DATA rta) 4 ;;
                Some (memcpy (u_prefix p) src 4)
           else read src <- rd_bytes (RTA_DATA rta) 16 ;;
                Some (memcpy (u_prefix p) src 16)) ;;
        read src_len <- rd_u8 frh offsetof_src_len ;;
        let p := mk_prefix (family p) src_len bytes in
        Some (set_filter
                (mk_filter (Z.lor (filter_bm f) PBR_FILTER_SRC_IP) p
                   (dst_ip f)) rule)
    | None => Some rule
    end ;;
  read rule <-
    match tb_at tb FRA_DST with
    | Some rta =>
        let f := filter rule in
        let p := dst_ip f in
        read fam <- rd_u8 frh offsetof_family ;;
        read bytes <-
          (if fam =? AF_INET
           then read dst <- rd_bytes (RTA_DATA rta) 4 ;;
                Some (memcpy (u_prefix p) dst 4)
           else read dst <- rd_bytes (RTA_DATA rta) 16 ;;
                Some (memcpy (u_prefix p) dst 16)) ;;
        read dst_len <- rd_u8 frh offsetof_dst_len ;;
        let p := mk_prefix (family p) dst_len bytes in
        Some (set_filter
                (mk_filter (Z.lor (filter_bm f) PBR_FILTER_DST_IP)
                   (src_ip f) p) rule)
    | None => Some rule
    end ;;
  match tb_at tb FRA_TABLE with
  | Some rta =>
      read v <- rd_u32 (RTA_DATA rta) ;;
      Some (set_table v rule)
  | None =>
      read v <- rd_u8 frh offsetof_table ;;
      Some (set_table v rule)
  end.

(** The attribute length computed at line 187, an [int]. *)
Definition rule_change_len (h : nlmsghdr) : Z :=
  int_of (nlmsg_len h - NLMSG_LENGTH sizeof_fib_rule_hdr).

(** [netlink_rule_change], lines 167-253, on the header [h] points to and
    the bytes [mem] of the receive buffer from [NLMSG_DATA(h)] on.
    [ifname] is the address [RTA_DATA(tb[FRA_IFNAME])] handed to the lookup
    as a C string: the characters from there up to the first NUL, wherever
    the payload of the attribute ends.  [rule.ifp] is assigned at line 207
    and tested at line 208; line 211 then zeroes the whole of [rule].  The
    [zlog_debug] call of lines 242-250 reads [rule.ifp->name]. *)
Definition netlink_rule_change (h : nlmsghdr) (mem : list Z) (ns_id : Z)
  (startup : Z) : outcome Z * list event :=
  (* Basic validation followed by extracting attributes. *)
  if negb (nlmsg_type h =? RTM_NEWRULE)
     && negb (nlmsg_type h =? RTM_DELRULE) then (Returned 0, [])
  else if nlmsg_type h =? RTM_NEWRULE then (Returned 0, [])
  else
    let len := rule_change_len h in
    if len <? 0 then (Returned (-1), [])
    else
      let frh := mem in
      read fam <-! rd_u8 frh offsetof_family ;;
      if negb (fam =? AF_INET) && negb (fam =? AF_INET6)
      then (Returned 0, [])
      else
        read action <-! rd_u8 frh offsetof_action ;;
        if negb (action =? FR_ACT_TO_TBL) then (Returned 0, [])
        else
          read tb <-! netlink_parse_rtattr
                        (replicate (Z.to_nat (FRA_MAX + 1)) None) FRA_MAX
                        (RTM_RTA frh) len ;;
          (* We don't care about rules not specifying an IIF. *)
          match tb_at tb FRA_IFNAME with
          | None => (Returned 0, [])
          | Some rta =>
              (* If we don't know the interface, we don't care. *)
              read ifname <-! rd_str (RTA_DATA rta) ;;
              let rule_ifp := if_lookup_by_name_per_ns ns_id ifname in
              match rule_ifp with
              | None => (Returned 0, [])
              | Some _ =>
                  read rule <-! netlink_rule_change_decode frh tb ;;
                  if zebra_debug_kernel then
                    match ifp rule with
                    | None => (Fault, [])
                    | Some _ =>
                        (Returned (kernel_pbr_rule_del rule),
                         [EvRuleDel rule])
                    end
                  else (Returned (kernel_pbr_rule_del rule), [EvRuleDel rule])
              end
          end.

End RuleNetlink.

(** ** Well-formed inputs

    The ranges the C types give to the fields of a rule: 32-bit unsigned
    [priority], [table] and [filter_bm]; one-byte [family] and [prefixlen];
    a 16-byte address; an interface name of at most [INTERFACE_NAMSIZ]
    non-NUL characters. *)

Definition wf_prefixb (p : prefix) : bool :=
  is_byteb (family p) && is_byteb (prefixlen p)
  && (length (u_prefix p) =? 16)%nat && forallb is_byteb (u_prefix p).

Definition wf_interfaceb (i : interface) : bool :=
  (strlen (name i) <=? INTERFACE_NAMSIZ)
  && forallb (fun b => (0 <? b) && (b <? 256)) (name i).

Definition is_u32b (x : Z) : bool := (0 <=? x) && (x <? 2 ^ 32).

Definition wf_ruleb (r : zebra_pbr_rule) : bool :=
  is_u32b (priority r) && is_u32b (table (action r))
  && is_u32b (filter_bm (filter r))
  && wf_prefixb (src_ip (filter r)) && wf_prefixb (dst_ip (filter r))
  && match ifp r with Some i => wf_interfaceb i | None => true end.

Definition wf_rule (r : zebra_pbr_rule) : Prop := wf_ruleb r = true.

(** The attributes [netlink_rule_update] lays out for a well-formed rule,
    in order (see [rtattrs_netlink_rule_update_req]). *)
Definition rule_attrs (r : zebra_pbr_rule) : list rtattr :=
  let bytelen := if family (src_ip (filter r)) =? AF_INET then 4 else 16 in
  [mk_rtattr 8 FRA_PRIORITY (store_u32 (priority r))]
  ++ match ifp r with
     | Some i =>
         [mk_rtattr (4 + (strlen (name i) + 1)) FRA_IFNAME (name i ++ [0])]
     | None => []
     end
  ++ (if IS_RULE_FILTERING_ON_SRC_IP r
      then [mk_rtattr (4 + bytelen) FRA_SRC
              (take (Z.to_nat bytelen) (u_prefix (src_ip (filter r))))]
      else [])
  ++ (if IS_RULE_FILTERING_ON_DST_IP r
      then [mk_rtattr (4 + bytelen) FRA_DST
              (take (Z.to_nat bytelen) (u_prefix (dst_ip (filter r))))]
      else [])
  ++ (if table (action r) <? 256 then []
      else [mk_rtattr 8 FRA_TABLE (store_u32 (table (action r)))]).

(** The request under construction has laid out [attrs] and its length is
    at most [k]. *)
Definition Stage (req : nlmsg) (k : Z) (attrs : list rtattr) : Prop :=
  rtattrs req = attrs /\ 0 <= nlmsg_len (n req) <= k.

(** ** Messages in memory *)

(** The bytes of a rule header and of an attribute with its padding (here
    zero), and the bytes a structured message takes from its rule header
    on. *)
Definition wire_fib_rule_hdr (f : fib_rule_hdr) : list Z :=
  [frh_family f; frh_dst_len f; frh_src_len f; frh_tos f; frh_table f;
   frh_res1 f; frh_res2 f; frh_action f] ++ le_split 4 (frh_flags f).

Definition wire_rtattr_hdr (a : rtattr) : list Z :=
  le_split 2 (rta_len a) ++ le_split 2 (rta_type a).

Definition wire_rtattr (a : rtattr) : list Z :=
  wire_rtattr_hdr a ++ rta_data a
  ++ replicate (Z.to_nat (RTA_ALIGN (rta_len a) - rta_len a)) 0.

Definition wire_data (m : nlmsg) : list Z :=
  wire_fib_rule_hdr (frh m) ++ flat_map wire_rtattr (rtattrs m).

(** The attribute [a] sits at [p]: its header and payload are the first
    [rta_len] bytes there.  The attributes [l] sit at [p] one after the
    other at their aligned offsets, whatever the padding between them and
    whatever follows the last one. *)
Definition rtattr_at (a : rtattr) (p : list Z) : Prop :=
  take (Z.to_nat (rta_len a)) p = wire_rtattr_hdr a ++ rta_data a.

Fixpoint rtattrs_at (l : list rtattr) (p : list Z) : Prop :=
  match l with
  | [] => True
  | a :: rest =>
      rtattr_at a p
      /\ rtattrs_at rest (drop (Z.to_nat (RTA_ALIGN (rta_len a))) p)
  end.

(** [mem] holds the rule header and the attributes of the message [m]. *)
Definition message_at (m : nlmsg) (mem : list Z) : Prop :=
  take (Z.to_nat sizeof_fib_rule_hdr) mem = wire_fib_rule_hdr (frh m)
  /\ rtattrs_at (rtattrs m) (RTM_RTA mem).

(** The attributes [l] with the addresses they sit at when laid out from
    [p]. *)
Fixpoint attr_ptrs (l : list rtattr) (p : list Z) : list (rtattr * list Z) :=
  match l with
  | [] => []
  | a :: rest =>
      (a, p) :: attr_ptrs rest (drop (Z.to_nat (RTA_ALIGN (rta_len a))) p)
  end.

(** ** The attributes of a received message

    The attributes found in [len] bytes at [rta], in buffer order, each
    with its address: an attribute is a 4-byte header holding [rta_len]
    and [rta_type] followed by [rta_len - 4] payload bytes, the next one
    starts [RTA_ALIGN(rta_len)] bytes further, and the sequence ends where
    fewer than four bytes are left or where [rta_len] is below four or
    runs past [len]. *)
Fixpoint rta_walk (turns : nat) (rta : list Z) (len : Z)
  : option (list (rtattr * list Z)) :=
  if len <? sizeof_rtattr then Some []
  else
    match turns with
    | O => None
    | S turns' =>
        match rd_u16 rta with
        | None => None
        | Some l =>
            if (l <? sizeof_rtattr) || (len <? l) then Some []
            else
              match rd_u16 (drop (Z.to_nat offsetof_rta_type) rta) with
              | None => None
              | Some ty =>
                  option_map
                    (cons (mk_rtattr l ty
                             (take (Z.to_nat (l - sizeof_rtattr))
                                (RTA_DATA rta)), rta))
                    (rta_walk turns' (drop (Z.to_nat (RTA_ALIGN l)) rta)
                       (len - RTA_ALIGN l))
              end
        end
    end.

(** The attributes of the notification with header [h] and data [mem]:
    those found after the rule header in the rest of the declared
    length. *)
Definition message_attrs (h : nlmsghdr) (mem : list Z)
  : option (list (rtattr * list Z)) :=
  rta_walk (length (RTM_RTA mem)) (RTM_RTA mem)
    (nlmsg_len h - NLMSG_LENGTH sizeof_fib_rule_hdr).

(** The attribute of type [ty] a message carries: the last one, when there
    are several. *)
Definition message_attr (ty : Z) (attrs : list (rtattr * list Z))
  : option (rtattr * list Z) :=
  last (List.filter (fun a => rta_type (fst a) =? ty) attrs).

(** ** The interest filters

    The conditions of lines 180-209 on a notification with header [h] and
    data [mem], received for namespace [ns_id]: it is a delete-rule
    notification, the family byte of its rule header is AF_INET or
    AF_INET6, the action byte is FR_ACT_TO_TBL, it carries an IFNAME
    attribute, and the C string at that attribute's payload names an
    interface the namespace knows. *)
Definition is_delrule (h : nlmsghdr) : Prop := nlmsg_type h = RTM_DELRULE.
Definition family_is_ip (mem : list Z) : Prop :=
  rd_u8 mem offsetof_family = Some AF_INET
  \/ rd_u8 mem offsetof_family = Some AF_INET6.
Definition action_is_to_tbl (mem : list Z) : Prop :=
  rd_u8 mem offsetof_action = Some FR_ACT_TO_TBL.
Definition ifname_known (lookup : Z -> list Z -> option interface)
  (h : nlmsghdr) (mem : list Z) (ns_id : Z) : Prop :=
  exists attrs a ifname i,
    message_attrs h mem = Some attrs
    /\ message_attr FRA_IFNAME attrs = Some a
    /\ rd_str (RTA_DATA (snd a)) = Some ifname
    /\ lookup ns_id ifname = Some i.

Definition passes_filters (lookup : Z -> list Z -> option interface)
  (h : nlmsghdr) (mem : list Z) (ns_id : Z) : Prop :=
  is_delrule h /\ family_is_ip mem /\ action_is_to_tbl mem
  /\ ifname_known lookup h mem ns_id.

(** The declared length of the message: shorter than the netlink header
    and the rule header together, or so large that the attribute length
    does not fit an [int]. *)
Definition bad_length (h : nlmsghdr) : Prop :=
  nlmsg_len h < NLMSG_LENGTH sizeof_fib_rule_hdr
  \/ 2 ^ 31 + NLMSG_LENGTH sizeof_fib_rule_hdr <= nlmsg_len h.

(** The declared message lies within the buffer; the buffer goes on for
    at least [k] bytes after it. *)
Definition in_buffer (h : nlmsghdr) (mem : list Z) : Prop :=
  nlmsg_len h - NLMSG_HDRLEN <= Z.of_nat (length mem).
Definition room_after (k : Z) (h : nlmsghdr) (mem : list Z) : Prop :=
  nlmsg_len h - NLMSG_HDRLEN + k <= Z.of_nat (length mem).

(** The interface name of the message is NUL-terminated within the
    buffer. *)
Definition ifname_terminated (h : nlmsghdr) (mem : list Z) : Prop :=
  forall attrs a,
    message_attrs h mem = Some attrs ->
    message_attr FRA_IFNAME attrs = Some a ->
    In 0 (RTA_DATA (snd a)).

(** What [netlink_parse_rtattr] does with one attribute, and the table it
    leaves after the attributes [attrs] of a rule message. *)
Definition tb_store (max : Z) (tb : list (option (list Z)))
  (a : rtattr * list Z) : list (option (list Z)) :=
  if rta_type (fst a) <=? max
  then <[Z.to_nat (rta_type (fst a)) := Some (snd a)]> tb
  else tb.

Definition tb_of (attrs : list (rtattr * list Z)) : list (option (list Z)) :=
  fold_left (tb_store FRA_MAX) attrs (replicate (Z.to_nat (FRA_MAX + 1)) None).

(** The fields of an attribute are in the range of their C types and its
    payload has the length [rta_len] declares. *)
Definition rtattr_wf (a : rtattr) : Prop :=
  4 <= rta_len a < 2 ^ 16 /\ 0 <= rta_type a < 2 ^ 16
  /\ Z.of_nat (length (rta_data a)) = rta_len a - 4.

(** The attributes [rta] all lie within [len] bytes, one after the other
    at their aligned offsets, so that the [RTA_OK] walk reaches each of
    them; their types are unsigned. *)
Fixpoint laid_out (rta : list rtattr) (len : Z) : Prop :=
  match rta with
  | [] => True
  | a :: rest =>
      RTA_OK a len = true /\ 0 <= rta_type a
      /\ laid_out rest (len - RTA_ALIGN (rta_len a))
  end.

(** ** Sample inputs *)

Module Sample.

(** The interface "eth0" and a namespace that knows only it. *)
Definition eth0_name : list Z := [101; 116; 104; 48].
Definition eth0 : interface := mk_interface eth0_name 2.
Definition lookup_eth0 (ns_id : Z) (ifname : list Z) : option interface :=
  if decide (ifname = eth0_name) then Some eth0 else None.

(** 10.0.0.0/24 and 192.168.1.0/24. *)
Definition net10 : prefix :=
  mk_prefix AF_INET 24 ([10; 0; 0; 0] ++ replicate 12 0).
Definition net192 : prefix :=
  mk_prefix AF_INET 24 ([192; 168; 1; 0] ++ replicate 12 0).

(** Rules on eth0 matching source and destination, to table 5 and to
    table 1000. *)
Definition rule_table5 : zebra_pbr_rule :=
  mk_rule 300 (Some eth0)
    (mk_filter (Z.lor PBR_FILTER_SRC_IP PBR_FILTER_DST_IP) net10 net192)
    (mk_action 5).
Definition rule_table1000 : zebra_pbr_rule :=
  mk_rule 300 (Some eth0)
    (mk_filter (Z.lor PBR_FILTER_SRC_IP PBR_FILTER_DST_IP) net10 net192)
    (mk_action 1000).

(** A rule matching only on the destination 192.168.1.0/24; the unused
    source prefix is left zeroed. *)
Definition rule_dst_only : zebra_pbr_rule :=
  mk_rule 300 (Some eth0) (mk_filter PBR_FILTER_DST_IP prefix_zero net192)
    (mk_action 5).

(** The notifications are written as structured messages [m]; the handler
    is given the header [n m] and, for the receive buffer, the bytes
    [wire_data m], possibly followed by more.

    A delete-rule notification for eth0 with SRC = 10.0.0.0/24, no DST, no
    TABLE attribute and header table 254. *)
Definition notif_del_eth0 : nlmsg :=
  mk_nlmsg (mk_nlmsghdr 48 RTM_DELRULE 0 0 0)
    (mk_fib_rule_hdr AF_INET 0 24 0 254 0 0 FR_ACT_TO_TBL 0)
    [mk_rtattr 9 FRA_IFNAME (eth0_name ++ [0]);
     mk_rtattr 8 FRA_SRC [10; 0; 0; 0]].


(** An add-rule notification with the same content as [notif_del_eth0]. *)
Definition notif_new_eth0 : nlmsg :=
  mk_nlmsg (mk_nlmsghdr 48 RTM_NEWRULE 0 0 0) (frh notif_del_eth0)
    (rtattrs notif_del_eth0).

(** A delete-rule notification that declares 20 bytes: the netlink header
    and the first four bytes of a rule header whose family (7) is neither
    IPv4 nor IPv6. *)
Definition notif_del_short : nlmsg :=
  mk_nlmsg (mk_nlmsghdr 20 RTM_DELRULE 0 0 0)
    (mk_fib_rule_hdr 7 0 0 0 0 0 0 0 0) [].

(** The rule the specification expects [notif_del_eth0] to decode to. *)
Definition rule_expected_eth0 : zebra_pbr_rule :=
  mk_rule 0 (Some eth0) (mk_filter PBR_FILTER_SRC_IP net10 prefix_zero)
    (mk_action 254).

(** The rule [netlink_rule_change] builds from [notif_del_eth0]. *)
Definition rule_decoded_eth0 : zebra_pbr_rule :=
  mk_rule 0 None
    (mk_filter PBR_FILTER_SRC_IP
       (mk_prefix 0 24 ([10; 0; 0; 0] ++ replicate 12 0)) prefix_zero)
    (mk_action 254).


(** An AF_INET6 notification for eth0 whose SRC attribute holds only four
    bytes and is followed by a PRIORITY attribute. *)
Definition notif_del_src_short : nlmsg :=
  mk_nlmsg (mk_nlmsghdr 56 RTM_DELRULE 0 0 0)
    (mk_fib_rule_hdr AF_INET6 0 24 0 254 0 0 FR_ACT_TO_TBL 0)
    [mk_rtattr 9 FRA_IFNAME (eth0_name ++ [0]);
     mk_rtattr 8 FRA_SRC [10; 0; 0; 0];
     mk_rtattr 8 FRA_PRIORITY (store_u32 300)].

(** Sixteen bytes left in the receive buffer after a message. *)
Definition stale : list Z := replicate 16 170.

End Sample.

(** ** Statements that are refuted below *)

(** C7 as stated: the header family is that of [src] when the rule filters
    on the source and that of [dst] otherwise. *)
Definition header_family_of_present_filter : Prop :=
  forall nl_pid cmd rule,
    wf_rule rule ->
    frh_family (frh (netlink_rule_update_req nl_pid cmd rule)) =
    if IS_RULE_FILTERING_ON_SRC_IP rule
    then family (src_ip (filter rule))
    else family (dst_ip (filter rule)).

(** C4 as stated: the deletion callback is invoked only for a notification
    that passes the interest filters, and a notification failing any of
    them is dropped with a success return and no callback.  Only
    notifications that lie within the buffer are considered. *)
Definition filtered_notification_returns_success : Prop :=
  forall lookup del_ret debug h mem ns_id startup,
    0 <= nlmsg_len h < 2 ^ 32 ->
    in_buffer h mem -> ifname_terminated h mem ->
    let res := netlink_rule_change lookup del_ret debug h mem ns_id startup in
    (forall rule, In (EvRuleDel rule) (snd res) ->
                  passes_filters lookup h mem ns_id)
    /\ (~ passes_filters lookup h mem ns_id -> res = (Returned 0, [])).

(** C10 as stated: a delete-rule notification whose declared length is
    below that of the two headers is rejected with -1 and no callback, and
    no other notification is rejected with an error value. *)
Definition short_delrule_is_the_only_error : Prop :=
  forall lookup del_ret debug h mem ns_id startup,
    0 <= nlmsg_len h < 2 ^ 32 ->
    let res := netlink_rule_change lookup del_ret debug h mem ns_id startup in
    (is_delrule h -> nlmsg_len h < NLMSG_LENGTH sizeof_fib_rule_hdr ->
       res = (Returned (-1), []))
    /\ (forall ret, res = (Returned ret, []) -> ret <> 0 ->
          is_delrule h /\ nlmsg_len h < NLMSG_LENGTH sizeof_fib_rule_hdr).

(** ** Sizes and the echo of a request

    What is needed to state what [netlink_rule_change] makes of a
    message built by [netlink_rule_update]. *)

(** The bytes the attributes [l] take in the buffer, each padded to its
    aligned length. *)
Definition attrs_size (l : list rtattr) : Z :=
  fold_right (fun a s => RTA_ALIGN (rta_len a) + s) 0 l.

(** The request under construction has laid out [attrs] and its length
    is exactly the header plus their size. *)
Definition Exact (req : nlmsg) (attrs : list rtattr) : Prop :=
  rtattrs req = attrs
  /\ nlmsg_len (n req) = NLMSG_LENGTH sizeof_rtmsg + attrs_size attrs.

(** The number of address bytes [netlink_rule_update] writes for a rule. *)
Definition rule_bytelen (r : zebra_pbr_rule) : nat :=
  if family (src_ip (filter r)) =? AF_INET then 4%nat else 16%nat.

(** A prefix as it comes back from the wire: [bl] address bytes, the
    prefix length, no family. *)
Definition echo_prefix (bl : nat) (p : prefix) : prefix :=
  mk_prefix 0 (prefixlen p) (take bl (u_prefix p) ++ replicate (16 - bl) 0).

(** The rule [netlink_rule_change] decodes from the request that
    [netlink_rule_update] builds for [r] (see [decode_request]). *)
Definition echo_rule (r : zebra_pbr_rule) : zebra_pbr_rule :=
  let bl := rule_bytelen r in
  let bm := if IS_RULE_FILTERING_ON_SRC_IP r
            then Z.lor 0 PBR_FILTER_SRC_IP else 0 in
  mk_rule (priority r) None
    (mk_filter
       (if IS_RULE_FILTERING_ON_DST_IP r then Z.lor bm PBR_FILTER_DST_IP
        else bm)
       (if IS_RULE_FILTERING_ON_SRC_IP r
        then echo_prefix bl (src_ip (filter r)) else prefix_zero)
       (if IS_RULE_FILTERING_ON_DST_IP r
        then echo_prefix bl (dst_ip (filter r)) else prefix_zero))
    (mk_action (table (action r))).

(** ** pbrd/pbr_vty.c: the PBR configuration commands

    The command handlers of the PBR daemon.  Each handler works on the
    object its node gives it (a [pbr_map_sequence] in pbr-map mode, an
    interface in interface mode) and returns a command status.  Text sent
    to the terminal and calls into the rest of pbrd are recorded in
    order.  The declarations of pbrd/pbr_map.h, lib/nexthop.h, lib/vrf.h
    and lib/command.h are not among the sources: the records below keep
    the fields this file reads and writes, and the functions it calls are
    parameters. *)

Module PbrVty.
Import String.

(** The two command statuses the handlers return. *)
Inductive cmd_ret := CMD_SUCCESS | CMD_WARNING_CONFIG_FAILED.

(** A C string argument of [vty_out]'s [%s]; a NULL pointer prints as
    glibc prints it. *)
Definition str_or_null (s : option string) : string :=
  match s with Some s => s | None => "(null)"%string end.

Definition nl : string := String (Ascii.ascii_of_nat 10) EmptyString.

(** [strcmp(a, b) == 0] *)
Definition streq (a b : string) : bool := String.eqb a b.

(** [enum nexthop_types_t], with the value 0 that [memset] leaves. *)
Inductive nexthop_types_t :=
| NEXTHOP_TYPE_0
| NEXTHOP_TYPE_IPV4
| NEXTHOP_TYPE_IPV4_IFINDEX
| NEXTHOP_TYPE_IPV6
| NEXTHOP_TYPE_IPV6_IFINDEX.

(** [struct nexthop]: [gate] holds the 16 bytes of [union g_addr]. *)
Record nexthop := mk_nexthop {
  nh_vrf_id : Z;
  nh_ifindex : Z;
  nh_type : nexthop_types_t;
  nh_gate : list Z
}.

(** [memset(&nhop, 0, sizeof(nhop))] *)
Definition nexthop_zero : nexthop :=
  mk_nexthop 0 0 NEXTHOP_TYPE_0 (replicate 16 0).

(** [struct nexthop_group]: the list hanging off [nhg->nexthop]. *)
Record nexthop_group := mk_nhg {
  nhg_nexthop : list nexthop
}.

(** [union sockunion]: the family, and the address seen as
    [sin.sin_addr] (4 bytes) or [sin6.sin6_addr] (16 bytes). *)
Record sockunion := mk_sockunion {
  sa_family : Z;
  sin_addr : list Z;
  sin6_addr : list Z
}.

(** [struct vrf] *)
Record vrf := mk_vrf {
  vrf_id : Z;
  vrf_name : string
}.

(** [struct pbr_map_sequence]; [parent_name] is [pbrms->parent->name]. *)
Record pbr_map_sequence := mk_pbrms {
  parent_name : string;
  seqno : Z;                         (* uint32_t *)
  family : Z;                        (* unsigned char *)
  src : option Frr.prefix;           (* struct prefix *, NULL is None *)
  dst : option Frr.prefix;
  nhgrp_name : option string;        (* char * *)
  nhg : option nexthop_group;        (* struct nexthop_group * *)
  internal_nhg_name : option string
}.

Definition set_family (v : Z) (p : pbr_map_sequence) : pbr_map_sequence :=
  mk_pbrms (parent_name p) (seqno p) v (src p) (dst p) (nhgrp_name p)
    (nhg p) (internal_nhg_name p).
Definition set_src (v : option Frr.prefix) (p : pbr_map_sequence)
  : pbr_map_sequence :=
  mk_pbrms (parent_name p) (seqno p) (family p) v (dst p) (nhgrp_name p)
    (nhg p) (internal_nhg_name p).
Definition set_dst (v : option Frr.prefix) (p : pbr_map_sequence)
  : pbr_map_sequence :=
  mk_pbrms (parent_name p) (seqno p) (family p) (src p) v (nhgrp_name p)
    (nhg p) (internal_nhg_name p).
Definition set_nhgrp_name (v : option string) (p : pbr_map_sequence)
  : pbr_map_sequence :=
  mk_pbrms (parent_name p) (seqno p) (family p) (src p) (dst p) v
    (nhg p) (internal_nhg_name p).
Definition set_nhg (v : option nexthop_group) (p : pbr_map_sequence)
  : pbr_map_sequence :=
  mk_pbrms (parent_name p) (seqno p) (family p) (src p) (dst p)
    (nhgrp_name p) v (internal_nhg_name p).
Definition set_internal_nhg_name (v : option string) (p : pbr_map_sequence)
  : pbr_map_sequence :=
  mk_pbrms (parent_name p) (seqno p) (family p) (src p) (dst p)
    (nhgrp_name p) (nhg p) v.

(** [struct pbr_map]: its name and the list [pbrm->seqnumbers]. *)
Record pbr_map := mk_pbrm {
  pbrm_name : string;
  seqnumbers : list pbr_map_sequence
}.

(** [struct pbr_interface], the [ifp->info] of an interface. *)
Record pbr_interface := mk_pbr_ifp {
  mapname : string
}.

(** What a handler does besides returning: terminal output and calls
    into pbrd, in order. *)
Inductive vty_event :=
| VtyOut (s : string)
| CallMapCheck (pbrms : pbr_map_sequence)
| CallMapDelete (pbrms : pbr_map_sequence)
| CallMapDeleteNexthopGroup (pbrms : pbr_map_sequence)
| CallNhtAddIndividualNexthop (pbrms : pbr_map_sequence)
| CallNhtDeleteIndividualNexthop (pbrms : pbr_map_sequence)
| CallIfNew (ifp : interface)
| CallMapInterfaceDelete (pbrm : pbr_map) (ifp : interface)
| CallMapAddInterface (pbrm : pbr_map) (ifp : interface).

Definition is_call (e : vty_event) : bool :=
  match e with VtyOut _ => false | _ => true end.

(** [strcpy(dst, src)] into a buffer of [size] bytes: writing past the
    buffer is a fault. *)
Definition strcpy (size : nat) (s : string) : outcome string :=
  if (String.length s <? size)%nat then Returned s else Fault.

Section Commands.

(** lib/prefix.c: [prefix_same p1 p2] with [p1] possibly NULL; the zeroed
    prefix [prefix_new] returns; [prefix_copy dest src] as the content of
    [dest] afterwards. *)
Variable prefix_same : option Frr.prefix -> Frr.prefix -> bool.
Variable prefix_new : Frr.prefix.
Variable prefix_copy : Frr.prefix -> Frr.prefix -> Frr.prefix.

(** pbrd/pbr_map.c and pbrd/pbr_nht.c: each function as what it leaves in
    the sequence it is given. *)
Variable pbr_map_check : pbr_map_sequence -> pbr_map_sequence.
Variable pbr_map_delete_nexthop_group : pbr_map_sequence -> pbr_map_sequence.
Variable pbr_nht_add_individual_nexthop :
  pbr_map_sequence -> pbr_map_sequence.
Variable pbr_nht_delete_individual_nexthop :
  pbr_map_sequence -> pbr_map_sequence.
Variable pbr_nht_nexthop_make_name : string -> Z -> Z -> string.
Variable PBR_MAP_NAMELEN : Z.
Variable pbrm_find : string -> option pbr_map.
Variable pbr_if_new : interface -> pbr_interface.
Variable sizeof_mapname : nat.

(** lib/nexthop_group.c, lib/nexthop.c, lib/vrf.c, lib/if.c:
    [nhgc_find name] as whether the group exists; [nexthop_exists] as the
    nexthop found, if any; the empty group [nexthop_group_new] returns;
    [nexthop_add] as the list afterwards. *)
Variable nhgc_find : string -> bool.
Variable nexthop_exists : nexthop_group -> nexthop -> option nexthop.
Variable nexthop_group_new : nexthop_group.
Variable nexthop_add : list nexthop -> nexthop -> list nexthop.
Variable vrf_lookup_by_name : string -> option vrf.
Variable vrf_lookup_by_id : Z -> option vrf.
Variable VRF_DEFAULT : Z.
Variable ifname2ifindex : string -> Z -> Z.
Variable IFINDEX_INTERNAL : Z.

Definition cmd_result : Type :=
  cmd_ret * pbr_map_sequence * list vty_event.

(** [no_pbr_map], lines 57-86.  [seq] is [atoi(argv[4]->arg)] when the
    command has the [seq] argument ([argc > 3]). *)
Fixpoint no_pbr_map_loop (seqno : Z) (l : list pbr_map_sequence)
  : list vty_event :=
  match l with
  | [] => []
  | pbrms :: rest =>
      if negb (seqno =? 0) && negb (PbrVty.seqno pbrms =? seqno)
      then no_pbr_map_loop seqno rest
      else CallMapDelete pbrms :: no_pbr_map_loop seqno rest
  end.

Definition no_pbr_map (pbrm_name : string) (seq : option Z)
  : cmd_ret * list vty_event :=
  let seqno := match seq with Some v => u32 v | None => 0 end in
  match pbrm_find pbrm_name with
  | None =>
      (CMD_SUCCESS, [VtyOut ("pbr-map " ++ pbrm_name ++ " not found" ++ nl)])
  | Some pbrm => (CMD_SUCCESS, no_pbr_map_loop seqno (seqnumbers pbrm))
  end.

(** [pbr_map_match_src], lines 88-115. *)
Definition pbr_map_match_src (no : bool) (prefix : Frr.prefix)
  (pbrms : pbr_map_sequence) : cmd_result :=
  let pbrms := set_family (Frr.family prefix) pbrms in
  if negb no then
    if prefix_same (src pbrms) prefix then (CMD_SUCCESS, pbrms, [])
    else
      let d := match src pbrms with Some d => d | None => prefix_new end in
      let pbrms := set_src (Some (prefix_copy d prefix)) pbrms in
      (CMD_SUCCESS, pbr_map_check pbrms, [CallMapCheck pbrms])
  else
    let pbrms := set_src None pbrms in
    (CMD_SUCCESS, pbr_map_check pbrms, [CallMapCheck pbrms]).

(** [pbr_map_match_dst], lines 117-144. *)
Definition pbr_map_match_dst (no : bool) (prefix : Frr.prefix)
  (pbrms : pbr_map_sequence) : cmd_result :=
  let pbrms := set_family (Frr.family prefix) pbrms in
  if negb no then
    if prefix_same (dst pbrms) prefix then (CMD_SUCCESS, pbrms, [])
    else
      let d := match dst pbrms with Some d => d | None => prefix_new end in
      let pbrms := set_dst (Some (prefix_copy d prefix)) pbrms in
      (CMD_SUCCESS, pbr_map_check pbrms, [CallMapCheck pbrms])
  else
    let pbrms := set_dst None pbrms in
    (CMD_SUCCESS, pbr_map_check pbrms, [CallMapCheck pbrms]).

(** [pbr_map_nexthop_group], lines 146-193. *)
Definition pbr_map_nexthop_group (no : bool) (name : string)
  (pbrms : pbr_map_sequence) : cmd_result :=
  match nhg pbrms with
  | Some _ =>
      (CMD_WARNING_CONFIG_FAILED, pbrms,
       [VtyOut ("A `set nexthop XX` command already exists, "
                ++ "please remove that first" ++ nl)])
  | None =>
      let tr :=
        if nhgc_find name then []
        else [VtyOut ("Specified nexthop-group " ++ name
                      ++ " does not exist" ++ nl);
              VtyOut ("PBR-MAP will not be applied until it is created"
                      ++ nl)] in
      if no then
        match nhgrp_name pbrms with
        | Some cur =>
            if streq name cur then
              (CMD_SUCCESS, pbr_map_delete_nexthop_group pbrms,
               tr ++ [CallMapDeleteNexthopGroup pbrms])
            else
              (CMD_WARNING_CONFIG_FAILED, pbrms,
               tr ++ [VtyOut ("Nexthop Group specified: " ++ name
                              ++ " does not exist to remove")])
        | None =>
            (CMD_WARNING_CONFIG_FAILED, pbrms,
             tr ++ [VtyOut ("Nexthop Group specified: " ++ name
                            ++ " does not exist to remove")])
        end
      else
        match nhgrp_name pbrms with
        | Some cur =>
            if negb (streq name cur) then
              (CMD_WARNING_CONFIG_FAILED, pbrms,
               tr ++ [VtyOut ("Please delete current nexthop group "
                              ++ "before modifying current one")])
            else (CMD_SUCCESS, pbrms, tr)
        | None =>
            let pbrms := set_nhgrp_name (Some name) pbrms in
            (CMD_SUCCESS, pbr_map_check pbrms, tr ++ [CallMapCheck pbrms])
        end
  end.

(** [pbr_map_nexthop], lines 195-300.  [intf] and [name] are NULL when
    the optional arguments are absent. *)
Definition pbr_map_nexthop (no : bool) (addr : sockunion)
  (intf : option string) (name : option string) (pbrms : pbr_map_sequence)
  : cmd_result :=
  match nhgrp_name pbrms with
  | Some _ =>
      (CMD_WARNING_CONFIG_FAILED, pbrms,
       [VtyOut ("Please unconfigure the nexthop group before adding "
                ++ "an individual nexthop")])
  | None =>
      let vrf :=
        match name with
        | Some nm => vrf_lookup_by_name nm
        | None => vrf_lookup_by_id VRF_DEFAULT
        end in
      match vrf with
      | None =>
          (CMD_WARNING_CONFIG_FAILED, pbrms,
           [VtyOut ("Specified: " ++ str_or_null name ++ " is non-existent"
                    ++ nl)])
      | Some vrf =>
          let nhop := nexthop_zero in
          let nhop := mk_nexthop (vrf_id vrf) (nh_ifindex nhop)
                        (nh_type nhop) (nh_gate nhop) in
          let is_v4 := sa_family addr =? AF_INET in
          let nhop :=
            if is_v4 then
              mk_nexthop (nh_vrf_id nhop) (nh_ifindex nhop) (nh_type nhop)
                (memcpy (nh_gate nhop) (sin_addr addr) 4)
            else
              mk_nexthop (nh_vrf_id nhop) (nh_ifindex nhop) (nh_type nhop)
                (memcpy (nh_gate nhop) (sin6_addr addr) 16) in
          let nhop :=
            match intf with
            | Some i =>
                mk_nexthop (nh_vrf_id nhop) (ifname2ifindex i (vrf_id vrf))
                  (if is_v4 then NEXTHOP_TYPE_IPV4_IFINDEX
                   else NEXTHOP_TYPE_IPV6_IFINDEX)
                  (nh_gate nhop)
            | None =>
                mk_nexthop (nh_vrf_id nhop) (nh_ifindex nhop)
                  (if is_v4 then NEXTHOP_TYPE_IPV4 else NEXTHOP_TYPE_IPV6)
                  (nh_gate nhop)
            end in
          let intf_missing :=
            match intf with
            | Some i =>
                if nh_ifindex nhop =? IFINDEX_INTERNAL then Some i else None
            | None => None
            end in
          match intf_missing with
          | Some i =>
              (CMD_WARNING_CONFIG_FAILED, pbrms,
               [VtyOut ("Specified Intf " ++ i ++ " does not exist in vrf: "
                        ++ vrf_name vrf ++ nl)])
          | None =>
              let found :=
                match nhg pbrms with
                | Some g => Some (pbrms, g, nexthop_exists g nhop)
                | None =>
                    if no then None
                    else
                      let g := nexthop_group_new in
                      let pbrms := set_nhg (Some g) pbrms in
                      let pbrms :=
                        set_internal_nhg_name
                          (Some (pbr_nht_nexthop_make_name
                                   (parent_name pbrms) PBR_MAP_NAMELEN
                                   (seqno pbrms)))
                          pbrms in
                      Some (pbrms, g, None)
                end in
              match found with
              | None =>
                  (CMD_WARNING_CONFIG_FAILED, pbrms,
                   [VtyOut "No nexthops to delete"])
              | Some (pbrms, g, nh) =>
                  if no then
                    match nh with
                    | Some _ =>
                        (CMD_SUCCESS,
                         pbr_nht_delete_individual_nexthop pbrms,
                         [CallNhtDeleteIndividualNexthop pbrms])
                    | None => (CMD_SUCCESS, pbrms, [])
                    end
                  else
                    match nh with
                    | Some _ => (CMD_SUCCESS, pbrms, [])
                    | None =>
                        match nhg_nexthop g with
                        | _ :: _ =>
                            (CMD_WARNING_CONFIG_FAILED, pbrms,
                             [VtyOut ("If you would like more than one "
                                      ++ "nexthop please use "
                                      ++ "nexthop-groups")])
                        | [] =>
                            (* must be adding new nexthop since !no and
                               !nexthop_exists *)
                            let nh := nhop in
                            let pbrms :=
                              set_nhg
                                (Some (mk_nhg
                                         (nexthop_add (nhg_nexthop g) nh)))
                                pbrms in
                            let pbrms1 :=
                              pbr_nht_add_individual_nexthop pbrms in
                            (CMD_SUCCESS, pbr_map_check pbrms1,
                             [CallNhtAddIndividualNexthop pbrms;
                              CallMapCheck pbrms1])
                        end
                    end
              end
          end
      end
  end.

(** [pbr_policy], lines 302-349, on the interface [ifp] whose [ifp->info]
    is [info].  The result is the [pbr_interface] the interface ends up
    with. *)
Definition map_event (f : pbr_map -> interface -> vty_event)
  (pbrm : option pbr_map) (ifp : interface) : list vty_event :=
  match pbrm with Some m => [f m ifp] | None => [] end.

Definition pbr_policy (no : bool) (mapname : string) (ifp : interface)
  (info : option pbr_interface)
  : outcome (cmd_ret * pbr_interface) * list vty_event :=
  let pbrm := pbrm_find mapname in
  let '(pbr_ifp, tr) :=
    match info with
    | Some p => (p, [])
    | None => (pbr_if_new ifp, [CallIfNew ifp])
    end in
  if no then
    if streq (PbrVty.mapname pbr_ifp) mapname then
      match strcpy sizeof_mapname EmptyString with
      | Fault => (Fault, tr)
      | Returned m =>
          (Returned (CMD_SUCCESS, mk_pbr_ifp m),
           tr ++ map_event CallMapInterfaceDelete pbrm ifp)
      end
    else (Returned (CMD_SUCCESS, pbr_ifp), tr)
  else if streq (PbrVty.mapname pbr_ifp) EmptyString then
    match strcpy sizeof_mapname mapname with
    | Fault => (Fault, tr)
    | Returned m =>
        (Returned (CMD_SUCCESS, mk_pbr_ifp m),
         tr ++ map_event CallMapAddInterface pbrm ifp)
    end
  else if negb (streq (PbrVty.mapname pbr_ifp) mapname) then
    let old_pbrm := pbrm_find (PbrVty.mapname pbr_ifp) in
    let tr := tr ++ map_event CallMapInterfaceDelete old_pbrm ifp in
    match strcpy sizeof_mapname mapname with
    | Fault => (Fault, tr)
    | Returned m =>
        (Returned (CMD_SUCCESS, mk_pbr_ifp m),
         tr ++ map_event CallMapAddInterface pbrm ifp)
    end
  else (Returned (CMD_SUCCESS, pbr_ifp), tr).

End Commands.

End PbrVty.

(** The nexthop [pbr_map_nexthop] builds from its arguments, lines
    227-256, for the vrf [v]. *)
Definition built_nexthop (ifname2ifindex : String.string -> Z -> Z)
  (addr : PbrVty.sockunion)
  (intf : option String.string) (v : PbrVty.vrf) : PbrVty.nexthop :=
  PbrVty.mk_nexthop (PbrVty.vrf_id v)
    (match intf with
     | Some i => ifname2ifindex i (PbrVty.vrf_id v)
     | None => 0
     end)
    (match intf with
     | Some _ =>
         if PbrVty.sa_family addr =? AF_INET
         then PbrVty.NEXTHOP_TYPE_IPV4_IFINDEX
         else PbrVty.NEXTHOP_TYPE_IPV6_IFINDEX
     | None =>
         if PbrVty.sa_family addr =? AF_INET
         then PbrVty.NEXTHOP_TYPE_IPV4
         else PbrVty.NEXTHOP_TYPE_IPV6
     end)
    (if PbrVty.sa_family addr =? AF_INET
     then memcpy (replicate 16 0) (PbrVty.sin_addr addr) 4
     else memcpy (replicate 16 0) (PbrVty.sin6_addr addr) 16).

(** The [pbr_interface] [pbr_policy] works on: [ifp->info], or the one
    [pbr_if_new] makes when there is none. *)
Definition policy_target (pbr_if_new : interface -> PbrVty.pbr_interface)
  (ifp : interface)
  (info : option PbrVty.pbr_interface) : PbrVty.pbr_interface :=
  match info with Some p => p | None => pbr_if_new ifp end.

(** The call [pbr_policy] makes first when the interface has no
    [ifp->info]. *)
Definition policy_new_events (ifp : interface)
  (info : option PbrVty.pbr_interface) : list PbrVty.vty_event :=
  match info with Some _ => [] | None => [PbrVty.CallIfNew ifp] end.

(** ** More sample inputs *)

Module Sample2.

(** A rule like [Sample.rule_table5] that names no interface. *)
Definition rule_no_ifp : zebra_pbr_rule :=
  mk_rule 300 None (filter Sample.rule_table5) (mk_action 5).

(** The eth0 delete-rule notification with a declared length of
    0xffffffff. *)
Definition notif_del_huge : nlmsg :=
  mk_nlmsg (mk_nlmsghdr (2 ^ 32 - 1) RTM_DELRULE 0 0 0)
    (frh Sample.notif_del_eth0) (rtattrs Sample.notif_del_eth0).

End Sample2.

Module SampleCli.
Import String.

(** The names used below. *)
Definition name_MAP : string := "MAP".
Definition name_OLD : string := "OLD".
Definition name_OTHER : string := "OTHER".
Definition name_GRP : string := "GRP".
Definition name_eth0 : string := "eth0".

(** Stand-ins for the functions pbr_vty.c calls: prefixes are compared
    and copied whole, the pbrd functions leave the sequence as it is, a
    new nexthop is appended, and the only vrf is the default one. *)
Definition prefix_same (o : option Frr.prefix) (p : Frr.prefix) : bool :=
  match o with
  | Some q =>
      (Frr.family q =? Frr.family p) && (prefixlen q =? prefixlen p)
      && bool_decide (u_prefix q = u_prefix p)
  | None => false
  end.
Definition prefix_copy (d s : Frr.prefix) : Frr.prefix := s.
Definition keep (p : PbrVty.pbr_map_sequence) : PbrVty.pbr_map_sequence := p.
Definition make_name (nm : String.string) (len seqno : Z) : String.string :=
  nm.
Definition nexthop_exists (g : PbrVty.nexthop_group) (nh : PbrVty.nexthop)
  : option PbrVty.nexthop := None.
Definition nexthop_add (l : list PbrVty.nexthop) (nh : PbrVty.nexthop)
  : list PbrVty.nexthop := l ++ [nh].
Definition vrf_default : PbrVty.vrf := PbrVty.mk_vrf 0 "default".
Definition vrf_lookup_by_name (nm : String.string) : option PbrVty.vrf :=
  None.
Definition vrf_lookup_by_id (id : Z) : option PbrVty.vrf :=
  if id =? 0 then Some vrf_default else None.
Definition ifname2ifindex (nm : String.string) (vrf_id : Z) : Z :=
  if String.eqb nm name_eth0 then 2 else 0.

(** A pbr-map "MAP" with sequences 10 and 20, nothing configured in
    them, and the lookup that knows only this map. *)
Definition pbrms10 : PbrVty.pbr_map_sequence :=
  PbrVty.mk_pbrms name_MAP 10 0 None None None None None.
Definition pbrms20 : PbrVty.pbr_map_sequence :=
  PbrVty.mk_pbrms name_MAP 20 0 None None None None None.
Definition pbrm_MAP : PbrVty.pbr_map :=
  PbrVty.mk_pbrm name_MAP [pbrms10; pbrms20].
Definition pbrm_find (nm : String.string) : option PbrVty.pbr_map :=
  if String.eqb nm name_MAP then Some pbrm_MAP else None.

(** Sequence 10 with the nexthop-group "GRP" configured. *)
Definition pbrms10_grp : PbrVty.pbr_map_sequence :=
  PbrVty.set_nhgrp_name (Some name_GRP) pbrms10.

(** The gateway 10.0.0.1. *)
Definition gw10 : PbrVty.sockunion :=
  PbrVty.mk_sockunion AF_INET [10; 0; 0; 1] (replicate 16 0).

(** An interface not bound to any pbr-map, one bound to "MAP" and one
    bound to "OLD". *)
Definition pbr_ifp_none : PbrVty.pbr_interface :=
  PbrVty.mk_pbr_ifp EmptyString.
Definition pbr_ifp_MAP : PbrVty.pbr_interface := PbrVty.mk_pbr_ifp name_MAP.
Definition pbr_ifp_OLD : PbrVty.pbr_interface := PbrVty.mk_pbr_ifp name_OLD.
Definition pbr_if_new (ifp : interface) : PbrVty.pbr_interface :=
  pbr_ifp_none.

End SampleCli.

(** * Properties *)

(** ** Arithmetic of the conversions and of the alignment macros *)

Lemma le_combine_split (k : nat) (v : Z) :
  le_combine (le_split k v) = v mod 2 ^ (8 * Z.of_nat k).
Proof.
  revert v. induction k as [|k IH]; intros v; cbn [le_split le_combine].
  - rewrite Z.mul_0_r, Z.pow_0_r, Z.mod_1_r. reflexivity.
  - rewrite IH. unfold u8.
    replace (8 * Z.of_nat (S k)) with (8 + 8 * Z.of_nat k) by lia.
    rewrite <- !Z.land_ones by lia.
    Z.bitblast.
Qed.

Lemma length_le_split (k : nat) (v : Z) : length (le_split k v) = k.
Proof. revert v. induction k; intros; cbn; auto. Qed.

Lemma load_store_u32 (v : Z) : load_u32 (store_u32 v) = u32 v.
Proof.
  unfold load_u32, store_u32.
  rewrite take_ge by (rewrite length_le_split; lia).
  apply le_combine_split.
Qed.

Lemma u32_small (v : Z) : 0 <= v < 2 ^ 32 -> u32 v = v.
Proof. intros H. unfold u32. apply Z.mod_small, H. Qed.

Lemma u16_small (v : Z) : 0 <= v < 2 ^ 16 -> u16 v = v.
Proof. intros H. unfold u16. apply Z.mod_small, H. Qed.

Lemma u8_small (v : Z) : 0 <= v < 2 ^ 8 -> u8 v = v.
Proof. intros H. unfold u8. apply Z.mod_small, H. Qed.

Lemma RTA_ALIGN_div (x : Z) : RTA_ALIGN x = 4 * ((x + 3) / 4).
Proof.
  unfold RTA_ALIGN. change 3 with (Z.ones 2) at 2.
  rewrite <- Z.ldiff_land, Z.ldiff_ones_r by lia.
  rewrite Z.shiftl_mul_pow2, Z.shiftr_div_pow2 by lia.
  change (2 ^ 2) with 4. lia.
Qed.

Lemma RTA_ALIGN_bounds (x : Z) : x <= RTA_ALIGN x <= x + 3.
Proof. rewrite RTA_ALIGN_div. Z.div_mod_to_equations. lia. Qed.

Lemma NLMSG_ALIGN_bounds (x : Z) : x <= NLMSG_ALIGN x <= x + 3.
Proof. apply RTA_ALIGN_bounds. Qed.

Lemma RTA_LENGTH_eq (alen : Z) : RTA_LENGTH alen = 4 + alen.
Proof. reflexivity. Qed.

Lemma int_of_small (x : Z) : - 2 ^ 31 <= x < 2 ^ 31 -> int_of x = x.
Proof. intros H. unfold int_of. rewrite Z.mod_small; lia. Qed.

(** ** The attribute writer *)

Lemma frh_addattr_l req maxlen type data alen :
  frh (snd (addattr_l req maxlen type data alen)) = frh req.
Proof. unfold addattr_l. destruct (_ <? _); reflexivity. Qed.

Lemma n_addattr_l req maxlen type data alen :
  let req' := snd (addattr_l req maxlen type data alen) in
  nlmsg_type (n req') = nlmsg_type (n req)
  /\ nlmsg_flags (n req') = nlmsg_flags (n req)
  /\ nlmsg_seq (n req') = nlmsg_seq (n req)
  /\ nlmsg_pid (n req') = nlmsg_pid (n req).
Proof. unfold addattr_l. destruct (_ <? _); cbn; auto. Qed.

Lemma addattr_l_stage req k attrs maxlen type data alen :
  Stage req k attrs ->
  0 <= alen -> k + alen + 10 <= maxlen -> maxlen < 2 ^ 16 ->
  0 <= type < 2 ^ 16 ->
  Stage (snd (addattr_l req maxlen type data alen)) (k + alen + 10)
        (attrs ++ [mk_rtattr (4 + alen) type (take (Z.to_nat alen) data)]).
Proof.
  intros [Ha [Hl Hk]] Halen Hfit Hmax Hty. unfold addattr_l.
  rewrite RTA_LENGTH_eq.
  pose proof (NLMSG_ALIGN_bounds (nlmsg_len (n req))) as Hn.
  pose proof (RTA_ALIGN_bounds (4 + alen)) as Hr.
  destruct (Z.ltb_spec maxlen
              (NLMSG_ALIGN (nlmsg_len (n req)) + RTA_ALIGN (4 + alen)));
    [lia|].
  cbn. unfold Stage; cbn. rewrite Ha.
  rewrite (u16_small (4 + alen)), (u16_small type), u32_small by lia.
  split; [reflexivity | lia].
Qed.

Lemma addattr32_stage req k attrs maxlen type v :
  Stage req k attrs ->
  k + 14 <= maxlen -> maxlen < 2 ^ 16 -> 0 <= type < 2 ^ 16 ->
  Stage (snd (addattr32 req maxlen type v)) (k + 14)
        (attrs ++ [mk_rtattr 8 type (store_u32 v)]).
Proof.
  intros HS Hfit Hmax Hty. unfold addattr32.
  pose proof (addattr_l_stage req k attrs maxlen type (store_u32 v) 4 HS)
    as H.
  rewrite take_ge in H by (unfold store_u32; rewrite length_le_split; lia).
  replace (k + 14) with (k + 4 + 10) by lia. apply H; lia.
Qed.

Lemma Stage_set_frh req k attrs f :
  Stage req k attrs -> Stage (Req.with_frh f req) k attrs.
Proof. intros H. exact H. Qed.

Lemma Stage_weaken req k k' attrs attrs' :
  Stage req k attrs -> attrs = attrs' -> k <= k' -> Stage req k' attrs'.
Proof. intros [Ha Hk] <- Hle. split; [exact Ha | lia]. Qed.

(** ** What well-formedness gives *)

Lemma is_u32b_spec (x : Z) : is_u32b x = true -> 0 <= x < 2 ^ 32.
Proof. unfold is_u32b. intros H. apply andb_prop in H. lia. Qed.

Lemma is_byteb_spec (x : Z) : is_byteb x = true -> 0 <= x < 256.
Proof. unfold is_byteb. intros H. apply andb_prop in H. lia. Qed.

Lemma wf_prefixb_spec (p : prefix) :
  wf_prefixb p = true ->
  0 <= family p < 256 /\ 0 <= prefixlen p < 256
  /\ length (u_prefix p) = 16%nat.
Proof.
  unfold wf_prefixb. intros H.
  apply andb_prop in H as [H _]. apply andb_prop in H as [H Hlen].
  apply andb_prop in H as [Hf Hp].
  apply is_byteb_spec in Hf, Hp. apply Nat.eqb_eq in Hlen. auto.
Qed.

Lemma wf_interfaceb_spec (i : interface) :
  wf_interfaceb i = true -> 0 <= strlen (name i) <= INTERFACE_NAMSIZ.
Proof.
  unfold wf_interfaceb, strlen. intros H. apply andb_prop in H as [H _]. lia.
Qed.

Lemma wf_rule_elim (r : zebra_pbr_rule) :
  wf_rule r ->
  0 <= priority r < 2 ^ 32 /\ 0 <= table (action r) < 2 ^ 32
  /\ 0 <= family (src_ip (filter r)) < 256
  /\ length (u_prefix (src_ip (filter r))) = 16%nat
  /\ length (u_prefix (dst_ip (filter r))) = 16%nat
  /\ (forall i, ifp r = Some i -> 0 <= strlen (name i) <= INTERFACE_NAMSIZ).
Proof.
  unfold wf_rule, wf_ruleb. intros H.
  apply andb_prop in H as [H Hi]. apply andb_prop in H as [H Hd].
  apply andb_prop in H as [H Hs]. apply andb_prop in H as [H _].
  apply andb_prop in H as [Hp Ht].
  apply is_u32b_spec in Hp, Ht.
  apply wf_prefixb_spec in Hs as (? & ? & ?), Hd as (? & ? & ?).
  do 5 (split; [lia|]).
  intros i Hifp. rewrite Hifp in Hi. apply wf_interfaceb_spec, Hi.
Qed.

(** ** The request built by [netlink_rule_update] *)

Lemma sizeof_req_eq : sizeof_req = 8220.
Proof. reflexivity. Qed.

Lemma take_name (s : list Z) : take (Z.to_nat (strlen s + 1)) (s ++ [0]) = s ++ [0].
Proof.
  apply take_ge. rewrite length_app. unfold strlen. cbn [length]. lia.
Qed.

Lemma Stage_init pid cmd fam :
  Stage
    (Req.set_action FR_ACT_TO_TBL
      (Req.set_family fam
        (Req.set_nlmsg_pid pid
          (Req.set_nlmsg_flags NLM_F_REQUEST
            (Req.set_nlmsg_len (NLMSG_LENGTH sizeof_rtmsg)
              (Req.set_nlmsg_type cmd Req.zero)))))) 28 [].
Proof. split; [reflexivity | vm_compute; split; discriminate]. Qed.

Ltac stage :=
  lazymatch goal with
  | |- Stage (snd (addattr32 _ _ _ _)) _ _ =>
      eapply addattr32_stage; [stage | ..]
  | |- Stage (snd (addattr_l _ _ _ _ _)) _ _ =>
      eapply addattr_l_stage; [stage | ..]
  | |- Stage (Req.set_table _ _) _ _ => apply Stage_set_frh; stage
  | |- Stage (Req.set_src_len _ _) _ _ => apply Stage_set_frh; stage
  | |- Stage (Req.set_dst_len _ _) _ _ => apply Stage_set_frh; stage
  | |- Stage (Req.set_action _ _) _ _ => apply Stage_init
  end.

Section Encoder.

Variable nl_pid : Z.

(** For a well-formed rule every attribute fits in the buffer, so the
    request carries exactly [rule_attrs]. *)
Lemma rtattrs_netlink_rule_update_req cmd rule :
  wf_rule rule ->
  rtattrs (netlink_rule_update_req nl_pid cmd rule) = rule_attrs rule.
Proof.
  intros Hwf. apply wf_rule_elim in Hwf as (Hp & Ht & Hf & Hs & Hd & Hi).
  enough (Stage (netlink_rule_update_req nl_pid cmd rule) 200
                (rule_attrs rule)) as [H _] by exact H.
  unfold netlink_rule_update_req, rule_attrs, PREFIX_FAMILY. cbv zeta.
  set (bytelen := if family (src_ip (filter rule)) =? AF_INET then 4 else 16).
  assert (Hb : 0 <= bytelen <= 16) by (subst bytelen; destruct (_ =? _); lia).
  clearbody bytelen.
  unfold INTERFACE_NAMSIZ in Hi.
  destruct (ifp rule) as [i|] eqn:Hifp;
    [specialize (Hi i eq_refl)|clear Hi];
    destruct (IS_RULE_FILTERING_ON_SRC_IP rule);
    destruct (IS_RULE_FILTERING_ON_DST_IP rule);
    destruct (table (action rule) <? 256);
    (eapply Stage_weaken;
     [ stage; rewrite ?sizeof_req_eq;
       cbv [FRA_PRIORITY FRA_IFNAME FRA_SRC FRA_DST FRA_TABLE]; lia
     | rewrite ?take_name; cbn [app]; reflexivity
     | lia ]).
Qed.

Lemma frh_with_frh f m : frh (Req.with_frh f m) = f (frh m).
Proof. reflexivity. Qed.

Lemma frh_if (b : bool) (x y : nlmsg) :
  frh (if b then x else y) = if b then frh x else frh y.
Proof. destruct b; reflexivity. Qed.

(** The rule header of the request, for any rule. *)
Lemma frh_netlink_rule_update_req cmd rule :
  frh (netlink_rule_update_req nl_pid cmd rule) =
  mk_fib_rule_hdr
    (u8 (family (src_ip (filter rule))))
    (if IS_RULE_FILTERING_ON_DST_IP rule
     then prefixlen (dst_ip (filter rule)) else 0)
    (if IS_RULE_FILTERING_ON_SRC_IP rule
     then prefixlen (src_ip (filter rule)) else 0)
    0
    (if table (action rule) <? 256 then u8 (table (action rule))
     else RT_TABLE_UNSPEC)
    0 0 FR_ACT_TO_TBL 0.
Proof.
  unfold netlink_rule_update_req, addattr32, PREFIX_FAMILY. cbv zeta.
  unfold Req.set_table, Req.set_src_len, Req.set_dst_len.
  destruct (ifp rule), (IS_RULE_FILTERING_ON_SRC_IP rule),
    (IS_RULE_FILTERING_ON_DST_IP rule), (table (action rule) <? 256);
    repeat first [rewrite frh_with_frh | rewrite frh_addattr_l];
    reflexivity.
Qed.

(** The command only ends up in [nlmsg_type]. *)
Lemma addattr_l_set_nlmsg_type t req maxlen type data alen :
  snd (addattr_l (Req.set_nlmsg_type t req) maxlen type data alen) =
  Req.set_nlmsg_type t (snd (addattr_l req maxlen type data alen)).
Proof. unfold addattr_l. cbn. destruct (_ <? _); reflexivity. Qed.

Lemma set_frh_set_nlmsg_type f t req :
  Req.with_frh f (Req.set_nlmsg_type t req) =
  Req.set_nlmsg_type t (Req.with_frh f req).
Proof. reflexivity. Qed.

Lemma netlink_rule_update_req_cmd cmd rule :
  netlink_rule_update_req nl_pid cmd rule =
  Req.set_nlmsg_type (u16 cmd) (netlink_rule_update_req nl_pid 0 rule).
Proof.
  unfold netlink_rule_update_req, addattr32. cbv zeta.
  set (fam := u8 (PREFIX_FAMILY (src_ip (filter rule)))).
  change (Req.set_action FR_ACT_TO_TBL
            (Req.set_family fam
               (Req.set_nlmsg_pid nl_pid
                  (Req.set_nlmsg_flags NLM_F_REQUEST
                     (Req.set_nlmsg_len (NLMSG_LENGTH sizeof_rtmsg)
                        (Req.set_nlmsg_type (u16 cmd) Req.zero))))))
    with (Req.set_nlmsg_type (u16 cmd)
            (Req.set_action FR_ACT_TO_TBL
               (Req.set_family fam
                  (Req.set_nlmsg_pid nl_pid
                     (Req.set_nlmsg_flags NLM_F_REQUEST
                        (Req.set_nlmsg_len (NLMSG_LENGTH sizeof_rtmsg)
                           (Req.set_nlmsg_type (u16 0) Req.zero))))))).
  generalize (Req.set_action FR_ACT_TO_TBL
               (Req.set_family fam
                  (Req.set_nlmsg_pid nl_pid
                     (Req.set_nlmsg_flags NLM_F_REQUEST
                        (Req.set_nlmsg_len (NLMSG_LENGTH sizeof_rtmsg)
                           (Req.set_nlmsg_type (u16 0) Req.zero)))))).
  intros req0.
  unfold Req.set_src_len, Req.set_dst_len, Req.set_table.
  destruct (ifp rule), (IS_RULE_FILTERING_ON_SRC_IP rule),
    (IS_RULE_FILTERING_ON_DST_IP rule), (table (action rule) <? 256);
    repeat first
      [ rewrite addattr_l_set_nlmsg_type
      | rewrite (set_frh_set_nlmsg_type) ];
    reflexivity.
Qed.

End Encoder.

(** ** The codec claims *)

Section EncoderClaims.

Variable nl_pid : Z.

(** C1.  Dual table encoding, for any command (so for RTM_NEWRULE and
    RTM_DELRULE alike): a table id below 256 goes into the one-byte header
    field and no TABLE attribute is laid out; a table id of 256 or more
    leaves RT_TABLE_UNSPEC in the header and is carried by exactly one
    TABLE attribute whose four payload bytes read back as the table id. *)
Theorem table_encoding_rule cmd rule :
  wf_rule rule ->
  let req := netlink_rule_update_req nl_pid cmd rule in
  (table (action rule) < 256 ->
     frh_table (frh req) = table (action rule)
     /\ attrs_of_type FRA_TABLE (rtattrs req) = [])
  /\ (256 <= table (action rule) ->
        frh_table (frh req) = RT_TABLE_UNSPEC
        /\ attrs_of_type FRA_TABLE (rtattrs req) =
             [mk_rtattr (RTA_LENGTH 4) FRA_TABLE
                (store_u32 (table (action rule)))]
        /\ length (store_u32 (table (action rule))) = 4%nat
        /\ load_u32 (store_u32 (table (action rule))) = table (action rule)).
Proof.
  intros Hwf req. subst req.
  rewrite frh_netlink_rule_update_req,
    (rtattrs_netlink_rule_update_req nl_pid cmd rule Hwf).
  apply wf_rule_elim in Hwf as (_ & Ht & _).
  unfold rule_attrs. cbv zeta. cbn [frh_table].
  split; intros Hlt.
  - destruct (Z.ltb_spec (table (action rule)) 256); [|lia].
    split; [apply u8_small; lia|].
    destruct (ifp rule), (IS_RULE_FILTERING_ON_SRC_IP rule),
      (IS_RULE_FILTERING_ON_DST_IP rule); reflexivity.
  - destruct (Z.ltb_spec (table (action rule)) 256); [lia|].
    split; [reflexivity|]. split; [|split].
    + destruct (ifp rule), (IS_RULE_FILTERING_ON_SRC_IP rule),
        (IS_RULE_FILTERING_ON_DST_IP rule); reflexivity.
    + apply length_le_split.
    + rewrite load_store_u32. apply u32_small, Ht.
Qed.

(** C6.  For any command the request carries exactly one PRIORITY
    attribute; its four payload bytes read back as [rule.priority]. *)
Theorem priority_attribute cmd rule :
  wf_rule rule ->
  let req := netlink_rule_update_req nl_pid cmd rule in
  attrs_of_type FRA_PRIORITY (rtattrs req) =
    [mk_rtattr (RTA_LENGTH 4) FRA_PRIORITY (store_u32 (priority rule))]
  /\ length (store_u32 (priority rule)) = 4%nat
  /\ load_u32 (store_u32 (priority rule)) = priority rule.
Proof.
  intros Hwf req. subst req.
  rewrite (rtattrs_netlink_rule_update_req nl_pid cmd rule Hwf).
  apply wf_rule_elim in Hwf as (Hp & _).
  split; [|split].
  - unfold rule_attrs. cbv zeta.
    destruct (ifp rule), (IS_RULE_FILTERING_ON_SRC_IP rule),
      (IS_RULE_FILTERING_ON_DST_IP rule), (table (action rule) <? 256);
      reflexivity.
  - apply length_le_split.
  - rewrite load_store_u32. apply u32_small, Hp.
Qed.

(** C7, as the code has it.  The family written into the header is the
    [family] field of [rule.filter.src_ip], whether or not the rule filters
    on the source. *)
Theorem header_family_from_src_ip cmd rule :
  wf_rule rule ->
  frh_family (frh (netlink_rule_update_req nl_pid cmd rule)) =
  family (src_ip (filter rule)).
Proof.
  intros Hwf. rewrite frh_netlink_rule_update_req. cbn [frh_family].
  apply wf_rule_elim in Hwf as (_ & _ & Hf & _).
  apply u8_small. lia.
Qed.

(** C8.  The requests built for RTM_NEWRULE and for RTM_DELRULE have the
    same rule header, the same attributes and the same netlink header
    fields, except for [nlmsg_type], which holds the respective command. *)
Theorem add_delete_differ_only_in_type rule :
  let add := netlink_rule_update_req nl_pid RTM_NEWRULE rule in
  let del := netlink_rule_update_req nl_pid RTM_DELRULE rule in
  frh add = frh del
  /\ rtattrs add = rtattrs del
  /\ nlmsg_len (n add) = nlmsg_len (n del)
  /\ nlmsg_flags (n add) = nlmsg_flags (n del)
  /\ nlmsg_seq (n add) = nlmsg_seq (n del)
  /\ nlmsg_pid (n add) = nlmsg_pid (n del)
  /\ nlmsg_type (n add) = RTM_NEWRULE
  /\ nlmsg_type (n del) = RTM_DELRULE.
Proof.
  intros add del. subst add del.
  rewrite (netlink_rule_update_req_cmd nl_pid RTM_NEWRULE),
    (netlink_rule_update_req_cmd nl_pid RTM_DELRULE).
  repeat split; reflexivity.
Qed.

End EncoderClaims.

Lemma wf_rule_table5 : wf_rule Sample.rule_table5.
Proof. reflexivity. Qed.

Lemma wf_rule_table1000 : wf_rule Sample.rule_table1000.
Proof. reflexivity. Qed.

Lemma wf_rule_dst_only : wf_rule Sample.rule_dst_only.
Proof. reflexivity. Qed.

(** C1 at a rule for table 5 (sent as RTM_NEWRULE) and at a rule for table
    1000 (sent as RTM_DELRULE). *)
Lemma table_encoding_rule_witness :
  (frh_table (frh (netlink_rule_update_req 0 RTM_NEWRULE Sample.rule_table5))
     = 5
   /\ attrs_of_type FRA_TABLE
        (rtattrs (netlink_rule_update_req 0 RTM_NEWRULE Sample.rule_table5))
      = [])
  /\ (frh_table
        (frh (netlink_rule_update_req 0 RTM_DELRULE Sample.rule_table1000))
      = RT_TABLE_UNSPEC
      /\ attrs_of_type FRA_TABLE
           (rtattrs
              (netlink_rule_update_req 0 RTM_DELRULE Sample.rule_table1000))
         = [mk_rtattr 8 FRA_TABLE [232; 3; 0; 0]]).
Proof.
  split.
  - apply (table_encoding_rule 0 RTM_NEWRULE Sample.rule_table5
             wf_rule_table5).
    cbn. lia.
  - pose proof (table_encoding_rule 0 RTM_DELRULE Sample.rule_table1000
                  wf_rule_table1000) as [_ H].
    destruct H as (H1 & H2 & _); [cbn; lia|].
    split; [exact H1 | exact H2].
Defined.

(** C6 at the rule for table 5, whose priority is 300. *)
Lemma priority_attribute_witness :
  attrs_of_type FRA_PRIORITY
    (rtattrs (netlink_rule_update_req 0 RTM_NEWRULE Sample.rule_table5))
  = [mk_rtattr 8 FRA_PRIORITY [44; 1; 0; 0]]
  /\ load_u32 [44; 1; 0; 0] = 300.
Proof.
  pose proof (priority_attribute 0 RTM_NEWRULE Sample.rule_table5
                wf_rule_table5) as (H1 & _ & H2).
  split; [exact H1 | exact H2].
Defined.

(** C7 fails for a rule that filters on an IPv4 destination only: the
    header takes the family of the unused source prefix (0), not AF_INET. *)
Lemma header_family_of_present_filter_fails :
  ~ header_family_of_present_filter.
Proof.
  intros H.
  specialize (H 0 RTM_NEWRULE Sample.rule_dst_only wf_rule_dst_only).
  vm_compute in H. discriminate H.
Qed.

Lemma header_family_from_src_ip_witness :
  frh_family (frh (netlink_rule_update_req 0 RTM_NEWRULE Sample.rule_dst_only))
  = 0
  /\ family (dst_ip (filter Sample.rule_dst_only)) = AF_INET.
Proof.
  split; [|reflexivity].
  exact (header_family_from_src_ip 0 RTM_NEWRULE Sample.rule_dst_only
           wf_rule_dst_only).
Defined.

(** ** The notification handler *)

(** ** Reading memory *)

Lemma rd_bytes_ok (p : list Z) (k : nat) :
  (k <= length p)%nat -> rd_bytes p k = Some (take k p).
Proof.
  intros H. unfold rd_bytes. destruct (Nat.leb_spec k (length p)); [reflexivity | lia].
Qed.

Lemma rd_bytes_Some (p : list Z) (k : nat) (bs : list Z) :
  rd_bytes p k = Some bs -> (k <= length p)%nat /\ bs = take k p.
Proof.
  unfold rd_bytes. destruct (Nat.leb_spec k (length p)); [|discriminate].
  intros [= <-]. auto.
Qed.

Lemma rd_u16_ok (p : list Z) :
  (2 <= length p)%nat -> rd_u16 p = Some (le_combine (take 2 p)).
Proof. intros H. unfold rd_u16. rewrite rd_bytes_ok by exact H. reflexivity. Qed.

Lemma rd_u16_Some (p : list Z) (v : Z) :
  rd_u16 p = Some v -> (2 <= length p)%nat /\ v = le_combine (take 2 p).
Proof.
  unfold rd_u16. destruct (rd_bytes p 2) as [bs|] eqn:E; [|discriminate].
  apply rd_bytes_Some in E as [? ->]. intros [= <-]. auto.
Qed.

Lemma rd_u32_ok (p : list Z) :
  (4 <= length p)%nat -> rd_u32 p = Some (load_u32 p).
Proof. intros H. unfold rd_u32. rewrite rd_bytes_ok by exact H. reflexivity. Qed.

Lemma rd_u32_Some (p : list Z) (v : Z) :
  rd_u32 p = Some v -> (4 <= length p)%nat /\ v = load_u32 p.
Proof.
  unfold rd_u32. destruct (rd_bytes p 4) as [bs|] eqn:E; [|discriminate].
  apply rd_bytes_Some in E as [? ->]. intros [= <-]. auto.
Qed.

Lemma rd_u8_ok (p : list Z) (off : Z) :
  0 <= off < Z.of_nat (length p) -> exists b, rd_u8 p off = Some b.
Proof.
  intros H. unfold rd_u8. apply lookup_lt_is_Some_2. lia.
Qed.

Lemma existsb_eqb_In (p : list Z) : existsb (Z.eqb 0) p = true <-> In 0 p.
Proof.
  rewrite existsb_exists. split.
  - intros (x & Hin & Hx). apply Z.eqb_eq in Hx. subst x. exact Hin.
  - intros Hin. exists 0. split; [exact Hin | reflexivity].
Qed.

Lemma rd_str_ok (p : list Z) : In 0 p -> rd_str p = Some (c_str p).
Proof.
  intros H. unfold rd_str. apply existsb_eqb_In in H. rewrite H. reflexivity.
Qed.

Lemma rd_str_Some (p s : list Z) :
  rd_str p = Some s -> In 0 p /\ s = c_str p.
Proof.
  unfold rd_str. destruct (existsb (Z.eqb 0) p) eqn:E; [|discriminate].
  intros [= <-]. split; [apply existsb_eqb_In, E | reflexivity].
Qed.

(** The string read at [p] is the run of non-NUL bytes that a NUL
    follows there. *)
Lemma rd_str_spec (p s : list Z) :
  rd_str p = Some s <-> exists rest, p = s ++ 0 :: rest /\ ~ In 0 s.
Proof.
  split.
  - intros H. apply rd_str_Some in H as [Hin ->].
    induction p as [|b p IH]; [destruct Hin|].
    cbn [c_str]. destruct (Z.eqb_spec b 0) as [->|Hb].
    + exists p. split; [reflexivity | intros []].
    + destruct Hin as [Hin|Hin]; [congruence|].
      destruct (IH Hin) as (rest & Hp & Hs). exists rest. split.
      * cbn [app]. rewrite <- Hp. reflexivity.
      * intros [H|H]; [congruence | contradiction].
  - intros (rest & -> & Hs).
    rewrite rd_str_ok by (apply in_or_app; right; left; reflexivity).
    f_equal. induction s as [|b s IH]; [reflexivity|].
    cbn [app c_str]. destruct (Z.eqb_spec b 0) as [->|Hb].
    + exfalso. apply Hs. left. reflexivity.
    + rewrite IH; [reflexivity|]. intros H. apply Hs. right. exact H.
Qed.

(** A string that ends within the first [k] bytes does not depend on what
    follows them. *)
Lemma c_str_take (p : list Z) (k : nat) :
  In 0 (take k p) -> c_str p = c_str (take k p).
Proof.
  revert k. induction p as [|b p IH]; intros k H.
  - rewrite take_nil. reflexivity.
  - destruct k as [|k]; [destruct H|]. cbn [take c_str] in *.
    destruct (Z.eqb_spec b 0); [reflexivity|].
    destruct H as [H|H]; [congruence|]. rewrite (IH k H). reflexivity.
Qed.

Lemma length_RTA_DATA (p : list Z) :
  length (RTA_DATA p) = (length p - 4)%nat.
Proof. unfold RTA_DATA. rewrite length_drop. reflexivity. Qed.

Lemma length_RTM_RTA (p : list Z) :
  length (RTM_RTA p) = (length p - 12)%nat.
Proof. unfold RTM_RTA. rewrite length_drop. reflexivity. Qed.

(** ** The attribute walk *)

Lemma RTA_ALIGN_ge4 (l : Z) : 4 <= l -> (4 <= Z.to_nat (RTA_ALIGN l))%nat.
Proof. intros H. pose proof (RTA_ALIGN_bounds l). lia. Qed.

(** The number of turns allowed plays no part once it reaches the number
    of bytes at [rta]: the walk ends by itself. *)
Lemma rta_walk_turns (t1 t2 : nat) (rta : list Z) (len : Z) :
  (length rta <= t1)%nat -> (length rta <= t2)%nat ->
  rta_walk t1 rta len = rta_walk t2 rta len.
Proof.
  revert t2 rta len. induction t1 as [|t1 IH]; intros t2 rta len H1 H2.
  - destruct rta; [|cbn in H1; lia].
    destruct t2; cbn [rta_walk]; destruct (len <? sizeof_rtattr); reflexivity.
  - destruct t2 as [|t2].
    + destruct rta; [|cbn in H2; lia].
      cbn [rta_walk]. destruct (len <? sizeof_rtattr); reflexivity.
    + cbn [rta_walk]. destruct (len <? sizeof_rtattr); [reflexivity|].
      destruct (rd_u16 rta) as [l|] eqn:El; [|reflexivity].
      apply rd_u16_Some in El as [Hl _].
      destruct (Z.ltb_spec l sizeof_rtattr) as [|Hl4]; [reflexivity|].
      cbn [orb]. destruct (len <? l); [reflexivity|].
      destruct (rd_u16 _); [|reflexivity].
      unfold sizeof_rtattr in Hl4. pose proof (RTA_ALIGN_ge4 l Hl4).
      rewrite (IH t2); [reflexivity| |]; rewrite length_drop; lia.
Qed.

Lemma netlink_parse_rtattr_loop_walk (turns : nat) tb max rta len :
  netlink_parse_rtattr_loop turns tb max rta len =
  option_map (fun attrs => fold_left (tb_store max) attrs tb)
    (rta_walk turns rta len).
Proof.
  revert tb rta len. induction turns as [|t IH]; intros tb rta len;
    cbn [netlink_parse_rtattr_loop rta_walk];
    destruct (len <? sizeof_rtattr); try reflexivity.
  destruct (rd_u16 rta) as [l|]; [|reflexivity].
  destruct ((l <? sizeof_rtattr) || (len <? l)); [reflexivity|].
  destruct (rd_u16 _) as [ty|]; [|reflexivity].
  rewrite IH. destruct (rta_walk t _ _); reflexivity.
Qed.

(** [netlink_parse_rtattr] stores the attributes of the walk, in order. *)
Lemma netlink_parse_rtattr_walk tb max rta len :
  netlink_parse_rtattr tb max rta len =
  option_map (fun attrs => fold_left (tb_store max) attrs tb)
    (rta_walk (length rta) rta len).
Proof. apply netlink_parse_rtattr_loop_walk. Qed.

Lemma tb_at_replicate_None (k : nat) (i : Z) :
  tb_at (replicate k None) i = None.
Proof.
  unfold tb_at. destruct (replicate k None !! Z.to_nat i) as [o|] eqn:E.
  - apply lookup_replicate in E as [-> _]. reflexivity.
  - reflexivity.
Qed.

Lemma length_tb_store max tb a : length (tb_store max tb a) = length tb.
Proof.
  unfold tb_store. destruct (_ <=? _); [apply length_insert | reflexivity].
Qed.

(** After the walk, slot [ty] holds the address of the last attribute of
    type [ty], when there is one. *)
Lemma tb_at_fold_store max attrs tb ty :
  1 <= ty <= max -> (Z.to_nat max < length tb)%nat ->
  tb_at (fold_left (tb_store max) attrs tb) ty =
  match message_attr ty attrs with
  | Some a => Some (snd a)
  | None => tb_at tb ty
  end.
Proof.
  intros Hty. revert tb. induction attrs as [|a rest IH]; intros tb Hlen.
  - reflexivity.
  - cbn [fold_left]. rewrite IH by (rewrite length_tb_store; exact Hlen).
    unfold message_attr. cbn [List.filter].
    destruct (Z.eqb_spec (rta_type (fst a)) ty) as [E|E].
    + rewrite last_cons.
      destruct (last (List.filter _ rest)); [reflexivity|].
      unfold tb_store. destruct (Z.leb_spec (rta_type (fst a)) max); [|lia].
      unfold tb_at. rewrite E, list_lookup_insert_eq by lia. reflexivity.
    + destruct (last (List.filter _ rest)); [reflexivity|].
      unfold tb_store. destruct (Z.leb_spec (rta_type (fst a)) max);
        [|reflexivity].
      unfold tb_at. rewrite list_lookup_insert_ne by lia. reflexivity.
Qed.

Lemma tb_at_tb_of attrs ty :
  1 <= ty <= FRA_MAX ->
  tb_at (tb_of attrs) ty = option_map snd (message_attr ty attrs).
Proof.
  intros Hty. unfold tb_of.
  rewrite tb_at_fold_store;
    [|exact Hty|rewrite length_replicate; unfold FRA_MAX; lia].
  rewrite tb_at_replicate_None. destruct (message_attr ty attrs); reflexivity.
Qed.

(** A walk over a length that lies within the buffer never leaves it. *)
Lemma rta_walk_in_buffer (turns : nat) (rta : list Z) (len : Z) :
  (length rta <= turns)%nat -> len <= Z.of_nat (length rta) ->
  exists attrs, rta_walk turns rta len = Some attrs.
Proof.
  revert rta len. induction turns as [|t IH]; intros rta len Ht Hlen;
    cbn [rta_walk]; destruct (Z.ltb_spec len sizeof_rtattr) as [|H4];
    eauto; unfold sizeof_rtattr in H4.
  { exfalso. lia. }
  rewrite rd_u16_ok by lia.
  set (l := le_combine (take 2 rta)).
  destruct (Z.ltb_spec l sizeof_rtattr) as [|Hl4]; [eauto|].
  cbn [orb]. destruct (Z.ltb_spec len l); [eauto|].
  rewrite rd_u16_ok by (rewrite length_drop; unfold offsetof_rta_type; lia).
  unfold sizeof_rtattr in Hl4. pose proof (RTA_ALIGN_ge4 l Hl4).
  pose proof (RTA_ALIGN_bounds l).
  destruct (IH (drop (Z.to_nat (RTA_ALIGN l)) rta) (len - RTA_ALIGN l))
    as [attrs ->]; [rewrite length_drop; lia..|].
  cbn [option_map]. eauto.
Qed.

(** What the walk says of each attribute it finds: the header fields as
    read at its address, a length of at least four, the payload that
    [rta_len] delimits, and as much room in the buffer after the attribute
    as there is after the walked length. *)
Lemma rta_walk_entries (turns : nat) (rta : list Z) (len : Z) attrs a p :
  rta_walk turns rta len = Some attrs -> In (a, p) attrs ->
  rd_u16 p = Some (rta_len a)
  /\ rd_u16 (drop (Z.to_nat offsetof_rta_type) p) = Some (rta_type a)
  /\ sizeof_rtattr <= rta_len a
  /\ rta_data a = take (Z.to_nat (rta_len a - sizeof_rtattr)) (RTA_DATA p)
  /\ Z.of_nat (length rta) - len <= Z.of_nat (length p) - rta_len a.
Proof.
  revert rta len attrs. induction turns as [|t IH]; intros rta len attrs;
    cbn [rta_walk]; destruct (Z.ltb_spec len sizeof_rtattr) as [|H4];
    try (intros [= <-] []); try discriminate.
  destruct (rd_u16 rta) as [l|] eqn:El; [|discriminate].
  destruct (Z.ltb_spec l sizeof_rtattr) as [|Hl4]; [intros [= <-] []|].
  cbn [orb]. destruct (Z.ltb_spec len l) as [|Hll]; [intros [= <-] []|].
  destruct (rd_u16 (drop _ rta)) as [ty|] eqn:Ety; [|discriminate].
  destruct (rta_walk t _ _) as [rest|] eqn:Er; [|discriminate].
  cbn [option_map]. intros [= <-] [Hin|Hin].
  - injection Hin as <- <-. cbn [rta_len rta_type rta_data].
    repeat split; try assumption; try reflexivity. lia.
  - specialize (IH _ _ _ Er Hin) as (H1 & H2 & H3 & H5 & H6).
    repeat split; try assumption.
    unfold sizeof_rtattr in *. pose proof (RTA_ALIGN_ge4 l Hl4).
    pose proof (RTA_ALIGN_bounds l).
    rewrite length_drop in H6. lia.
Qed.

(** ** The decoder *)

Ltac decode_cases H :=
  repeat match type of H with
         | context [match ?x with _ => _ end] =>
             lazymatch x with
             | context [match _ with _ => _ end] => fail
             | _ => destruct x eqn:?; cbv beta iota zeta in H;
                    try discriminate H
             end
         end.

Lemma decode_ifp_None frh tb r :
  netlink_rule_change_decode frh tb = Some r -> ifp r = None.
Proof.
  unfold netlink_rule_change_decode. intros H.
  decode_cases H; injection H as <-; reflexivity.
Qed.


Lemma message_attr_In ty attrs a :
  message_attr ty attrs = Some a -> In a attrs /\ rta_type (fst a) = ty.
Proof.
  unfold message_attr. intros H. apply last_Some in H as [l' H].
  assert (Hin : In a (List.filter (fun a => rta_type (fst a) =? ty) attrs)).
  { rewrite H. apply in_or_app. right. left. reflexivity. }
  apply List.filter_In in Hin as [Hin Ht]. apply Z.eqb_eq in Ht. auto.
Qed.

(** ** The length check *)

Lemma rule_change_len_neg (h : nlmsghdr) :
  0 <= nlmsg_len h < 2 ^ 32 -> (rule_change_len h < 0 <-> bad_length h).
Proof.
  intros H. unfold rule_change_len, bad_length, int_of.
  change (NLMSG_LENGTH sizeof_fib_rule_hdr) with 28.
  Z.div_mod_to_equations. lia.
Qed.

Lemma rule_change_len_eq (h : nlmsghdr) :
  0 <= nlmsg_len h < 2 ^ 32 -> ~ bad_length h ->
  rule_change_len h = nlmsg_len h - NLMSG_LENGTH sizeof_fib_rule_hdr.
Proof.
  intros H Hb. unfold rule_change_len, bad_length in *.
  change (NLMSG_LENGTH sizeof_fib_rule_hdr) with 28 in *.
  apply int_of_small. lia.
Qed.

Lemma in_buffer_length (h : nlmsghdr) (mem : list Z) :
  ~ bad_length h -> in_buffer h mem ->
  12 <= Z.of_nat (length mem)
  /\ nlmsg_len h - NLMSG_LENGTH sizeof_fib_rule_hdr
     <= Z.of_nat (length (RTM_RTA mem)).
Proof.
  unfold bad_length, in_buffer. rewrite length_RTM_RTA.
  change (NLMSG_LENGTH sizeof_fib_rule_hdr) with 28.
  change NLMSG_HDRLEN with 16. lia.
Qed.

Section Handler.

Variable if_lookup_by_name_per_ns : Z -> list Z -> option interface.
Variable kernel_pbr_rule_del : zebra_pbr_rule -> Z.
Variable zebra_debug_kernel : bool.

Local Abbreviation rule_change :=
  (netlink_rule_change if_lookup_by_name_per_ns kernel_pbr_rule_del
     zebra_debug_kernel).
Local Abbreviation passes := (passes_filters if_lookup_by_name_per_ns).

Lemma netlink_rule_change_not_del h mem ns_id startup :
  ~ is_delrule h -> rule_change h mem ns_id startup = (Returned 0, []).
Proof.
  unfold is_delrule, netlink_rule_change. intros H.
  destruct (Z.eqb_spec (nlmsg_type h) RTM_NEWRULE); [reflexivity|].
  destruct (Z.eqb_spec (nlmsg_type h) RTM_DELRULE); [contradiction|].
  reflexivity.
Qed.

Lemma netlink_rule_change_neg_len h mem ns_id startup :
  is_delrule h -> rule_change_len h < 0 ->
  rule_change h mem ns_id startup = (Returned (-1), []).
Proof.
  unfold is_delrule, netlink_rule_change. intros -> H.
  change (RTM_DELRULE =? RTM_NEWRULE) with false.
  change (RTM_DELRULE =? RTM_DELRULE) with true. cbn [negb andb].
  destruct (Z.ltb_spec (rule_change_len h) 0); [reflexivity | lia].
Qed.

(** Past the length check, the handler in terms of the attributes of the
    message. *)
Lemma netlink_rule_change_attrs h mem ns_id startup :
  0 <= nlmsg_len h < 2 ^ 32 -> is_delrule h -> ~ bad_length h ->
  rule_change h mem ns_id startup =
  match rd_u8 mem offsetof_family with
  | None => (Fault, [])
  | Some fam =>
      if negb (fam =? AF_INET) && negb (fam =? AF_INET6) then (Returned 0, [])
      else
        match rd_u8 mem offsetof_action with
        | None => (Fault, [])
        | Some act =>
            if negb (act =? FR_ACT_TO_TBL) then (Returned 0, [])
            else
              match message_attrs h mem with
              | None => (Fault, [])
              | Some attrs =>
                  match message_attr FRA_IFNAME attrs with
                  | None => (Returned 0, [])
                  | Some a =>
                      match rd_str (RTA_DATA (snd a)) with
                      | None => (Fault, [])
                      | Some ifname =>
                          match if_lookup_by_name_per_ns ns_id ifname with
                          | None => (Returned 0, [])
                          | Some _ =>
                              match netlink_rule_change_decode mem
                                      (tb_of attrs) with
                              | None => (Fault, [])
                              | Some rule =>
                                  if zebra_debug_kernel then (Fault, [])
                                  else (Returned (kernel_pbr_rule_del rule),
                                        [EvRuleDel rule])
                              end
                          end
                      end
                  end
              end
        end
  end.
Proof.
  intros Hr Hd Hb. unfold netlink_rule_change. rewrite Hd.
  change (RTM_DELRULE =? RTM_NEWRULE) with false.
  change (RTM_DELRULE =? RTM_DELRULE) with true. cbn [negb andb].
  pose proof (proj1 (rule_change_len_neg h Hr)) as Hneg.
  destruct (Z.ltb_spec (rule_change_len h) 0); [tauto|]. cbv zeta.
  destruct (rd_u8 mem offsetof_family) as [fam|]; [|reflexivity].
  destruct (negb (fam =? AF_INET) && negb (fam =? AF_INET6)); [reflexivity|].
  destruct (rd_u8 mem offsetof_action) as [act|]; [|reflexivity].
  destruct (negb (act =? FR_ACT_TO_TBL)); [reflexivity|].
  rewrite netlink_parse_rtattr_walk, (rule_change_len_eq h Hr Hb).
  fold (message_attrs h mem).
  destruct (message_attrs h mem) as [attrs|]; [|reflexivity].
  cbn [option_map]. fold (tb_of attrs).
  rewrite tb_at_tb_of by (unfold FRA_IFNAME, FRA_MAX; lia).
  destruct (message_attr FRA_IFNAME attrs) as [a|]; [|reflexivity].
  cbn [option_map].
  destruct (rd_str (RTA_DATA (snd a))) as [ifname|]; [|reflexivity].
  destruct (if_lookup_by_name_per_ns ns_id ifname); [|reflexivity].
  destruct (netlink_rule_change_decode mem (tb_of attrs)) as [rule|] eqn:E;
    [|reflexivity].
  rewrite (decode_ifp_None _ _ _ E). reflexivity.
Qed.

(** The four ways the handler ends. *)
Lemma netlink_rule_change_cases h mem ns_id startup :
  0 <= nlmsg_len h < 2 ^ 32 ->
  let res := rule_change h mem ns_id startup in
  (~ is_delrule h /\ res = (Returned 0, []))
  \/ (is_delrule h /\ bad_length h /\ res = (Returned (-1), []))
  \/ (is_delrule h /\ ~ bad_length h /\ ~ passes h mem ns_id
      /\ (res = (Returned 0, [])
          \/ res = (Fault, [])
             /\ ~ (in_buffer h mem /\ ifname_terminated h mem)))
  \/ (is_delrule h /\ ~ bad_length h /\ passes h mem ns_id
      /\ exists attrs,
           message_attrs h mem = Some attrs
           /\ res = match netlink_rule_change_decode mem (tb_of attrs) with
                    | None => (Fault, [])
                    | Some rule =>
                        if zebra_debug_kernel then (Fault, [])
                        else (Returned (kernel_pbr_rule_del rule),
                              [EvRuleDel rule])
                    end).
Proof.
  intros Hr res. subst res.
  destruct (Z.eq_dec (nlmsg_type h) RTM_DELRULE) as [Hd|Hd];
    [|left; split; [exact Hd | apply netlink_rule_change_not_del, Hd]].
  right.
  destruct (Z.lt_ge_cases (rule_change_len h) 0) as [Hn|Hn].
  { left. split; [exact Hd|]. split; [apply rule_change_len_neg; assumption|].
    apply netlink_rule_change_neg_len; assumption. }
  right.
  assert (Hb : ~ bad_length h).
  { intros Hb. apply rule_change_len_neg in Hb; [lia | exact Hr]. }
  rewrite (netlink_rule_change_attrs h mem ns_id startup Hr Hd Hb).
  assert (Hbuf : in_buffer h mem ->
                 12 <= Z.of_nat (length mem)
                 /\ exists attrs, message_attrs h mem = Some attrs).
  { intros Hin. destruct (in_buffer_length h mem Hb Hin) as [H12 Hlen].
    split; [exact H12|]. apply rta_walk_in_buffer; [lia | exact Hlen]. }
  destruct (rd_u8 mem offsetof_family) as [fam|] eqn:Efam.
  2:{ left. repeat split; try assumption.
      - intros (_ & [H|H] & _); congruence.
      - right. split; [reflexivity|]. intros [Hin _].
        destruct (Hbuf Hin) as [H12 _].
        destruct (rd_u8_ok mem offsetof_family) as [b Hb'];
          [unfold offsetof_family; lia | congruence]. }
  destruct (Z.eqb_spec fam AF_INET) as [H4|H4];
    destruct (Z.eqb_spec fam AF_INET6) as [H6|H6]; cbn [negb andb];
    try (left; repeat split; try assumption;
         [intros (_ & [H|H] & _); congruence | left; reflexivity]).
  all: destruct (rd_u8 mem offsetof_action) as [act|] eqn:Eact;
    [|left; repeat split; try assumption;
      [intros (_ & _ & H & _); unfold action_is_to_tbl in H; congruence
      |right; split; [reflexivity|]; intros [Hin _];
       destruct (Hbuf Hin) as [H12 _];
       destruct (rd_u8_ok mem offsetof_action) as [b Hb'];
       [unfold offsetof_action; lia | congruence]]].
  all: destruct (Z.eqb_spec act FR_ACT_TO_TBL) as [Ha|Ha]; cbn [negb];
    [|left; repeat split; try assumption;
      [intros (_ & _ & H & _); unfold action_is_to_tbl in H; congruence
      |left; reflexivity]].
  all: destruct (message_attrs h mem) as [attrs|] eqn:Eattrs;
    [|left; repeat split; try assumption;
      [intros (_ & _ & _ & ? & ? & ? & ? & H & _); congruence
      |right; split; [reflexivity|]; intros [Hin _];
       destruct (Hbuf Hin) as [_ [? ?]]; congruence]].
  all: destruct (message_attr FRA_IFNAME attrs) as [a|] eqn:Ea;
    [|left; repeat split; try assumption;
      [intros (_ & _ & _ & ? & ? & ? & ? & H1 & H2 & _); congruence
      |left; reflexivity]].
  all: destruct (rd_str (RTA_DATA (snd a))) as [ifname|] eqn:Es;
    [|left; repeat split; try assumption;
      [intros (_ & _ & _ & ? & ? & ? & ? & H1 & H2 & H3 & _); congruence
      |right; split; [reflexivity|]; intros [_ Ht];
       specialize (Ht attrs a Eattrs Ea); apply rd_str_ok in Ht; congruence]].
  all: destruct (if_lookup_by_name_per_ns ns_id ifname) as [i|] eqn:Ei;
    [|left; repeat split; try assumption;
      [intros (_ & _ & _ & ? & ? & ? & ? & H1 & H2 & H3 & H5); congruence
      |left; reflexivity]].
  all: right; split; [exact Hd|]; split; [exact Hb|]; split;
    [|exists attrs; split; reflexivity].
  all: split; [exact Hd|]; split;
    [unfold family_is_ip; subst fam; auto|]; split;
    [unfold action_is_to_tbl; subst act; exact Eact|];
    exists attrs, a, ifname, i; auto.
Qed.

(** When the buffer goes on for 16 bytes after the message, every read of
    the decoder lies within it. *)
Lemma decode_room h mem attrs :
  ~ bad_length h -> room_after 16 h mem ->
  message_attrs h mem = Some attrs ->
  exists r, netlink_rule_change_decode mem (tb_of attrs) = Some r.
Proof.
  intros Hb Hroom Hattrs.
  assert (H12 : 12 <= Z.of_nat (length mem)).
  { unfold room_after, bad_length in *.
    change (NLMSG_LENGTH sizeof_fib_rule_hdr) with 28 in *.
    change NLMSG_HDRLEN with 16 in *. lia. }
  assert (Hp : forall ty a, message_attr ty attrs = Some a ->
                 (16 <= length (RTA_DATA (snd a)))%nat).
  { intros ty [a p] Ha. apply message_attr_In in Ha as [Hin _].
    pose proof (rta_walk_entries _ _ _ _ _ _ Hattrs Hin)
      as (_ & _ & Hl & _ & Hs).
    rewrite length_RTM_RTA in Hs. rewrite length_RTA_DATA. cbn [snd].
    unfold room_after, bad_length, sizeof_rtattr in *.
    change (NLMSG_LENGTH sizeof_fib_rule_hdr) with 28 in *.
    change NLMSG_HDRLEN with 16 in *. lia. }
  destruct (rd_u8_ok mem offsetof_family) as [fam Hfam];
    [unfold offsetof_family; lia|].
  destruct (rd_u8_ok mem offsetof_src_len) as [sl Hsl];
    [unfold offsetof_src_len; lia|].
  destruct (rd_u8_ok mem offsetof_dst_len) as [dl Hdl];
    [unfold offsetof_dst_len; lia|].
  destruct (rd_u8_ok mem offsetof_table) as [tbl Htbl];
    [unfold offsetof_table; lia|].
  unfold netlink_rule_change_decode.
  rewrite !tb_at_tb_of
    by (unfold FRA_PRIORITY, FRA_SRC, FRA_DST, FRA_TABLE, FRA_MAX; lia).
  rewrite Hfam, Hsl, Hdl, Htbl.
  destruct (message_attr FRA_PRIORITY attrs) as [a1|] eqn:E1;
    destruct (message_attr FRA_SRC attrs) as [a2|] eqn:E2;
    destruct (message_attr FRA_DST attrs) as [a3|] eqn:E3;
    destruct (message_attr FRA_TABLE attrs) as [a4|] eqn:E4;
    cbn [option_map];
    repeat match goal with
           | H : message_attr _ attrs = Some ?a |- _ =>
               apply Hp in H
           end;
    rewrite ?rd_u32_ok by lia;
    rewrite ?(rd_bytes_ok _ 4), ?(rd_bytes_ok _ 16) by lia;
    destruct (fam =? AF_INET); eauto.
Qed.

(** A notification that passes the filters, whose length fits an [int]
    and after which the buffer goes on for 16 bytes, reaches the deletion
    callback when kernel debugging is off. *)
Lemma netlink_rule_change_progress h mem ns_id startup :
  0 <= nlmsg_len h < 2 ^ 31 + NLMSG_LENGTH sizeof_fib_rule_hdr ->
  passes h mem ns_id -> room_after 16 h mem -> zebra_debug_kernel = false ->
  exists r,
    rule_change h mem ns_id startup =
    (Returned (kernel_pbr_rule_del r), [EvRuleDel r]).
Proof.
  intros Hr Hp Hroom Hdbg.
  assert (Hr' : 0 <= nlmsg_len h < 2 ^ 32)
    by (change (NLMSG_LENGTH sizeof_fib_rule_hdr) with 28 in Hr; lia).
  destruct (netlink_rule_change_cases h mem ns_id startup Hr')
    as [[Hd _]|[(_ & Hb & _)|[(_ & _ & Hn & _)|(_ & Hb & _ & attrs & Ha & ->)]]].
  - destruct Hp as [Hd' _]. contradiction.
  - exfalso. destruct Hp as (_ & _ & _ & attrs & a & _ & _ & Ha & Hm & _).
    unfold message_attrs in Ha. unfold bad_length in Hb.
    destruct Hb as [Hb|Hb]; [|lia].
    destruct (length (RTM_RTA mem)); cbn [rta_walk] in Ha;
      (destruct (Z.ltb_spec (nlmsg_len h - NLMSG_LENGTH sizeof_fib_rule_hdr)
                   sizeof_rtattr); [|unfold sizeof_rtattr in *; lia]);
      injection Ha as <-; discriminate Hm.
  - contradiction.
  - destruct (decode_room h mem attrs Hb Hroom Ha) as [r ->].
    rewrite Hdbg. eauto.
Qed.

End Handler.

(** A 32-bit read at the payload of an attribute that declares at least
    four payload bytes yields the first four bytes of the payload. *)
Lemma rd_u32_payload (turns : nat) rta len attrs a p v :
  rta_walk turns rta len = Some attrs -> In (a, p) attrs ->
  8 <= rta_len a -> rd_u32 (RTA_DATA p) = Some v ->
  v = load_u32 (rta_data a).
Proof.
  intros Hw Hin Hl Hv.
  pose proof (rta_walk_entries _ _ _ _ _ _ Hw Hin) as (_ & _ & _ & Hd & _).
  apply rd_u32_Some in Hv as [_ ->]. rewrite Hd. unfold load_u32, sizeof_rtattr.
  rewrite take_take. f_equal. f_equal. lia.
Qed.

(** The same for the [k] address bytes of SRC and DST. *)
Lemma rd_bytes_payload (turns : nat) rta len attrs a p (k : nat) bytes :
  rta_walk turns rta len = Some attrs -> In (a, p) attrs ->
  4 + Z.of_nat k <= rta_len a -> rd_bytes (RTA_DATA p) k = Some bytes ->
  bytes = take k (rta_data a).
Proof.
  intros Hw Hin Hl Hv.
  pose proof (rta_walk_entries _ _ _ _ _ _ Hw Hin) as (_ & _ & _ & Hd & _).
  apply rd_bytes_Some in Hv as [_ ->]. rewrite Hd. unfold sizeof_rtattr.
  rewrite take_take. f_equal. lia.
Qed.

Lemma memcpy_zero (bytes : list Z) (k : nat) :
  length bytes = k -> (k <= 16)%nat ->
  memcpy (replicate 16 0) bytes k = bytes ++ replicate (16 - k) 0.
Proof.
  intros Hl Hk. unfold memcpy. rewrite take_ge by lia.
  rewrite drop_replicate. reflexivity.
Qed.

(** What the decoder makes of the priority and of the two prefixes. *)
Lemma decode_filter frh tb r :
  netlink_rule_change_decode frh tb = Some r ->
  match tb_at tb FRA_PRIORITY with
  | Some rta => rd_u32 (RTA_DATA rta) = Some (priority r)
  | None => priority r = 0
  end
  /\ match tb_at tb FRA_SRC with
     | Some rta =>
         IS_RULE_FILTERING_ON_SRC_IP r = true
         /\ exists fam bytes src_len,
              rd_u8 frh offsetof_family = Some fam
              /\ rd_bytes (RTA_DATA rta)
                   (if fam =? AF_INET then 4%nat else 16%nat) = Some bytes
              /\ rd_u8 frh offsetof_src_len = Some src_len
              /\ src_ip (filter r) =
                   mk_prefix 0 src_len
                     (bytes ++ replicate
                                 (if fam =? AF_INET then 12%nat else 0%nat) 0)
     | None =>
         IS_RULE_FILTERING_ON_SRC_IP r = false
         /\ src_ip (filter r) = prefix_zero
     end
  /\ match tb_at tb FRA_DST with
     | Some rta =>
         IS_RULE_FILTERING_ON_DST_IP r = true
         /\ exists fam bytes dst_len,
              rd_u8 frh offsetof_family = Some fam
              /\ rd_bytes (RTA_DATA rta)
                   (if fam =? AF_INET then 4%nat else 16%nat) = Some bytes
              /\ rd_u8 frh offsetof_dst_len = Some dst_len
              /\ dst_ip (filter r) =
                   mk_prefix 0 dst_len
                     (bytes ++ replicate
                                 (if fam =? AF_INET then 12%nat else 0%nat) 0)
     | None =>
         IS_RULE_FILTERING_ON_DST_IP r = false
         /\ dst_ip (filter r) = prefix_zero
     end.
Proof.
  unfold netlink_rule_change_decode. intros H.
  destruct (tb_at tb FRA_PRIORITY) as [r1|];
    destruct (tb_at tb FRA_SRC) as [r2|];
    destruct (tb_at tb FRA_DST) as [r3|];
    decode_cases H; injection H as <-;
    repeat match goal with
           | H : rd_bytes _ _ = Some _ |- _ =>
               apply rd_bytes_Some in H as [? ->]
           end;
    (split; [first [assumption | reflexivity]|]);
    split;
    first
      [ split; reflexivity
      | split; [reflexivity|];
        eexists _, _, _;
        (split; [first [eassumption | reflexivity]|]);
        (split;
         [match goal with
          | H : (_ =? AF_INET) = _ |- _ => rewrite H
          end; apply rd_bytes_ok; assumption|]);
        (split; [first [eassumption | reflexivity]|]);
        match goal with
        | H : (_ =? AF_INET) = _ |- _ => rewrite H
        end;
        cbn [set_filter set_table filter src_ip dst_ip];
        unfold memcpy; rewrite take_ge by (rewrite length_take; lia);
        reflexivity ].
Qed.

Section HandlerClaims.

Variable if_lookup_by_name_per_ns : Z -> list Z -> option interface.
Variable kernel_pbr_rule_del : zebra_pbr_rule -> Z.
Variable zebra_debug_kernel : bool.

Local Abbreviation rule_change :=
  (netlink_rule_change if_lookup_by_name_per_ns kernel_pbr_rule_del
     zebra_debug_kernel).
Local Abbreviation passes := (passes_filters if_lookup_by_name_per_ns).

(** C4, as the code has it.  The deletion callback is invoked only for a
    delete-rule notification whose family is IPv4 or IPv6, whose action is
    FR_ACT_TO_TBL, which carries an IFNAME attribute and whose interface
    name, the C string at the payload of that attribute, is known in the
    namespace.  A notification failing any of these invokes no callback.
    It returns -1 when it is a delete-rule notification whose declared
    length is below 28 or at least 2^31 + 28, and 0 otherwise, unless a
    read leaves the buffer, which happens only when the declared message
    does not lie within the buffer or the interface name is not
    NUL-terminated within it.  A notification that passes the filters does
    reach the callback (kernel debugging off) when its declared length
    fits an [int] and the buffer goes on for 16 bytes after it. *)
Theorem notification_filter h mem ns_id startup :
  0 <= nlmsg_len h < 2 ^ 32 ->
  let res :=
    netlink_rule_change if_lookup_by_name_per_ns kernel_pbr_rule_del
      zebra_debug_kernel h mem ns_id startup in
  (forall rule, In (EvRuleDel rule) (snd res) -> passes h mem ns_id)
  /\ (~ passes h mem ns_id ->
        snd res = []
        /\ (is_delrule h /\ bad_length h -> fst res = Returned (-1))
        /\ (~ (is_delrule h /\ bad_length h) ->
              fst res = Returned 0
              \/ fst res = Fault
                 /\ ~ (in_buffer h mem /\ ifname_terminated h mem)))
  /\ (passes h mem ns_id ->
      nlmsg_len h < 2 ^ 31 + NLMSG_LENGTH sizeof_fib_rule_hdr ->
      room_after 16 h mem -> zebra_debug_kernel = false ->
      exists rule,
        res = (Returned (kernel_pbr_rule_del rule), [EvRuleDel rule])).
Proof.
  intros Hr res. subst res.
  match goal with
  | |- ?A /\ ?B /\ ?C =>
      assert (HAB : A /\ B);
      [|destruct HAB as [HA HB]; split; [exact HA|]; split; [exact HB|]]
  end.
  2:{ intros Hp Hlt Hroom Hdbg.
      apply netlink_rule_change_progress; try assumption. lia. }
  destruct (netlink_rule_change_cases if_lookup_by_name_per_ns
              kernel_pbr_rule_del zebra_debug_kernel h mem ns_id startup Hr)
    as [[Hd ->]|[(Hd & Hb & ->)|[(Hd & Hb & Hn & H)|(Hd & Hb & Hp & _)]]];
    cbn [fst snd].
  - split; [intros rule []|]. intros _. split; [reflexivity|].
    split; [intros [? _]; contradiction|]. intros _. left. reflexivity.
  - split; [intros rule []|]. intros _. split; [reflexivity|].
    split; [reflexivity|]. intros H. exfalso. apply H. split; assumption.
  - destruct H as [-> | [-> Hf]]; cbn [fst snd];
      (split; [intros rule []|]); intros _; (split; [reflexivity|]);
      (split; [intros [_ ?]; contradiction|]); intros _; auto.
  - split; [intros rule _; exact Hp|]. intros Hn. contradiction.
Qed.

(** C5.  An add-rule notification returns 0 at line 185, before the length
    check and the attribute parse, and no callback is invoked. *)
Theorem newrule_never_processed h mem ns_id startup :
  nlmsg_type h = RTM_NEWRULE ->
  rule_change h mem ns_id startup = (Returned 0, []).
Proof.
  intros H. unfold netlink_rule_change. rewrite H. reflexivity.
Qed.


(** C10, as the code has it.  A delete-rule notification whose declared
    length is below NLMSG_LENGTH(sizeof(struct fib_rule_hdr)) = 28 makes
    the attribute length negative and is rejected with -1 and no callback;
    so is one whose declared length is 2^31 + 28 or more, the attribute
    length being an [int].  No other notification is rejected with a
    value other than 0. *)
Theorem short_delrule_is_error h mem ns_id startup :
  0 <= nlmsg_len h < 2 ^ 32 ->
  let res :=
    netlink_rule_change if_lookup_by_name_per_ns kernel_pbr_rule_del
      zebra_debug_kernel h mem ns_id startup in
  (is_delrule h -> nlmsg_len h < NLMSG_LENGTH sizeof_fib_rule_hdr ->
     rule_change_len h < 0 /\ res = (Returned (-1), []))
  /\ (is_delrule h ->
      2 ^ 31 + NLMSG_LENGTH sizeof_fib_rule_hdr <= nlmsg_len h ->
      rule_change_len h < 0 /\ res = (Returned (-1), []))
  /\ (forall ret, res = (Returned ret, []) -> ret <> 0 ->
        ret = -1 /\ is_delrule h /\ bad_length h).
Proof.
  intros Hr res. subst res.
  assert (Hbad : is_delrule h -> bad_length h ->
                 rule_change_len h < 0
                 /\ rule_change h mem ns_id startup = (Returned (-1), [])).
  { intros Hd Hb. apply (rule_change_len_neg h Hr) in Hb.
    split; [exact Hb|]. apply netlink_rule_change_neg_len; assumption. }
  split; [intros Hd Hl; apply Hbad; [exact Hd | left; exact Hl]|].
  split; [intros Hd Hl; apply Hbad; [exact Hd | right; exact Hl]|].
  intros ret.
  destruct (netlink_rule_change_cases if_lookup_by_name_per_ns
              kernel_pbr_rule_del zebra_debug_kernel h mem ns_id startup Hr)
    as [[_ ->]|[(Hd & Hb & ->)|[(_ & _ & _ & [-> | [-> _]])
                              |(_ & _ & _ & attrs & _ & ->)]]].
  - intros [= <-] H. contradiction.
  - intros [= <-] _. auto.
  - intros [= <-] H. contradiction.
  - discriminate.
  - destruct (netlink_rule_change_decode mem (tb_of attrs));
      [destruct zebra_debug_kernel|]; discriminate.
Qed.

End HandlerClaims.

(** ** The handler at the sample notifications *)

Lemma wire_data_notif_del_eth0 :
  wire_data Sample.notif_del_eth0 =
  [2; 0; 24; 0; 254; 0; 0; 1; 0; 0; 0; 0;
   9; 0; 3; 0; 101; 116; 104; 48; 0; 0; 0; 0;
   8; 0; 2; 0; 10; 0; 0; 0].
Proof. reflexivity. Qed.




Lemma passes_notif_del_src_short :
  passes_filters Sample.lookup_eth0 (n Sample.notif_del_src_short)
    (wire_data Sample.notif_del_src_short ++ Sample.stale) 0.
Proof.
  split; [reflexivity|]. split; [right; reflexivity|].
  split; [reflexivity|].
  eexists _, _, _, _.
  split; [vm_compute; reflexivity|]. split; [vm_compute; reflexivity|].
  split; [vm_compute; reflexivity | reflexivity].
Qed.

Lemma fails_notif_del_short :
  ~ passes_filters Sample.lookup_eth0 (n Sample.notif_del_short)
      (wire_data Sample.notif_del_short) 0.
Proof. intros (_ & [H|H] & _); discriminate H. Qed.

Lemma in_buffer_notif_del_short :
  in_buffer (n Sample.notif_del_short) (wire_data Sample.notif_del_short)
  /\ ifname_terminated (n Sample.notif_del_short)
       (wire_data Sample.notif_del_short).
Proof.
  split; [vm_compute; discriminate|].
  intros attrs a H. vm_compute in H. injection H as <-. discriminate.
Qed.

(** C2.  The end-to-end example of the specification, run on the code:
    with kernel debugging off the deletion callback is invoked once, with
    source 10.0.0.0/24, no destination and table 254, but the rule it
    receives has no interface (line 211 zeroes [rule] after line 207 stored
    [rule.ifp]) and its source prefix has family 0; with kernel debugging
    on, line 246 dereferences the NULL [rule.ifp] before the callback.
    This holds whatever follows the message in the buffer. *)
Theorem notif_del_eth0_loses_interface (del_ret : zebra_pbr_rule -> Z)
  (tail : list Z) :
  netlink_rule_change Sample.lookup_eth0 del_ret false
    (n Sample.notif_del_eth0) (wire_data Sample.notif_del_eth0 ++ tail) 0 0
  = (Returned (del_ret Sample.rule_decoded_eth0),
     [EvRuleDel Sample.rule_decoded_eth0])
  /\ ifp Sample.rule_decoded_eth0 = None
  /\ ifp Sample.rule_expected_eth0 = Some Sample.eth0
  /\ family (src_ip (filter Sample.rule_decoded_eth0)) = 0
  /\ IS_RULE_FILTERING_ON_SRC_IP Sample.rule_decoded_eth0 = true
  /\ IS_RULE_FILTERING_ON_DST_IP Sample.rule_decoded_eth0 = false
  /\ u_prefix (src_ip (filter Sample.rule_decoded_eth0))
     = u_prefix Sample.net10
  /\ prefixlen (src_ip (filter Sample.rule_decoded_eth0)) = 24
  /\ table (action Sample.rule_decoded_eth0) = 254
  /\ length (del_events
               (snd (netlink_rule_change Sample.lookup_eth0 del_ret false
                       (n Sample.notif_del_eth0)
                       (wire_data Sample.notif_del_eth0 ++ tail) 0 0)))
     = 1%nat
  /\ netlink_rule_change Sample.lookup_eth0 del_ret true
       (n Sample.notif_del_eth0) (wire_data Sample.notif_del_eth0 ++ tail)
       0 0
     = (Fault, []).
Proof.
  rewrite wire_data_notif_del_eth0. cbn [app].
  repeat split.
Qed.

(** C4 as stated fails on a delete-rule notification of 20 bytes whose
    family is neither IPv4 nor IPv6: it is rejected with -1, not 0. *)
Lemma filtered_notification_returns_success_fails :
  ~ filtered_notification_returns_success.
Proof.
  intros H. destruct in_buffer_notif_del_short as [Hb Ht].
  destruct (H Sample.lookup_eth0 (fun _ => 0) false
              (n Sample.notif_del_short) (wire_data Sample.notif_del_short)
              0 0 ltac:(vm_compute; split; [discriminate | reflexivity])
              Hb Ht) as [_ H2].
  specialize (H2 fails_notif_del_short).
  vm_compute in H2. discriminate H2.
Qed.

(** C10 as stated fails on a delete-rule notification whose declared
    length is 0xffffffff: it is rejected with -1 although its length is
    not below that of the headers. *)
Lemma short_delrule_is_the_only_error_fails :
  ~ short_delrule_is_the_only_error.
Proof.
  intros H.
  destruct (H Sample.lookup_eth0 (fun _ => 0) false
              (n Sample2.notif_del_huge) (wire_data Sample2.notif_del_huge)
              0 0 ltac:(vm_compute; split; [discriminate | reflexivity]))
    as [_ H2].
  destruct (H2 (-1) eq_refl ltac:(discriminate)) as [_ Hlen].
  vm_compute in Hlen. discriminate Hlen.
Qed.

(** C4 at the 20-byte notification (rejected with -1) and at the eth0
    notification, whose callback shows that it passes the filters. *)
Lemma notification_filter_witness :
  netlink_rule_change Sample.lookup_eth0 (fun _ => 0) false
    (n Sample.notif_del_short) (wire_data Sample.notif_del_short) 0 0
  = (Returned (-1), [])
  /\ passes_filters Sample.lookup_eth0 (n Sample.notif_del_eth0)
       (wire_data Sample.notif_del_eth0) 0.
Proof.
  pose proof (notification_filter Sample.lookup_eth0 (fun _ => 0) false
                (n Sample.notif_del_short)
                (wire_data Sample.notif_del_short) 0 0
                ltac:(vm_compute; split; [discriminate | reflexivity]))
    as (_ & H & _).
  destruct (H fails_notif_del_short) as (Hs & Hf & _).
  pose proof (notification_filter Sample.lookup_eth0 (fun _ => 0) false
                (n Sample.notif_del_eth0) (wire_data Sample.notif_del_eth0)
                0 0 ltac:(vm_compute; split; [discriminate | reflexivity]))
    as (Hp & _).
  split.
  - specialize (Hf ltac:(split; [reflexivity | left; vm_compute; reflexivity])).
    apply injective_projections; [exact Hf | exact Hs].
  - apply (Hp Sample.rule_decoded_eth0). left. reflexivity.
Defined.

(** C5 at the add-rule notification for eth0. *)
Lemma newrule_never_processed_witness :
  netlink_rule_change Sample.lookup_eth0 (fun _ => 0) false
    (n Sample.notif_new_eth0) (wire_data Sample.notif_new_eth0) 0 0
  = (Returned 0, []).
Proof.
  apply (newrule_never_processed Sample.lookup_eth0 (fun _ => 0) false
           (n Sample.notif_new_eth0) (wire_data Sample.notif_new_eth0) 0 0).
  reflexivity.
Defined.


(** C10 at the 20-byte delete-rule notification and at the one that
    declares a length of 0xffffffff. *)
Lemma short_delrule_is_error_witness :
  netlink_rule_change Sample.lookup_eth0 (fun _ => 0) false
    (n Sample.notif_del_short) (wire_data Sample.notif_del_short) 0 0
  = (Returned (-1), [])
  /\ netlink_rule_change Sample.lookup_eth0 (fun _ => 0) false
       (n Sample2.notif_del_huge) (wire_data Sample2.notif_del_huge) 0 0
     = (Returned (-1), []).
Proof.
  pose proof (short_delrule_is_error Sample.lookup_eth0 (fun _ => 0) false
                (n Sample.notif_del_short)
                (wire_data Sample.notif_del_short) 0 0
                ltac:(vm_compute; split; [discriminate | reflexivity]))
    as (H1 & _).
  pose proof (short_delrule_is_error Sample.lookup_eth0 (fun _ => 0) false
                (n Sample2.notif_del_huge)
                (wire_data Sample2.notif_del_huge) 0 0
                ltac:(vm_compute; split; [discriminate | reflexivity]))
    as (_ & H2 & _).
  split.
  - exact (proj2 (H1 eq_refl ltac:(vm_compute; reflexivity))).
  - exact (proj2 (H2 eq_refl ltac:(vm_compute; discriminate))).
Defined.
(** * Further properties of zebra/rule_netlink.c *)

Lemma attrs_size_app l1 l2 :
  attrs_size (l1 ++ l2) = attrs_size l1 + attrs_size l2.
Proof. induction l1 as [|a l1 IH]; cbn; [reflexivity|]. fold (attrs_size (l1 ++ l2)). fold (attrs_size l1). lia. Qed.

Lemma attrs_size_single a : attrs_size [a] = RTA_ALIGN (rta_len a).
Proof. unfold attrs_size. cbn [fold_right]. lia. Qed.

Lemma RTA_ALIGN_aligned x : RTA_ALIGN (4 * x) = 4 * x.
Proof. rewrite RTA_ALIGN_div. Z.div_mod_to_equations. lia. Qed.

Lemma attrs_size_mul4 l : exists k, attrs_size l = 4 * k.
Proof.
  induction l as [|a l [k IH]]; [exists 0; reflexivity|].
  cbn. fold (attrs_size l). rewrite IH, RTA_ALIGN_div.
  exists ((rta_len a + 3) / 4 + k). lia.
Qed.

Lemma attrs_size_bounds l :
  Forall (fun a => 0 <= rta_len a) l ->
  0 <= attrs_size l <= 3 * Z.of_nat (length l) + fold_right (fun a s => rta_len a + s) 0 l.
Proof.
  induction 1 as [|a l Ha _ IH]; cbn [attrs_size fold_right length]; [lia|].
  fold (attrs_size l). pose proof (RTA_ALIGN_bounds (rta_len a)). lia.
Qed.

Lemma addattr_l_exact req attrs maxlen type data alen :
  Exact req attrs ->
  0 <= alen -> 0 <= attrs_size attrs ->
  attrs_size attrs + alen + 40 <= maxlen -> maxlen < 2 ^ 16 ->
  0 <= type < 2 ^ 16 ->
  Exact (snd (addattr_l req maxlen type data alen))
        (attrs ++ [mk_rtattr (4 + alen) type (take (Z.to_nat alen) data)]).
Proof.
  intros [Ha Hl] Halen Hs Hfit Hmax Hty. unfold addattr_l.
  rewrite RTA_LENGTH_eq.
  destruct (attrs_size_mul4 attrs) as [k Hk].
  assert (Hal : NLMSG_ALIGN (nlmsg_len (n req)) = nlmsg_len (n req)).
  { rewrite Hl, Hk. change (NLMSG_LENGTH sizeof_rtmsg) with (4 * 7).
    rewrite <- Z.mul_add_distr_l. apply RTA_ALIGN_aligned. }
  rewrite Hal.
  pose proof (RTA_ALIGN_bounds (4 + alen)) as Hr.
  change (NLMSG_LENGTH sizeof_rtmsg) with 28 in *.
  destruct (Z.ltb_spec maxlen (nlmsg_len (n req) + RTA_ALIGN (4 + alen)));
    [lia|].
  cbn [snd]. unfold Exact, Req.set_nlmsg_len, Req.with_n.
  cbn [rtattrs n nlmsg_len]. rewrite Ha.
  rewrite (u16_small (4 + alen)), (u16_small type), u32_small by lia.
  split; [reflexivity|].
  rewrite attrs_size_app, attrs_size_single. cbn [rta_len].
  change (NLMSG_LENGTH sizeof_rtmsg) with 28. lia.
Qed.

Lemma addattr32_exact req attrs maxlen type v :
  Exact req attrs ->
  0 <= attrs_size attrs ->
  attrs_size attrs + 44 <= maxlen -> maxlen < 2 ^ 16 -> 0 <= type < 2 ^ 16 ->
  Exact (snd (addattr32 req maxlen type v))
        (attrs ++ [mk_rtattr 8 type (store_u32 v)]).
Proof.
  intros HS Hs Hfit Hmax Hty. unfold addattr32.
  pose proof (addattr_l_exact req attrs maxlen type (store_u32 v) 4 HS)
    as H.
  rewrite take_ge in H by (unfold store_u32; rewrite length_le_split; lia).
  apply H; lia.
Qed.

Lemma Exact_set_frh req attrs f :
  Exact req attrs -> Exact (Req.with_frh f req) attrs.
Proof. intros H. exact H. Qed.

Lemma Exact_init pid cmd fam :
  Exact
    (Req.set_action FR_ACT_TO_TBL
      (Req.set_family fam
        (Req.set_nlmsg_pid pid
          (Req.set_nlmsg_flags NLM_F_REQUEST
            (Req.set_nlmsg_len (NLMSG_LENGTH sizeof_rtmsg)
              (Req.set_nlmsg_type cmd Req.zero)))))) [].
Proof. split; reflexivity. Qed.

Lemma Exact_eq req attrs attrs' :
  Exact req attrs -> attrs = attrs' -> Exact req attrs'.
Proof. intros H <-. exact H. Qed.

Ltac exact_stage :=
  lazymatch goal with
  | |- Exact (snd (addattr32 _ _ _ _)) _ =>
      eapply addattr32_exact; [exact_stage | ..]
  | |- Exact (snd (addattr_l _ _ _ _ _)) _ =>
      eapply addattr_l_exact; [exact_stage | ..]
  | |- Exact (Req.set_table _ _) _ => apply Exact_set_frh; exact_stage
  | |- Exact (Req.set_src_len _ _) _ => apply Exact_set_frh; exact_stage
  | |- Exact (Req.set_dst_len _ _) _ => apply Exact_set_frh; exact_stage
  | |- Exact (Req.set_action _ _) _ => apply Exact_init
  end.

Lemma attrs_size_rule_attrs rule :
  wf_rule rule -> 8 <= attrs_size (rule_attrs rule) <= 84.
Proof.
  intros Hwf. apply wf_rule_elim in Hwf as (Hp & Ht & Hf & Hs & Hd & Hi).
  unfold rule_attrs. cbv zeta.
  set (bytelen := if family (src_ip (filter rule)) =? AF_INET then 4 else 16).
  assert (Hb : bytelen = 4 \/ bytelen = 16)
    by (subst bytelen; destruct (_ =? _); auto).
  clearbody bytelen. unfold INTERFACE_NAMSIZ in Hi.
  rewrite !attrs_size_app, attrs_size_single. cbn [rta_len].
  change (RTA_ALIGN 8) with 8.
  assert (0 <= attrs_size match ifp rule with
     | Some i =>
         [mk_rtattr (4 + (strlen (name i) + 1)) FRA_IFNAME (name i ++ [0])]
     | None => []
     end <= 28).
  { destruct (ifp rule) as [i|]; [|cbn; lia].
    specialize (Hi i eq_refl). rewrite attrs_size_single. cbn [rta_len].
    pose proof (RTA_ALIGN_bounds (4 + (strlen (name i) + 1))).
    rewrite RTA_ALIGN_div in *. Z.div_mod_to_equations. lia. }
  assert (forall (b : bool) ty d, 0 <= attrs_size (if b then [mk_rtattr (4 + bytelen) ty d] else []) <= 20).
  { intros [] ty d; [|cbn; lia]. rewrite attrs_size_single. cbn [rta_len].
    rewrite RTA_ALIGN_div.
    destruct Hb as [-> | ->]; Z.div_mod_to_equations; lia. }
  assert (forall (b : bool) ty d, 0 <= attrs_size (if b then [] else [mk_rtattr 8 ty d]) <= 8).
  { intros [] ty d; [cbn; lia|]. rewrite attrs_size_single. cbn [rta_len].
    change (RTA_ALIGN 8) with 8. lia. }
  pose proof (H0 (IS_RULE_FILTERING_ON_SRC_IP rule) FRA_SRC (take (Z.to_nat bytelen) (u_prefix (src_ip (filter rule))))).
  pose proof (H0 (IS_RULE_FILTERING_ON_DST_IP rule) FRA_DST (take (Z.to_nat bytelen) (u_prefix (dst_ip (filter rule))))).
  pose proof (H1 (table (action rule) <? 256) FRA_TABLE (store_u32 (table (action rule)))).
  lia.
Qed.

Ltac align_lia :=
  rewrite ?attrs_size_app, ?attrs_size_single;
  change (attrs_size []) with 0; cbn [rta_len];
  repeat match goal with
         | |- context [RTA_ALIGN ?x] =>
             let H := fresh "Hal" in
             pose proof (RTA_ALIGN_bounds x) as H;
             generalize dependent (RTA_ALIGN x); intros
         end;
  lia.

Lemma nlmsg_len_netlink_rule_update_req pid cmd rule :
  wf_rule rule ->
  nlmsg_len (n (netlink_rule_update_req pid cmd rule)) =
  NLMSG_LENGTH sizeof_rtmsg + attrs_size (rule_attrs rule).
Proof.
  intros Hwf. apply wf_rule_elim in Hwf as (Hp & Ht & Hf & Hs & Hd & Hi).
  enough (Exact (netlink_rule_update_req pid cmd rule) (rule_attrs rule))
    as [_ H] by exact H.
  unfold netlink_rule_update_req, rule_attrs, PREFIX_FAMILY. cbv zeta.
  set (bytelen := if family (src_ip (filter rule)) =? AF_INET then 4 else 16).
  assert (Hb : 0 <= bytelen <= 16) by (subst bytelen; destruct (_ =? _); lia).
  clearbody bytelen.
  unfold INTERFACE_NAMSIZ in Hi.
  destruct (ifp rule) as [i|] eqn:Hifp;
    [specialize (Hi i eq_refl)|clear Hi];
    destruct (IS_RULE_FILTERING_ON_SRC_IP rule);
    destruct (IS_RULE_FILTERING_ON_DST_IP rule);
    destruct (table (action rule) <? 256);
    (eapply Exact_eq;
     [ exact_stage; rewrite ?sizeof_req_eq;
       cbv [FRA_PRIORITY FRA_IFNAME FRA_SRC FRA_DST FRA_TABLE];
       try lia; align_lia
     | rewrite ?take_name; cbn [app]; reflexivity ]).
Qed.

Lemma attrs_size_nonneg l :
  Forall (fun a => 4 <= rta_len a /\ 0 <= rta_type a) l -> 0 <= attrs_size l.
Proof.
  induction 1 as [|a l [Ha _] _ IH]; cbn [attrs_size fold_right]; [lia|].
  fold (attrs_size l). pose proof (RTA_ALIGN_bounds (rta_len a)). lia.
Qed.

Lemma laid_out_attrs_size l extra :
  Forall (fun a => 4 <= rta_len a /\ 0 <= rta_type a) l -> 0 <= extra ->
  laid_out l (attrs_size l + extra).
Proof.
  induction 1 as [|a l [Ha Ht] Hl IH]; intros He; cbn [laid_out]; [exact I|].
  cbn [attrs_size fold_right]. fold (attrs_size l).
  pose proof (RTA_ALIGN_bounds (rta_len a)).
  pose proof (attrs_size_nonneg l Hl).
  split; [|split; [exact Ht|]].
  - unfold RTA_OK, sizeof_rtattr.
    repeat (apply andb_true_intro; split); apply Z.leb_le; lia.
  - replace (RTA_ALIGN (rta_len a) + attrs_size l + extra
             - RTA_ALIGN (rta_len a)) with (attrs_size l + extra) by lia.
    apply IH, He.
Qed.

Lemma rule_attrs_shape rule :
  wf_rule rule ->
  Forall (fun a => 4 <= rta_len a /\ 0 <= rta_type a) (rule_attrs rule).
Proof.
  intros Hwf. apply wf_rule_elim in Hwf as (Hp & Ht & Hf & Hs & Hd & Hi).
  unfold rule_attrs. cbv zeta.
  set (bytelen := if family (src_ip (filter rule)) =? AF_INET then 4 else 16).
  assert (Hb : 0 <= bytelen <= 16) by (subst bytelen; destruct (_ =? _); lia).
  clearbody bytelen.
  unfold INTERFACE_NAMSIZ in Hi.
  destruct (ifp rule) as [i|]; [specialize (Hi i eq_refl)|];
    destruct (IS_RULE_FILTERING_ON_SRC_IP rule),
      (IS_RULE_FILTERING_ON_DST_IP rule), (table (action rule) <? 256);
    cbn [app];
    repeat (apply List.Forall_cons;
            [cbv [rta_len rta_type FRA_PRIORITY FRA_IFNAME FRA_SRC FRA_DST
                  FRA_TABLE]; lia|]);
    apply List.Forall_nil.
Qed.

Section EchoLayout.
Variable nl_pid : Z.

Lemma laid_out_request cmd rule :
  wf_rule rule ->
  let h := netlink_rule_update_req nl_pid cmd rule in
  laid_out (rtattrs h) (attrs_size (rule_attrs rule)).
Proof.
  intros Hwf h. subst h.
  rewrite (rtattrs_netlink_rule_update_req nl_pid cmd rule Hwf).
  rewrite <- (Z.add_0_r (attrs_size (rule_attrs rule))).
  apply laid_out_attrs_size; [apply rule_attrs_shape, Hwf | lia].
Qed.

End EchoLayout.

Lemma c_str_name (s : list Z) :
  forallb (fun b => (0 <? b) && (b <? 256)) s = true -> c_str (s ++ [0]) = s.
Proof.
  induction s as [|b s IH]; cbn [forallb app c_str]; [reflexivity|].
  intros H. apply andb_prop in H as [Hb Hs]. apply andb_prop in Hb as [Hb _].
  destruct (Z.eqb_spec b 0); [lia|]. rewrite IH by exact Hs. reflexivity.
Qed.

Lemma wf_rule_name (r : zebra_pbr_rule) (i : interface) :
  wf_rule r -> ifp r = Some i ->
  forallb (fun b => (0 <? b) && (b <? 256)) (name i) = true.
Proof.
  unfold wf_rule, wf_ruleb. intros H Hi. rewrite Hi in H.
  apply andb_prop in H as [_ H]. unfold wf_interfaceb in H.
  apply andb_prop in H as [_ H]. exact H.
Qed.

Lemma wf_rule_prefixlen (r : zebra_pbr_rule) :
  wf_rule r ->
  0 <= prefixlen (src_ip (filter r)) < 256
  /\ 0 <= prefixlen (dst_ip (filter r)) < 256.
Proof.
  unfold wf_rule, wf_ruleb. intros H.
  apply andb_prop in H as [H _]. apply andb_prop in H as [H Hd].
  apply andb_prop in H as [_ Hs].
  apply wf_prefixb_spec in Hs as (_ & ? & _), Hd as (_ & ? & _). auto.
Qed.

(** ** A structured message in memory *)

Lemma length_wire_rtattr_hdr a : length (wire_rtattr_hdr a) = 4%nat.
Proof. unfold wire_rtattr_hdr. rewrite length_app, !length_le_split. reflexivity. Qed.

Lemma rtattr_at_split a p :
  rtattr_at a p ->
  exists rest, p = wire_rtattr_hdr a ++ rta_data a ++ rest.
Proof.
  unfold rtattr_at. intros H. exists (drop (Z.to_nat (rta_len a)) p).
  rewrite app_assoc, <- H. symmetry. apply take_drop.
Qed.

Lemma rtattr_at_RTA_DATA a p :
  rtattr_at a p -> exists rest, RTA_DATA p = rta_data a ++ rest.
Proof.
  intros H. apply rtattr_at_split in H as [rest ->]. exists rest.
  unfold RTA_DATA. change (Z.to_nat (RTA_LENGTH 0)) with 4%nat.
  rewrite drop_app_length' by reflexivity. reflexivity.
Qed.

(** The header fields and the payload read back from where a well-formed
    attribute sits. *)
Lemma rtattr_at_reads a p :
  rtattr_wf a -> rtattr_at a p ->
  rd_u16 p = Some (rta_len a)
  /\ rd_u16 (drop (Z.to_nat offsetof_rta_type) p) = Some (rta_type a)
  /\ take (Z.to_nat (rta_len a - sizeof_rtattr)) (RTA_DATA p) = rta_data a
  /\ (4 <= length p)%nat.
Proof.
  intros (Hl & Ht & Hd) H.
  destruct (rtattr_at_RTA_DATA a p H) as [rest' Hdata].
  apply rtattr_at_split in H as [rest ->].
  assert (L2 : forall v, length (le_split 2 v) = 2%nat)
    by (intros; apply length_le_split).
  split; [|split; [|split]].
  - unfold wire_rtattr_hdr. rewrite <- !app_assoc.
    rewrite rd_u16_ok by (rewrite length_app, L2; lia).
    rewrite take_app_length' by reflexivity.
    rewrite le_combine_split. f_equal. apply Z.mod_small.
    change (2 ^ (8 * Z.of_nat 2)) with (2 ^ 16). lia.
  - unfold wire_rtattr_hdr. rewrite <- !app_assoc.
    change (Z.to_nat offsetof_rta_type) with 2%nat.
    rewrite drop_app_length' by reflexivity.
    rewrite rd_u16_ok by (rewrite length_app, L2; lia).
    rewrite take_app_length' by reflexivity.
    rewrite le_combine_split. f_equal. apply Z.mod_small.
    change (2 ^ (8 * Z.of_nat 2)) with (2 ^ 16). lia.
  - rewrite Hdata. apply take_app_length'. unfold sizeof_rtattr. lia.
  - rewrite !length_app, length_wire_rtattr_hdr. lia.
Qed.

(** The walk over memory that holds well-formed attributes, for a length
    that ends with the last of them, finds exactly these attributes. *)
Lemma rta_walk_image (turns : nat) (l : list rtattr) (p : list Z) (len : Z) :
  Forall rtattr_wf l -> rtattrs_at l p ->
  0 <= len - attrs_size l < 4 -> (length p <= turns)%nat ->
  rta_walk turns p len = Some (attr_ptrs l p).
Proof.
  intros Hwf. revert turns p len.
  induction Hwf as [|a l Ha Hwf IH]; intros turns p len Hat Hlen Hturns.
  - cbn [attrs_size fold_right] in Hlen. cbn [attr_ptrs].
    destruct turns; cbn [rta_walk];
      (destruct (Z.ltb_spec len sizeof_rtattr);
       [reflexivity | unfold sizeof_rtattr in *; lia]).
  - destruct Hat as [Hat Hrest].
    cbn [attrs_size fold_right] in Hlen. fold (attrs_size l) in Hlen.
    pose proof (rtattr_at_reads a p Ha Hat) as (Hrl & Hrt & Hrd & Hp4).
    pose proof Ha as (Hl & _ & _).
    pose proof (RTA_ALIGN_bounds (rta_len a)) as Hal.
    assert (Hs : 0 <= attrs_size l).
    { apply attrs_size_nonneg. eapply Forall_impl; [exact Hwf|].
      intros x (? & ? & _). lia. }
    destruct turns as [|turns]; [lia|]. cbn [rta_walk attr_ptrs].
    destruct (Z.ltb_spec len sizeof_rtattr);
      [unfold sizeof_rtattr in *; lia|].
    rewrite Hrl.
    destruct (Z.ltb_spec (rta_len a) sizeof_rtattr);
      [unfold sizeof_rtattr in *; lia|].
    destruct (Z.ltb_spec len (rta_len a)); [lia|]. cbn [orb].
    rewrite Hrt, Hrd.
    rewrite (IH turns); [destruct a; reflexivity|exact Hrest|lia|].
    rewrite length_drop. lia.
Qed.

(** The attribute of a type found among attributes laid out in memory is
    the last one of that type, and it sits at the address found. *)
Lemma message_attr_ptrs (l : list rtattr) (p : list Z) (ty : Z) :
  rtattrs_at l p ->
  match message_attr ty (attr_ptrs l p) with
  | Some a => last (attrs_of_type ty l) = Some (fst a) /\ rtattr_at (fst a) (snd a)
  | None => last (attrs_of_type ty l) = None
  end.
Proof.
  revert p. induction l as [|a l IH]; intros p Hat; [reflexivity|].
  destruct Hat as [Ha Hrest]. specialize (IH _ Hrest).
  unfold message_attr, attrs_of_type in *. cbn [attr_ptrs List.filter fst].
  destruct (rta_type a =? ty); [|exact IH].
  rewrite !last_cons.
  destruct (last (List.filter _ (attr_ptrs l _))) as [b|].
  - destruct IH as [-> ?]. auto.
  - rewrite IH. auto.
Qed.

(** The fields of the rule header read back from a message in memory. *)
Lemma message_at_frh m mem :
  message_at m mem ->
  rd_u8 mem offsetof_family = Some (frh_family (frh m))
  /\ rd_u8 mem offsetof_dst_len = Some (frh_dst_len (frh m))
  /\ rd_u8 mem offsetof_src_len = Some (frh_src_len (frh m))
  /\ rd_u8 mem offsetof_table = Some (frh_table (frh m))
  /\ rd_u8 mem offsetof_action = Some (frh_action (frh m)).
Proof.
  intros [H _].
  rewrite <- (take_drop (Z.to_nat sizeof_fib_rule_hdr) mem), H.
  repeat split; reflexivity.
Qed.

Lemma rule_attrs_wf rule : wf_rule rule -> Forall rtattr_wf (rule_attrs rule).
Proof.
  intros Hwf. apply wf_rule_elim in Hwf as (Hp & Ht & Hf & Hs & Hd & Hi).
  unfold rule_attrs. cbv zeta.
  assert (Hb : forall u, length u = 16%nat ->
            let bl := if family (src_ip (filter rule)) =? AF_INET
                      then 4 else 16 in
            forall ty, 0 <= ty < 2 ^ 16 ->
            rtattr_wf (mk_rtattr (4 + bl) ty (take (Z.to_nat bl) u))).
  { intros u Hu bl ty Hty. subst bl. unfold rtattr_wf.
    cbn [rta_len rta_type rta_data]. rewrite length_take, Hu.
    destruct (_ =? _); lia. }
  assert (H32 : forall v ty, 0 <= ty < 2 ^ 16 ->
            rtattr_wf (mk_rtattr 8 ty (store_u32 v))).
  { intros v ty Hty. unfold rtattr_wf, store_u32.
    cbn [rta_len rta_type rta_data]. rewrite length_le_split. lia. }
  unfold INTERFACE_NAMSIZ in Hi.
  repeat apply Forall_app_2.
  - apply List.Forall_cons; [|apply List.Forall_nil].
    apply H32. unfold FRA_PRIORITY. lia.
  - destruct (ifp rule) as [i|]; [|apply List.Forall_nil].
    specialize (Hi i eq_refl).
    apply List.Forall_cons; [|apply List.Forall_nil].
    unfold rtattr_wf. cbn [rta_len rta_type rta_data].
    rewrite length_app. unfold strlen in *. cbn [length].
    unfold FRA_IFNAME. lia.
  - destruct (IS_RULE_FILTERING_ON_SRC_IP rule); [|apply List.Forall_nil].
    apply List.Forall_cons; [|apply List.Forall_nil].
    apply Hb; [apply Hs | unfold FRA_SRC; lia].
  - destruct (IS_RULE_FILTERING_ON_DST_IP rule); [|apply List.Forall_nil].
    apply List.Forall_cons; [|apply List.Forall_nil].
    apply Hb; [apply Hd | unfold FRA_DST; lia].
  - destruct (table (action rule) <? 256); [apply List.Forall_nil|].
    apply List.Forall_cons; [|apply List.Forall_nil].
    apply H32. unfold FRA_TABLE. lia.
Qed.

Lemma n_with_frh f m : n (Req.with_frh f m) = n m.
Proof. reflexivity. Qed.

Section EncoderExtras.

Variable nl_pid : Z.

Lemma n_fields_netlink_rule_update_req cmd rule :
  let req := netlink_rule_update_req nl_pid cmd rule in
  nlmsg_type (n req) = u16 cmd
  /\ nlmsg_flags (n req) = NLM_F_REQUEST
  /\ nlmsg_seq (n req) = 0
  /\ nlmsg_pid (n req) = nl_pid.
Proof.
  intros req. subst req.
  unfold netlink_rule_update_req, addattr32. cbv zeta.
  unfold Req.set_table, Req.set_src_len, Req.set_dst_len.
  destruct (ifp rule), (IS_RULE_FILTERING_ON_SRC_IP rule),
    (IS_RULE_FILTERING_ON_DST_IP rule), (table (action rule) <? 256);
    repeat match goal with
      | |- context [n (Req.with_frh ?f ?m)] => rewrite (n_with_frh f m)
      | |- context [snd (addattr_l ?r ?m ?t ?d ?a)] =>
          let H := fresh in
          pose proof (n_addattr_l r m t d a) as H; cbv zeta in H;
          destruct H as (-> & -> & -> & ->)
      end;
    repeat split; reflexivity.
Qed.

(** X1.  Whatever the rule, the request is a plain NLM_F_REQUEST carrying
    the command in [nlmsg_type] and the socket's pid, and its rule header
    always has action FR_ACT_TO_TBL with tos, flags and the reserved
    bytes zero. *)
Theorem request_fixed_fields cmd rule :
  0 <= cmd < 2 ^ 16 ->
  let req := netlink_rule_update_req nl_pid cmd rule in
  nlmsg_type (n req) = cmd
  /\ nlmsg_flags (n req) = NLM_F_REQUEST
  /\ nlmsg_seq (n req) = 0
  /\ nlmsg_pid (n req) = nl_pid
  /\ frh_action (frh req) = FR_ACT_TO_TBL
  /\ frh_tos (frh req) = 0
  /\ frh_res1 (frh req) = 0 /\ frh_res2 (frh req) = 0
  /\ frh_flags (frh req) = 0.
Proof.
  intros Hcmd req. subst req.
  pose proof (n_fields_netlink_rule_update_req cmd rule) as (Ht & Hf & Hs & Hp).
  cbv zeta in *. rewrite Ht, Hf, Hs, Hp, frh_netlink_rule_update_req.
  rewrite u16_small by exact Hcmd. repeat split; reflexivity.
Qed.

(** X2.  The request carries an IFNAME attribute exactly when the rule
    has an interface: one attribute, holding the interface name and its
    terminating NUL, from which the name reads back as a C string. *)
Theorem ifname_attribute cmd rule :
  wf_rule rule ->
  let req := netlink_rule_update_req nl_pid cmd rule in
  attrs_of_type FRA_IFNAME (rtattrs req) =
    match ifp rule with
    | Some i => [mk_rtattr (RTA_LENGTH (strlen (name i) + 1)) FRA_IFNAME
                   (name i ++ [0])]
    | None => []
    end
  /\ (forall i, ifp rule = Some i -> c_str (name i ++ [0]) = name i).
Proof.
  intros Hwf req. subst req.
  rewrite (rtattrs_netlink_rule_update_req nl_pid cmd rule Hwf).
  split.
  - unfold rule_attrs. cbv zeta.
    destruct (ifp rule), (IS_RULE_FILTERING_ON_SRC_IP rule),
      (IS_RULE_FILTERING_ON_DST_IP rule), (table (action rule) <? 256);
      reflexivity.
  - intros i Hi. apply c_str_name. eapply wf_rule_name; eauto.
Qed.

(** X3.  A rule that filters on the source gets exactly one SRC
    attribute, of 4 address bytes when [src_ip]'s family is AF_INET and
    16 otherwise, and the header's [src_len] is the prefix length; a rule
    that does not gets no SRC attribute and [src_len] 0. *)
Theorem src_attribute cmd rule :
  wf_rule rule ->
  let req := netlink_rule_update_req nl_pid cmd rule in
  let bl := rule_bytelen rule in
  (IS_RULE_FILTERING_ON_SRC_IP rule = true ->
     attrs_of_type FRA_SRC (rtattrs req) =
       [mk_rtattr (RTA_LENGTH (Z.of_nat bl)) FRA_SRC
          (take bl (u_prefix (src_ip (filter rule))))]
     /\ length (take bl (u_prefix (src_ip (filter rule)))) = bl
     /\ frh_src_len (frh req) = prefixlen (src_ip (filter rule)))
  /\ (IS_RULE_FILTERING_ON_SRC_IP rule = false ->
        attrs_of_type FRA_SRC (rtattrs req) = []
        /\ frh_src_len (frh req) = 0).
Proof.
  intros Hwf req bl. subst req bl.
  rewrite (rtattrs_netlink_rule_update_req nl_pid cmd rule Hwf),
    frh_netlink_rule_update_req.
  pose proof (wf_rule_elim rule Hwf) as (_ & _ & _ & Hs & _).
  cbn [frh_src_len]. unfold rule_bytelen, rule_attrs. cbv zeta.
  split; intros ->.
  - split; [|split; [|reflexivity]].
    + destruct (family (src_ip (filter rule)) =? AF_INET), (ifp rule),
        (IS_RULE_FILTERING_ON_DST_IP rule), (table (action rule) <? 256);
        reflexivity.
    + rewrite length_take, Hs.
      destruct (family (src_ip (filter rule)) =? AF_INET); reflexivity.
  - split; [|reflexivity].
    destruct (ifp rule), (IS_RULE_FILTERING_ON_DST_IP rule),
      (table (action rule) <? 256); reflexivity.
Qed.

(** X4.  The same for the destination, except that the number of
    address bytes is still chosen by the family of [src_ip]: the family of
    [dst_ip] plays no part. *)
Theorem dst_attribute cmd rule :
  wf_rule rule ->
  let req := netlink_rule_update_req nl_pid cmd rule in
  let bl := rule_bytelen rule in
  (IS_RULE_FILTERING_ON_DST_IP rule = true ->
     attrs_of_type FRA_DST (rtattrs req) =
       [mk_rtattr (RTA_LENGTH (Z.of_nat bl)) FRA_DST
          (take bl (u_prefix (dst_ip (filter rule))))]
     /\ length (take bl (u_prefix (dst_ip (filter rule)))) = bl
     /\ frh_dst_len (frh req) = prefixlen (dst_ip (filter rule)))
  /\ (IS_RULE_FILTERING_ON_DST_IP rule = false ->
        attrs_of_type FRA_DST (rtattrs req) = []
        /\ frh_dst_len (frh req) = 0).
Proof.
  intros Hwf req bl. subst req bl.
  rewrite (rtattrs_netlink_rule_update_req nl_pid cmd rule Hwf),
    frh_netlink_rule_update_req.
  pose proof (wf_rule_elim rule Hwf) as (_ & _ & _ & _ & Hd & _).
  cbn [frh_dst_len]. unfold rule_bytelen, rule_attrs. cbv zeta.
  split; intros ->.
  - split; [|split; [|reflexivity]].
    + destruct (family (src_ip (filter rule)) =? AF_INET), (ifp rule),
        (IS_RULE_FILTERING_ON_SRC_IP rule), (table (action rule) <? 256);
        reflexivity.
    + rewrite length_take, Hd.
      destruct (family (src_ip (filter rule)) =? AF_INET); reflexivity.
  - split; [|reflexivity].
    destruct (ifp rule), (IS_RULE_FILTERING_ON_SRC_IP rule),
      (table (action rule) <? 256); reflexivity.
Qed.

(** X5.  For a well-formed rule the request never reaches the end of
    the buffer: [nlmsg_len] is the 28 header bytes plus the aligned sizes
    of the attributes, between 36 and 112, and every attribute lies
    within it where the RTA_OK walk finds it. *)
Theorem request_fits_buffer cmd rule :
  wf_rule rule ->
  let req := netlink_rule_update_req nl_pid cmd rule in
  nlmsg_len (n req) = NLMSG_LENGTH sizeof_rtmsg + attrs_size (rtattrs req)
  /\ 36 <= nlmsg_len (n req) <= 112
  /\ nlmsg_len (n req) < sizeof_req
  /\ laid_out (rtattrs req)
       (nlmsg_len (n req) - NLMSG_LENGTH sizeof_rtmsg).
Proof.
  intros Hwf req. subst req.
  pose proof (attrs_size_rule_attrs rule Hwf) as Hsz.
  pose proof (laid_out_request nl_pid cmd rule Hwf) as Hl. cbv zeta in Hl.
  rewrite (nlmsg_len_netlink_rule_update_req nl_pid cmd rule Hwf).
  rewrite (rtattrs_netlink_rule_update_req nl_pid cmd rule Hwf) in *.
  change (NLMSG_LENGTH sizeof_rtmsg) with 28. rewrite sizeof_req_eq.
  replace (28 + attrs_size (rule_attrs rule) - 28)
    with (attrs_size (rule_attrs rule)) by lia.
  split; [reflexivity|]. split; [lia|]. split; [lia|]. exact Hl.
Qed.

(** X6.  The attributes are laid out in the order PRIORITY, IFNAME, SRC,
    DST, TABLE, each present or absent as the rule says. *)
Theorem attribute_order cmd rule :
  wf_rule rule ->
  map rta_type (rtattrs (netlink_rule_update_req nl_pid cmd rule)) =
    [FRA_PRIORITY]
    ++ match ifp rule with Some _ => [FRA_IFNAME] | None => [] end
    ++ (if IS_RULE_FILTERING_ON_SRC_IP rule then [FRA_SRC] else [])
    ++ (if IS_RULE_FILTERING_ON_DST_IP rule then [FRA_DST] else [])
    ++ (if table (action rule) <? 256 then [] else [FRA_TABLE]).
Proof.
  intros Hwf.
  rewrite (rtattrs_netlink_rule_update_req nl_pid cmd rule Hwf).
  unfold rule_attrs. cbv zeta.
  destruct (ifp rule), (IS_RULE_FILTERING_ON_SRC_IP rule),
    (IS_RULE_FILTERING_ON_DST_IP rule), (table (action rule) <? 256);
    reflexivity.
Qed.

End EncoderExtras.

(** ** Install and uninstall *)

Section Synchronizer.

Variable nl_pid : Z.
Variable netlink_talk : nlmsg -> Z.

(** C3.  [kernel_add_pbr_rule] hands the request built for the rule to the
    transport, and that request carries the Add operation: its
    [nlmsg_type] is RTM_NEWRULE and it is a plain NLM_F_REQUEST.  It then
    reports exactly once, SOUTHBOUND_INSTALL_SUCCESS when the round trip
    returned 0 and SOUTHBOUND_INSTALL_FAILURE otherwise.
    [kernel_del_pbr_rule] does the same with RTM_DELRULE and the two
    DELETE results. *)
Theorem install_uninstall_status rule :
  let add := netlink_rule_update_req nl_pid RTM_NEWRULE rule in
  let del := netlink_rule_update_req nl_pid RTM_DELRULE rule in
  (nlmsg_type (n add) = RTM_NEWRULE /\ nlmsg_flags (n add) = NLM_F_REQUEST)
  /\ (nlmsg_type (n del) = RTM_DELRULE
      /\ nlmsg_flags (n del) = NLM_F_REQUEST)
  /\ (netlink_talk add = 0 ->
        kernel_add_pbr_rule nl_pid netlink_talk rule =
          [EvTalk add; EvStatus rule SOUTHBOUND_INSTALL_SUCCESS])
  /\ (netlink_talk add <> 0 ->
        kernel_add_pbr_rule nl_pid netlink_talk rule =
          [EvTalk add; EvStatus rule SOUTHBOUND_INSTALL_FAILURE])
  /\ (netlink_talk del = 0 ->
        kernel_del_pbr_rule nl_pid netlink_talk rule =
          [EvTalk del; EvStatus rule SOUTHBOUND_DELETE_SUCCESS])
  /\ (netlink_talk del <> 0 ->
        kernel_del_pbr_rule nl_pid netlink_talk rule =
          [EvTalk del; EvStatus rule SOUTHBOUND_DELETE_FAILURE])
  /\ length (status_events (kernel_add_pbr_rule nl_pid netlink_talk rule))
     = 1%nat
  /\ length (status_events (kernel_del_pbr_rule nl_pid netlink_talk rule))
     = 1%nat.
Proof.
  intros add del.
  assert (Hadd : nlmsg_type (n add) = RTM_NEWRULE
                 /\ nlmsg_flags (n add) = NLM_F_REQUEST).
  { subst add.
    pose proof (n_fields_netlink_rule_update_req nl_pid RTM_NEWRULE rule)
      as (Ht & Hf & _).
    cbv zeta in Ht, Hf. rewrite Ht, Hf. split; reflexivity. }
  assert (Hdel : nlmsg_type (n del) = RTM_DELRULE
                 /\ nlmsg_flags (n del) = NLM_F_REQUEST).
  { subst del.
    pose proof (n_fields_netlink_rule_update_req nl_pid RTM_DELRULE rule)
      as (Ht & Hf & _).
    cbv zeta in Ht, Hf. rewrite Ht, Hf. split; reflexivity. }
  split; [exact Hadd|]. split; [exact Hdel|].
  unfold kernel_add_pbr_rule, kernel_del_pbr_rule, netlink_rule_update.
  fold add del. cbn [app].
  repeat split.
  - intros ->. reflexivity.
  - intros H. apply Z.eqb_neq in H. rewrite H. reflexivity.
  - intros ->. reflexivity.
  - intros H. apply Z.eqb_neq in H. rewrite H. reflexivity.
Qed.

End Synchronizer.

(** C3 with a transport that always succeeds and one that always fails
    with -1. *)
Lemma install_uninstall_status_witness :
  let r := Sample.rule_table5 in
  kernel_add_pbr_rule 0 (fun _ => 0) r =
    [EvTalk (netlink_rule_update_req 0 RTM_NEWRULE r);
     EvStatus r SOUTHBOUND_INSTALL_SUCCESS]
  /\ kernel_add_pbr_rule 0 (fun _ => -1) r =
       [EvTalk (netlink_rule_update_req 0 RTM_NEWRULE r);
        EvStatus r SOUTHBOUND_INSTALL_FAILURE]
  /\ kernel_del_pbr_rule 0 (fun _ => 0) r =
       [EvTalk (netlink_rule_update_req 0 RTM_DELRULE r);
        EvStatus r SOUTHBOUND_DELETE_SUCCESS]
  /\ kernel_del_pbr_rule 0 (fun _ => -1) r =
       [EvTalk (netlink_rule_update_req 0 RTM_DELRULE r);
        EvStatus r SOUTHBOUND_DELETE_FAILURE].
Proof.
  intros r.
  pose proof (install_uninstall_status 0 (fun _ => 0) r)
    as (_ & _ & Ha & _ & Hd & _).
  pose proof (install_uninstall_status 0 (fun _ => -1) r)
    as (_ & _ & _ & Ha' & _ & Hd' & _).
  split; [apply Ha; reflexivity|].
  split; [apply Ha'; discriminate|].
  split; [apply Hd; reflexivity|].
  apply Hd'; discriminate.
Defined.
Lemma rd_bytes_app (data rest : list Z) (k : nat) :
  (k <= length data)%nat -> rd_bytes (data ++ rest) k = Some (take k data).
Proof.
  intros H. rewrite rd_bytes_ok by (rewrite length_app; lia).
  rewrite take_app_le by exact H. reflexivity.
Qed.

Lemma rd_u32_app (data rest : list Z) :
  (4 <= length data)%nat -> rd_u32 (data ++ rest) = Some (load_u32 data).
Proof.
  intros H. unfold rd_u32, load_u32. rewrite rd_bytes_app by exact H.
  reflexivity.
Qed.

Lemma rd_str_name (s rest : list Z) :
  forallb (fun b => (0 <? b) && (b <? 256)) s = true ->
  rd_str ((s ++ [0]) ++ rest) = Some s.
Proof.
  intros H.
  assert (Hin : In 0 (take (length (s ++ [0])) ((s ++ [0]) ++ rest))).
  { rewrite take_app_length. apply in_or_app. right. left. reflexivity. }
  rewrite rd_str_ok
    by (apply in_or_app; left; apply in_or_app; right; left; reflexivity).
  rewrite (c_str_take _ _ Hin), take_app_length, c_str_name by exact H.
  reflexivity.
Qed.

(** ** What the handler makes of a request *)

Section Echo.

Variable nl_pid : Z.

Ltac rule_cases rule :=
  unfold rule_attrs, attrs_of_type; cbv zeta;
  destruct (ifp rule), (IS_RULE_FILTERING_ON_SRC_IP rule),
    (IS_RULE_FILTERING_ON_DST_IP rule), (table (action rule) <? 256);
  reflexivity.

Lemma rule_attrs_PRIORITY rule :
  last (attrs_of_type FRA_PRIORITY (rule_attrs rule)) =
  Some (mk_rtattr 8 FRA_PRIORITY (store_u32 (priority rule))).
Proof. rule_cases rule. Qed.

Lemma rule_attrs_IFNAME rule :
  last (attrs_of_type FRA_IFNAME (rule_attrs rule)) =
  match ifp rule with
  | Some i => Some (mk_rtattr (4 + (strlen (name i) + 1)) FRA_IFNAME
                      (name i ++ [0]))
  | None => None
  end.
Proof. rule_cases rule. Qed.

Lemma rule_attrs_SRC rule :
  last (attrs_of_type FRA_SRC (rule_attrs rule)) =
  if IS_RULE_FILTERING_ON_SRC_IP rule
  then Some (mk_rtattr (4 + Z.of_nat (rule_bytelen rule)) FRA_SRC
               (take (rule_bytelen rule) (u_prefix (src_ip (filter rule)))))
  else None.
Proof.
  unfold rule_bytelen.
  destruct (family (src_ip (filter rule)) =? AF_INET) eqn:E;
    unfold rule_attrs, attrs_of_type; cbv zeta; rewrite E;
    destruct (ifp rule), (IS_RULE_FILTERING_ON_SRC_IP rule),
      (IS_RULE_FILTERING_ON_DST_IP rule), (table (action rule) <? 256);
    reflexivity.
Qed.

Lemma rule_attrs_DST rule :
  last (attrs_of_type FRA_DST (rule_attrs rule)) =
  if IS_RULE_FILTERING_ON_DST_IP rule
  then Some (mk_rtattr (4 + Z.of_nat (rule_bytelen rule)) FRA_DST
               (take (rule_bytelen rule) (u_prefix (dst_ip (filter rule)))))
  else None.
Proof.
  unfold rule_bytelen.
  destruct (family (src_ip (filter rule)) =? AF_INET) eqn:E;
    unfold rule_attrs, attrs_of_type; cbv zeta; rewrite E;
    destruct (ifp rule), (IS_RULE_FILTERING_ON_SRC_IP rule),
      (IS_RULE_FILTERING_ON_DST_IP rule), (table (action rule) <? 256);
    reflexivity.
Qed.

Lemma rule_attrs_TABLE rule :
  last (attrs_of_type FRA_TABLE (rule_attrs rule)) =
  if table (action rule) <? 256 then None
  else Some (mk_rtattr 8 FRA_TABLE (store_u32 (table (action rule)))).
Proof. rule_cases rule. Qed.

(** The request as a notification: its header passes the type and length
    checks. *)
Lemma request_header rule :
  wf_rule rule ->
  let h := n (netlink_rule_update_req nl_pid RTM_DELRULE rule) in
  0 <= nlmsg_len h < 2 ^ 32 /\ is_delrule h /\ ~ bad_length h.
Proof.
  intros Hwf h. subst h. unfold is_delrule, bad_length.
  rewrite (nlmsg_len_netlink_rule_update_req nl_pid RTM_DELRULE rule Hwf).
  pose proof (attrs_size_rule_attrs rule Hwf).
  pose proof (n_fields_netlink_rule_update_req nl_pid RTM_DELRULE rule)
    as (Ht & _). cbv zeta in Ht. rewrite Ht.
  change (NLMSG_LENGTH sizeof_rtmsg) with 28.
  change (NLMSG_LENGTH sizeof_fib_rule_hdr) with 28.
  split; [lia|]. split; [reflexivity | lia].
Qed.

(** The attributes of the request in memory are those the encoder laid
    out. *)
Lemma message_attrs_request cmd rule mem :
  wf_rule rule ->
  message_at (netlink_rule_update_req nl_pid cmd rule) mem ->
  message_attrs (n (netlink_rule_update_req nl_pid cmd rule)) mem =
  Some (attr_ptrs (rule_attrs rule) (RTM_RTA mem)).
Proof.
  intros Hwf [_ Hat].
  rewrite (rtattrs_netlink_rule_update_req nl_pid cmd rule Hwf) in Hat.
  unfold message_attrs.
  rewrite (nlmsg_len_netlink_rule_update_req nl_pid cmd rule Hwf).
  apply rta_walk_image;
    [apply rule_attrs_wf, Hwf | exact Hat | | lia].
  change (NLMSG_LENGTH sizeof_rtmsg) with 28.
  change (NLMSG_LENGTH sizeof_fib_rule_hdr) with 28. lia.
Qed.

(** Where the request has an attribute of a type, the table slot points
    to memory that begins with its payload. *)
Lemma tb_request rule p ty :
  rtattrs_at (rule_attrs rule) p -> 1 <= ty <= FRA_MAX ->
  match last (attrs_of_type ty (rule_attrs rule)) with
  | Some a =>
      exists q rest,
        tb_at (tb_of (attr_ptrs (rule_attrs rule) p)) ty = Some q
        /\ RTA_DATA q = rta_data a ++ rest
  | None => tb_at (tb_of (attr_ptrs (rule_attrs rule) p)) ty = None
  end.
Proof.
  intros Hat Hty. rewrite tb_at_tb_of by exact Hty.
  pose proof (message_attr_ptrs (rule_attrs rule) p ty Hat) as H.
  destruct (message_attr ty (attr_ptrs (rule_attrs rule) p)) as [[a q]|].
  - destruct H as [-> Hq]. cbn [fst snd] in *.
    destruct (rtattr_at_RTA_DATA a q Hq) as [rest Hrest]. eauto.
  - rewrite H. reflexivity.
Qed.

Lemma decode_request cmd rule mem :
  wf_rule rule ->
  family (src_ip (filter rule)) = AF_INET
  \/ family (src_ip (filter rule)) = AF_INET6 ->
  message_at (netlink_rule_update_req nl_pid cmd rule) mem ->
  netlink_rule_change_decode mem
    (tb_of (attr_ptrs (rule_attrs rule) (RTM_RTA mem)))
  = Some (echo_rule rule).
Proof.
  intros Hwf Hfam Hm.
  pose proof (message_at_frh _ _ Hm) as (Hf1 & Hf2 & Hf3 & Hf4 & _).
  destruct Hm as [_ Hat].
  rewrite (rtattrs_netlink_rule_update_req nl_pid cmd rule Hwf) in Hat.
  rewrite frh_netlink_rule_update_req in Hf1, Hf2, Hf3, Hf4.
  cbn [frh_family frh_dst_len frh_src_len frh_table] in Hf1, Hf2, Hf3, Hf4.
  pose proof (wf_rule_elim rule Hwf) as (Hp & Ht & Hf & Hs & Hd & _).
  rewrite (u8_small (family (src_ip (filter rule)))) in Hf1 by lia.
  pose proof (tb_request rule _ FRA_PRIORITY Hat
                ltac:(unfold FRA_PRIORITY, FRA_MAX; lia)) as T1.
  pose proof (tb_request rule _ FRA_SRC Hat
                ltac:(unfold FRA_SRC, FRA_MAX; lia)) as T2.
  pose proof (tb_request rule _ FRA_DST Hat
                ltac:(unfold FRA_DST, FRA_MAX; lia)) as T3.
  pose proof (tb_request rule _ FRA_TABLE Hat
                ltac:(unfold FRA_TABLE, FRA_MAX; lia)) as T4.
  rewrite rule_attrs_PRIORITY in T1. rewrite rule_attrs_SRC in T2.
  rewrite rule_attrs_DST in T3. rewrite rule_attrs_TABLE in T4.
  destruct T1 as (q1 & rest1 & T1 & D1). cbn [rta_data] in D1.
  unfold netlink_rule_change_decode.
  rewrite T1, D1, Hf1, Hf2, Hf3, Hf4.
  rewrite rd_u32_app by (unfold store_u32; rewrite length_le_split; lia).
  rewrite load_store_u32, (u32_small (priority rule)) by lia.
  unfold echo_rule, echo_prefix, rule_bytelen in *. cbv zeta.
  assert (L4 : forall u : list Z,
            length u = 16%nat -> (4 <= length (take 4 u))%nat)
    by (intros u Hu; rewrite length_take; lia).
  assert (L16 : forall u : list Z,
            length u = 16%nat -> (16 <= length (take 16 u))%nat)
    by (intros u Hu; rewrite length_take; lia).
  destruct Hfam as [E|E]; rewrite E in *;
    [change (AF_INET =? AF_INET) with true in *
    |change (AF_INET6 =? AF_INET) with false in *];
    cbv iota in *;
    destruct (IS_RULE_FILTERING_ON_SRC_IP rule),
      (IS_RULE_FILTERING_ON_DST_IP rule),
      (Z.ltb_spec (table (action rule)) 256);
    repeat match goal with
           | H : exists q rest, _ |- _ =>
               let T := fresh "T" in
               let D := fresh "D" in
               destruct H as (? & ? & T & D); cbn [rta_data] in D;
               rewrite T, D; clear T D
           | H : tb_at _ _ = None |- _ => rewrite H; clear H
           end;
    rewrite ?rd_bytes_app by auto;
    rewrite ?rd_u32_app by (unfold store_u32; rewrite length_le_split; lia);
    rewrite ?load_store_u32, ?(u32_small (table (action rule))),
      ?(u8_small (table (action rule))) by lia;
    cbn [set_priority set_table set_filter filter src_ip dst_ip filter_bm
         family prefixlen u_prefix priority ifp action rule_zero prefix_zero];
    unfold memcpy; rewrite ?take_take, ?drop_replicate; reflexivity.
Qed.

End Echo.

Section HandlerExtras.

Variable nl_pid : Z.
Variable if_lookup_by_name_per_ns : Z -> list Z -> option interface.
Variable kernel_pbr_rule_del : zebra_pbr_rule -> Z.
Variable zebra_debug_kernel : bool.

Local Abbreviation rule_change :=
  (netlink_rule_change if_lookup_by_name_per_ns kernel_pbr_rule_del
     zebra_debug_kernel).
Local Abbreviation passes := (passes_filters if_lookup_by_name_per_ns).

(** The handler on the request built for a rule, up to the interface
    lookup. *)
Lemma netlink_rule_change_request rule mem ns_id startup :
  wf_rule rule ->
  let req := netlink_rule_update_req nl_pid RTM_DELRULE rule in
  message_at req mem ->
  family (src_ip (filter rule)) = AF_INET
  \/ family (src_ip (filter rule)) = AF_INET6 ->
  rule_change (n req) mem ns_id startup =
  match ifp rule with
  | None => (Returned 0, [])
  | Some i =>
      match if_lookup_by_name_per_ns ns_id (name i) with
      | None => (Returned 0, [])
      | Some _ =>
          if zebra_debug_kernel then (Fault, [])
          else (Returned (kernel_pbr_rule_del (echo_rule rule)),
                [EvRuleDel (echo_rule rule)])
      end
  end.
Proof.
  intros Hwf req Hm Hfam. subst req.
  destruct (request_header nl_pid rule Hwf) as (Hr & Hd & Hb).
  cbv zeta in Hr, Hd, Hb.
  rewrite (netlink_rule_change_attrs _ _ _ _ mem ns_id startup Hr Hd Hb).
  pose proof (message_at_frh _ _ Hm) as (Hf1 & _ & _ & _ & Hf5).
  rewrite frh_netlink_rule_update_req in Hf1, Hf5.
  cbn [frh_family frh_action] in Hf1, Hf5.
  pose proof (wf_rule_elim rule Hwf) as (_ & _ & Hf & _).
  rewrite (u8_small (family (src_ip (filter rule)))) in Hf1 by lia.
  rewrite Hf1, Hf5.
  assert ((negb (family (src_ip (filter rule)) =? AF_INET)
           && negb (family (src_ip (filter rule)) =? AF_INET6)) = false)
    as -> by (destruct Hfam as [-> | ->]; reflexivity).
  change (negb (FR_ACT_TO_TBL =? FR_ACT_TO_TBL)) with false. cbv iota.
  rewrite (message_attrs_request nl_pid RTM_DELRULE rule mem Hwf Hm).
  rewrite (decode_request nl_pid RTM_DELRULE rule mem Hwf Hfam Hm).
  destruct Hm as [_ Hat].
  rewrite (rtattrs_netlink_rule_update_req nl_pid _ rule Hwf) in Hat.
  pose proof (message_attr_ptrs _ _ FRA_IFNAME Hat) as Hi.
  rewrite rule_attrs_IFNAME in Hi.
  destruct (message_attr FRA_IFNAME _) as [[a q]|];
    destruct (ifp rule) as [i|] eqn:Ei; try reflexivity;
    try (destruct Hi; discriminate); try discriminate.
  destruct Hi as [[= <-] Hq]. cbn [fst snd] in *.
  destruct (rtattr_at_RTA_DATA _ _ Hq) as [rest ->]. cbn [rta_data].
  rewrite rd_str_name by (eapply wf_rule_name; eauto).
  reflexivity.
Qed.

(** X7.  Round trip.  When the RTM_DELRULE request built for a rule on
    a known interface comes back as a notification, wherever in memory and
    whatever the padding between its attributes, the handler (kernel
    debugging off) invokes the deletion callback once with a rule that has
    the same priority, table, filter bits, prefix lengths and address
    bytes, but no interface and no address family. *)
Theorem delete_request_round_trip rule ns_id startup i j mem :
  wf_rule rule ->
  ifp rule = Some i ->
  if_lookup_by_name_per_ns ns_id (name i) = Some j ->
  family (src_ip (filter rule)) = AF_INET
  \/ family (src_ip (filter rule)) = AF_INET6 ->
  zebra_debug_kernel = false ->
  let req := netlink_rule_update_req nl_pid RTM_DELRULE rule in
  let bl := rule_bytelen rule in
  message_at req mem ->
  exists r',
    rule_change (n req) mem ns_id startup
      = (Returned (kernel_pbr_rule_del r'), [EvRuleDel r'])
    /\ priority r' = priority rule
    /\ table (action r') = table (action rule)
    /\ IS_RULE_FILTERING_ON_SRC_IP r' = IS_RULE_FILTERING_ON_SRC_IP rule
    /\ IS_RULE_FILTERING_ON_DST_IP r' = IS_RULE_FILTERING_ON_DST_IP rule
    /\ (IS_RULE_FILTERING_ON_SRC_IP rule = true ->
          prefixlen (src_ip (filter r')) = prefixlen (src_ip (filter rule))
          /\ take bl (u_prefix (src_ip (filter r')))
             = take bl (u_prefix (src_ip (filter rule))))
    /\ (IS_RULE_FILTERING_ON_DST_IP rule = true ->
          prefixlen (dst_ip (filter r')) = prefixlen (dst_ip (filter rule))
          /\ take bl (u_prefix (dst_ip (filter r')))
             = take bl (u_prefix (dst_ip (filter rule))))
    /\ ifp r' = None
    /\ family (src_ip (filter r')) = 0
    /\ family (dst_ip (filter r')) = 0.
Proof.
  intros Hwf Hi Hj Hfam Hdbg req bl Hm. subst req bl.
  exists (echo_rule rule).
  rewrite (netlink_rule_change_request rule mem ns_id startup Hwf Hm Hfam).
  rewrite Hi, Hj, Hdbg.
  pose proof (wf_rule_elim rule Hwf) as (_ & _ & _ & Hs & Hd & _).
  assert (Hbl : (rule_bytelen rule <= 16)%nat)
    by (unfold rule_bytelen; destruct (_ =? _); lia).
  split; [reflexivity|].
  unfold echo_rule, echo_prefix, IS_RULE_FILTERING_ON_SRC_IP,
    IS_RULE_FILTERING_ON_DST_IP. cbv zeta.
  cbn [priority action table filter filter_bm src_ip dst_ip ifp prefixlen
       u_prefix family].
  fold (IS_RULE_FILTERING_ON_SRC_IP rule) (IS_RULE_FILTERING_ON_DST_IP rule).
  split; [reflexivity|]. split; [reflexivity|].
  split.
  { destruct (IS_RULE_FILTERING_ON_SRC_IP rule),
      (IS_RULE_FILTERING_ON_DST_IP rule); reflexivity. }
  split.
  { destruct (IS_RULE_FILTERING_ON_SRC_IP rule),
      (IS_RULE_FILTERING_ON_DST_IP rule); reflexivity. }
  split.
  { intros ->. cbn [prefixlen u_prefix]. split; [reflexivity|].
    rewrite take_app_le by (rewrite length_take; lia).
    rewrite take_take, Nat.min_id. reflexivity. }
  split.
  { intros ->. cbn [prefixlen u_prefix]. split; [reflexivity|].
    rewrite take_app_le by (rewrite length_take; lia).
    rewrite take_take, Nat.min_id. reflexivity. }
  split; [reflexivity|].
  destruct (IS_RULE_FILTERING_ON_SRC_IP rule),
    (IS_RULE_FILTERING_ON_DST_IP rule); split; reflexivity.
Qed.

(** X8.  The RTM_DELRULE request built for a rule without interface,
    coming back as a notification, is dropped with return value 0 and no
    callback. *)
Theorem delete_request_without_interface_dropped rule ns_id startup mem :
  wf_rule rule ->
  ifp rule = None ->
  message_at (netlink_rule_update_req nl_pid RTM_DELRULE rule) mem ->
  rule_change (n (netlink_rule_update_req nl_pid RTM_DELRULE rule)) mem
    ns_id startup
  = (Returned 0, []).
Proof.
  intros Hwf Hi Hm.
  destruct (request_header nl_pid rule Hwf) as (Hr & Hd & Hb).
  cbv zeta in Hr, Hd, Hb.
  rewrite (netlink_rule_change_attrs _ _ _ _ mem ns_id startup Hr Hd Hb).
  rewrite (message_attrs_request nl_pid RTM_DELRULE rule mem Hwf Hm).
  pose proof (message_at_frh _ _ Hm) as (Hf1 & _ & _ & _ & Hf5).
  rewrite frh_netlink_rule_update_req in Hf1, Hf5.
  cbn [frh_family frh_action] in Hf1, Hf5. rewrite Hf1, Hf5.
  destruct Hm as [_ Hat].
  rewrite (rtattrs_netlink_rule_update_req nl_pid _ rule Hwf) in Hat.
  pose proof (message_attr_ptrs _ _ FRA_IFNAME Hat) as Ha.
  rewrite rule_attrs_IFNAME, Hi in Ha.
  destruct (message_attr FRA_IFNAME _) as [a|]; [destruct Ha; discriminate|].
  destruct (negb _ && negb _); reflexivity.
Qed.

(** X10.  No rule handed to the deletion callback has an interface, and
    with kernel debugging on the callback is never reached. *)
Theorem callback_rule_has_no_interface h mem ns_id startup r :
  In (EvRuleDel r)
     (snd (netlink_rule_change if_lookup_by_name_per_ns kernel_pbr_rule_del
             zebra_debug_kernel h mem ns_id startup)) ->
  ifp r = None /\ zebra_debug_kernel = false.
Proof.
  unfold netlink_rule_change. intros Hin.
  repeat match type of Hin with
         | context [match ?x with _ => _ end] =>
             lazymatch x with
             | context [match _ with _ => _ end] => fail
             | _ => destruct x eqn:?; cbv beta iota zeta in Hin;
                    cbn [snd In] in Hin; try contradiction
             end
         end.
  all: destruct Hin as [[= <-]|[]].
  all: match goal with
       | H : netlink_rule_change_decode _ _ = Some _ |- _ =>
           apply decode_ifp_None in H
       end.
  all: first [congruence | split; [assumption | reflexivity]].
Qed.

(** X11.  The attribute length is an [int]: a delete-rule notification
    whose [nlmsg_len] is 2^31 + 28 or more also makes it negative and is
    rejected with -1. *)
Theorem huge_delrule_is_error h mem ns_id startup :
  is_delrule h ->
  2 ^ 31 + NLMSG_LENGTH sizeof_fib_rule_hdr <= nlmsg_len h < 2 ^ 32 ->
  rule_change_len h < 0
  /\ rule_change h mem ns_id startup = (Returned (-1), []).
Proof.
  intros Ht Hlen.
  assert (Hneg : rule_change_len h < 0).
  { unfold rule_change_len, int_of.
    change (NLMSG_LENGTH sizeof_fib_rule_hdr) with 28 in *.
    Z.div_mod_to_equations. lia. }
  split; [exact Hneg|]. apply netlink_rule_change_neg_len; assumption.
Qed.

End HandlerExtras.

Section DecodeExtras.

Variable if_lookup_by_name_per_ns : Z -> list Z -> option interface.
Variable kernel_pbr_rule_del : zebra_pbr_rule -> Z.
Variable zebra_debug_kernel : bool.

Local Abbreviation rule_change :=
  (netlink_rule_change if_lookup_by_name_per_ns kernel_pbr_rule_del
     zebra_debug_kernel).
Local Abbreviation passes := (passes_filters if_lookup_by_name_per_ns).

(** X9.  What the handler decodes besides the table, for a notification
    that passes the filters.  The priority is the 32-bit word at the
    payload of the PRIORITY attribute, or 0 without one.  The rule filters
    on the source exactly when the message carries a SRC attribute, and
    its address is then the 4 (family AF_INET) or 16 bytes at the payload
    of that attribute, over zeroes: the first bytes of the payload when it
    is that long, and otherwise also the bytes that follow it in the
    buffer.  The prefix length is the header's and the family of the
    prefix stays 0.  The same holds for the destination. *)
Theorem decoded_filter h mem ns_id startup :
  0 <= nlmsg_len h < 2 ^ 32 ->
  passes h mem ns_id ->
  exists attrs fam,
    message_attrs h mem = Some attrs
    /\ rd_u8 mem offsetof_family = Some fam
    /\ (forall r,
          In (EvRuleDel r) (snd (rule_change h mem ns_id startup)) ->
          let bl := if fam =? AF_INET then 4%nat else 16%nat in
          match message_attr FRA_PRIORITY attrs with
          | Some a =>
              rd_u32 (RTA_DATA (snd a)) = Some (priority r)
              /\ (8 <= rta_len (fst a) ->
                    priority r = load_u32 (rta_data (fst a)))
          | None => priority r = 0
          end
          /\ match message_attr FRA_SRC attrs with
             | Some a =>
                 IS_RULE_FILTERING_ON_SRC_IP r = true
                 /\ exists bytes src_len,
                      rd_bytes (RTA_DATA (snd a)) bl = Some bytes
                      /\ rd_u8 mem offsetof_src_len = Some src_len
                      /\ src_ip (filter r) =
                           mk_prefix 0 src_len
                             (bytes ++ replicate (16 - bl) 0)
                      /\ (4 + Z.of_nat bl <= rta_len (fst a) ->
                            bytes = take bl (rta_data (fst a)))
             | None =>
                 IS_RULE_FILTERING_ON_SRC_IP r = false
                 /\ src_ip (filter r) = prefix_zero
             end
          /\ match message_attr FRA_DST attrs with
             | Some a =>
                 IS_RULE_FILTERING_ON_DST_IP r = true
                 /\ exists bytes dst_len,
                      rd_bytes (RTA_DATA (snd a)) bl = Some bytes
                      /\ rd_u8 mem offsetof_dst_len = Some dst_len
                      /\ dst_ip (filter r) =
                           mk_prefix 0 dst_len
                             (bytes ++ replicate (16 - bl) 0)
                      /\ (4 + Z.of_nat bl <= rta_len (fst a) ->
                            bytes = take bl (rta_data (fst a)))
             | None =>
                 IS_RULE_FILTERING_ON_DST_IP r = false
                 /\ dst_ip (filter r) = prefix_zero
             end)
    /\ (nlmsg_len h < 2 ^ 31 + NLMSG_LENGTH sizeof_fib_rule_hdr ->
        room_after 16 h mem -> zebra_debug_kernel = false ->
        exists r,
          rule_change h mem ns_id startup =
          (Returned (kernel_pbr_rule_del r), [EvRuleDel r])).
Proof.
  intros Hr Hp.
  pose proof Hp as (_ & Hfam & _ & attrs & _ & _ & _ & Hattrs & _).
  assert (exists fam, rd_u8 mem offsetof_family = Some fam) as [fam Hf]
    by (destruct Hfam; eauto).
  exists attrs, fam. split; [exact Hattrs|]. split; [exact Hf|]. split.
  2:{ intros Hlt Hroom Hdbg.
      apply netlink_rule_change_progress; try assumption. lia. }
  intros r.
  destruct (netlink_rule_change_cases if_lookup_by_name_per_ns
              kernel_pbr_rule_del zebra_debug_kernel h mem ns_id startup Hr)
    as [[_ ->]|[(_ & _ & ->)|[(_ & _ & _ & [-> | [-> _]])
                             |(_ & _ & _ & attrs' & Ha' & ->)]]];
    try (intros []).
  assert (attrs' = attrs) as -> by congruence.
  destruct (netlink_rule_change_decode mem (tb_of attrs)) as [rule|] eqn:E;
    [|intros []].
  destruct zebra_debug_kernel; [intros []|]. intros [[= <-]|[]].
  pose proof (decode_filter _ _ _ E) as (H1 & H2 & H3).
  rewrite tb_at_tb_of in H1 by (unfold FRA_PRIORITY, FRA_MAX; lia).
  rewrite tb_at_tb_of in H2 by (unfold FRA_SRC, FRA_MAX; lia).
  rewrite tb_at_tb_of in H3 by (unfold FRA_DST, FRA_MAX; lia).
  cbv zeta. split; [|split].
  - destruct (message_attr FRA_PRIORITY attrs) as [[a p]|] eqn:Ea;
      cbn [option_map fst snd] in *; [|exact H1].
    split; [exact H1|]. intros Hl.
    apply message_attr_In in Ea as [Hin _].
    exact (rd_u32_payload _ _ _ _ _ _ _ Hattrs Hin Hl H1).
  - destruct (message_attr FRA_SRC attrs) as [[a p]|] eqn:Ea;
      cbn [option_map fst snd] in *; [|exact H2].
    destruct H2 as (Hb & fam' & bytes & src_len & Hf' & Hrd & Hsl & Hsrc).
    assert (fam' = fam) as -> by congruence.
    split; [exact Hb|]. exists bytes, src_len.
    split; [exact Hrd|]. split; [exact Hsl|]. split.
    + rewrite Hsrc. destruct (fam =? AF_INET); reflexivity.
    + intros Hl. apply message_attr_In in Ea as [Hin _].
      exact (rd_bytes_payload _ _ _ _ _ _ _ _ Hattrs Hin Hl Hrd).
  - destruct (message_attr FRA_DST attrs) as [[a p]|] eqn:Ea;
      cbn [option_map fst snd] in *; [|exact H3].
    destruct H3 as (Hb & fam' & bytes & dst_len & Hf' & Hrd & Hdl & Hdst).
    assert (fam' = fam) as -> by congruence.
    split; [exact Hb|]. exists bytes, dst_len.
    split; [exact Hrd|]. split; [exact Hdl|]. split.
    + rewrite Hdst. destruct (fam =? AF_INET); reflexivity.
    + intros Hl. apply message_attr_In in Ea as [Hin _].
      exact (rd_bytes_payload _ _ _ _ _ _ _ _ Hattrs Hin Hl Hrd).
Qed.

End DecodeExtras.

(** ** The attribute walk on its own *)

Lemma map_fst_attr_ptrs (l : list rtattr) (p : list Z) :
  map fst (attr_ptrs l p) = l.
Proof.
  revert p. induction l as [|a l IH]; intros p; [reflexivity|].
  cbn [attr_ptrs map fst]. rewrite IH. reflexivity.
Qed.

(** X23.  Reading back what was laid out.  When memory holds well-formed
    attributes one after the other, whatever the padding, and the declared
    length ends with the last of them, the attributes of the message are
    exactly these, each at its address, and [netlink_parse_rtattr] leaves
    in slot [ty] the address of the last attribute of type [ty], or NULL
    when the message has none. *)
Theorem laid_out_attributes_read_back (m : nlmsg) (mem : list Z) :
  Forall rtattr_wf (rtattrs m) ->
  message_at m mem ->
  nlmsg_len (n m) =
    NLMSG_LENGTH sizeof_fib_rule_hdr + attrs_size (rtattrs m) ->
  let attrs := attr_ptrs (rtattrs m) (RTM_RTA mem) in
  message_attrs (n m) mem = Some attrs
  /\ map fst attrs = rtattrs m
  /\ netlink_parse_rtattr (replicate (Z.to_nat (FRA_MAX + 1)) None) FRA_MAX
       (RTM_RTA mem) (attrs_size (rtattrs m))
     = Some (tb_of attrs)
  /\ (forall ty, 1 <= ty <= FRA_MAX ->
        match last (attrs_of_type ty (rtattrs m)) with
        | Some a => exists q, tb_at (tb_of attrs) ty = Some q /\ rtattr_at a q
        | None => tb_at (tb_of attrs) ty = None
        end).
Proof.
  intros Hwf [_ Hat] Hlen attrs. subst attrs.
  assert (Hw : rta_walk (length (RTM_RTA mem)) (RTM_RTA mem)
                 (attrs_size (rtattrs m))
               = Some (attr_ptrs (rtattrs m) (RTM_RTA mem))).
  { apply rta_walk_image; [exact Hwf | exact Hat | lia | lia]. }
  split; [|split; [|split]].
  - unfold message_attrs. rewrite Hlen.
    replace (NLMSG_LENGTH sizeof_fib_rule_hdr + attrs_size (rtattrs m)
             - NLMSG_LENGTH sizeof_fib_rule_hdr)
      with (attrs_size (rtattrs m)) by lia.
    exact Hw.
  - apply map_fst_attr_ptrs.
  - rewrite netlink_parse_rtattr_walk, Hw. reflexivity.
  - intros ty Hty. rewrite tb_at_tb_of by exact Hty.
    pose proof (message_attr_ptrs (rtattrs m) (RTM_RTA mem) ty Hat) as H.
    destruct (message_attr ty _) as [[a q]|].
    + destruct H as [-> Hq]. cbn [fst snd] in *. eauto.
    + rewrite H. reflexivity.
Qed.

(** X24.  The attribute walk ends by itself: allowing more turns than
    there are bytes at [rta] changes nothing, and when the length to walk
    lies within the buffer no read leaves it, so that
    [netlink_parse_rtattr] returns a table, of the size it was given. *)
Theorem netlink_parse_rtattr_total (turns : nat) tb max rta len :
  (length rta <= turns)%nat ->
  netlink_parse_rtattr_loop turns tb max rta len =
    netlink_parse_rtattr tb max rta len
  /\ (len <= Z.of_nat (length rta) ->
        exists tb',
          netlink_parse_rtattr tb max rta len = Some tb'
          /\ length tb' = length tb).
Proof.
  intros Ht. split.
  - unfold netlink_parse_rtattr. rewrite !netlink_parse_rtattr_loop_walk.
    rewrite (rta_walk_turns turns (length rta)) by lia. reflexivity.
  - intros Hlen. rewrite netlink_parse_rtattr_walk.
    destruct (rta_walk_in_buffer (length rta) rta len) as [attrs ->];
      [lia | exact Hlen|].
    cbn [option_map]. eexists. split; [reflexivity|].
    clear. revert tb. induction attrs as [|a attrs IH]; intros tb;
      [reflexivity|].
    cbn [fold_left]. rewrite IH. apply length_tb_store.
Qed.

(** * Properties of pbrd/pbr_vty.c *)

Lemma streq_eq (a b : String.string) : PbrVty.streq a b = true <-> a = b.
Proof. apply String.eqb_eq. Qed.

Lemma streq_neq (a b : String.string) :
  PbrVty.streq a b = false <-> a <> b.
Proof. apply String.eqb_neq. Qed.

Lemma streq_refl (a : String.string) : PbrVty.streq a a = true.
Proof. apply String.eqb_refl. Qed.

Lemma filter_is_call_app (l1 l2 : list PbrVty.vty_event) :
  List.filter PbrVty.is_call (l1 ++ l2) =
  List.filter PbrVty.is_call l1 ++ List.filter PbrVty.is_call l2.
Proof. apply List.filter_app. Qed.

Section MatchCommands.

Variable prefix_same : option prefix -> prefix -> bool.
Variable prefix_new : prefix.
Variable prefix_copy : prefix -> prefix -> prefix.
Variable pbr_map_check : PbrVty.pbr_map_sequence -> PbrVty.pbr_map_sequence.

Local Abbreviation match_src :=
  (PbrVty.pbr_map_match_src prefix_same prefix_new prefix_copy pbr_map_check).
Local Abbreviation match_dst :=
  (PbrVty.pbr_map_match_dst prefix_same prefix_new prefix_copy pbr_map_check).

(** X12.  [[no] match src-ip P] always succeeds and always overwrites
    the sequence's family with P's.  When the command is positive and P is
    already the source, nothing else happens and [pbr_map_check] is not
    called.  In every other case [pbr_map_check] is called exactly once,
    on the sequence [q] whose destination and nexthop settings are
    untouched and whose source is a copy of P, or, in the [no] form,
    cleared whatever P is; what it returns is the resulting sequence. *)
Theorem match_src_behaviour no p pbrms :
  let res := match_src no p pbrms in
  let q :=
    PbrVty.set_src
      (if no then None
       else Some (prefix_copy
                    (match PbrVty.src pbrms with
                     | Some d => d
                     | None => prefix_new
                     end) p))
      (PbrVty.set_family (family p) pbrms) in
  fst (fst res) = PbrVty.CMD_SUCCESS
  /\ (snd res = [] <-> no = false /\ prefix_same (PbrVty.src pbrms) p = true)
  /\ (no = false /\ prefix_same (PbrVty.src pbrms) p = true ->
        snd res = []
        /\ snd (fst res) = PbrVty.set_family (family p) pbrms)
  /\ (~ (no = false /\ prefix_same (PbrVty.src pbrms) p = true) ->
        snd res = [PbrVty.CallMapCheck q]
        /\ snd (fst res) = pbr_map_check q)
  /\ PbrVty.family q = family p
  /\ PbrVty.dst q = PbrVty.dst pbrms
  /\ PbrVty.nhg q = PbrVty.nhg pbrms
  /\ PbrVty.nhgrp_name q = PbrVty.nhgrp_name pbrms
  /\ PbrVty.internal_nhg_name q = PbrVty.internal_nhg_name pbrms
  /\ PbrVty.seqno q = PbrVty.seqno pbrms
  /\ PbrVty.parent_name q = PbrVty.parent_name pbrms
  /\ (no = true -> PbrVty.src q = None)
  /\ (no = false ->
        PbrVty.src q =
          Some (prefix_copy
                  (match PbrVty.src pbrms with
                   | Some d => d
                   | None => prefix_new
                   end) p)).
Proof.
  intros res q. subst res q. unfold PbrVty.pbr_map_match_src. cbv zeta.
  cbn [PbrVty.src PbrVty.set_family].
  destruct no; [|destruct (prefix_same (PbrVty.src pbrms) p) eqn:E];
    cbn [negb andb fst snd];
    repeat first [split | intro];
    try reflexivity; try discriminate;
    try (exfalso; intuition congruence).
Qed.

(** X13.  The same for [[no] match dst-ip P], with source and
    destination exchanged. *)
Theorem match_dst_behaviour no p pbrms :
  let res := match_dst no p pbrms in
  let q :=
    PbrVty.set_dst
      (if no then None
       else Some (prefix_copy
                    (match PbrVty.dst pbrms with
                     | Some d => d
                     | None => prefix_new
                     end) p))
      (PbrVty.set_family (family p) pbrms) in
  fst (fst res) = PbrVty.CMD_SUCCESS
  /\ (snd res = [] <-> no = false /\ prefix_same (PbrVty.dst pbrms) p = true)
  /\ (no = false /\ prefix_same (PbrVty.dst pbrms) p = true ->
        snd res = []
        /\ snd (fst res) = PbrVty.set_family (family p) pbrms)
  /\ (~ (no = false /\ prefix_same (PbrVty.dst pbrms) p = true) ->
        snd res = [PbrVty.CallMapCheck q]
        /\ snd (fst res) = pbr_map_check q)
  /\ PbrVty.family q = family p
  /\ PbrVty.src q = PbrVty.src pbrms
  /\ PbrVty.nhg q = PbrVty.nhg pbrms
  /\ PbrVty.nhgrp_name q = PbrVty.nhgrp_name pbrms
  /\ PbrVty.internal_nhg_name q = PbrVty.internal_nhg_name pbrms
  /\ PbrVty.seqno q = PbrVty.seqno pbrms
  /\ PbrVty.parent_name q = PbrVty.parent_name pbrms
  /\ (no = true -> PbrVty.dst q = None)
  /\ (no = false ->
        PbrVty.dst q =
          Some (prefix_copy
                  (match PbrVty.dst pbrms with
                   | Some d => d
                   | None => prefix_new
                   end) p)).
Proof.
  intros res q. subst res q. unfold PbrVty.pbr_map_match_dst. cbv zeta.
  cbn [PbrVty.dst PbrVty.set_family].
  destruct no; [|destruct (prefix_same (PbrVty.dst pbrms) p) eqn:E];
    cbn [negb andb fst snd];
    repeat first [split | intro];
    try reflexivity; try discriminate;
    try (exfalso; intuition congruence).
Qed.

End MatchCommands.

Section MapCommands.

Variable pbrm_find : String.string -> option PbrVty.pbr_map.

Lemma no_pbr_map_loop_all l :
  PbrVty.no_pbr_map_loop 0 l = map PbrVty.CallMapDelete l.
Proof.
  induction l as [|p l IH]; cbn [PbrVty.no_pbr_map_loop map];
    [reflexivity|].
  change (0 =? 0) with true. cbn [negb andb]. rewrite IH. reflexivity.
Qed.

Lemma no_pbr_map_loop_filter s l :
  s <> 0 ->
  PbrVty.no_pbr_map_loop s l =
  map PbrVty.CallMapDelete
    (List.filter (fun p => PbrVty.seqno p =? s) l).
Proof.
  intros Hs. induction l as [|p l IH];
    cbn [PbrVty.no_pbr_map_loop map List.filter]; [reflexivity|].
  destruct (Z.eqb_spec s 0); [contradiction|]. cbn [negb andb].
  destruct (PbrVty.seqno p =? s); cbn [negb map]; rewrite IH; reflexivity.
Qed.

(** X14.  [no pbr-map NAME [seq N]] always succeeds.  For an unknown
    map it only prints; for a known one it calls [pbr_map_delete] on
    every sequence when no number is given and on exactly those numbered
    N otherwise, in list order (none, silently, when N matches
    nothing). *)
Theorem no_pbr_map_deletes_matching name seq :
  fst (PbrVty.no_pbr_map pbrm_find name seq) = PbrVty.CMD_SUCCESS
  /\ (pbrm_find name = None ->
        List.filter PbrVty.is_call (snd (PbrVty.no_pbr_map pbrm_find name seq))
        = [])
  /\ (forall pbrm, pbrm_find name = Some pbrm ->
        (seq = None ->
           snd (PbrVty.no_pbr_map pbrm_find name seq)
           = map PbrVty.CallMapDelete (PbrVty.seqnumbers pbrm))
        /\ (forall v, seq = Some v -> 0 < v < 2 ^ 32 ->
              snd (PbrVty.no_pbr_map pbrm_find name seq)
              = map PbrVty.CallMapDelete
                  (List.filter (fun p => PbrVty.seqno p =? v)
                     (PbrVty.seqnumbers pbrm)))).
Proof.
  unfold PbrVty.no_pbr_map. cbv zeta.
  destruct (pbrm_find name) as [m|].
  - split; [reflexivity|]. split; [discriminate|].
    intros pbrm [= <-]. split.
    + intros ->. apply no_pbr_map_loop_all.
    + intros v -> Hv. rewrite u32_small by lia.
      apply no_pbr_map_loop_filter. lia.
  - split; [reflexivity|]. split; [reflexivity|]. discriminate.
Qed.

End MapCommands.

Section NexthopGroupCommand.

Variable pbr_map_check : PbrVty.pbr_map_sequence -> PbrVty.pbr_map_sequence.
Variable pbr_map_delete_nexthop_group :
  PbrVty.pbr_map_sequence -> PbrVty.pbr_map_sequence.
Variable nhgc_find : String.string -> bool.

Local Abbreviation nexthop_group_cmd :=
  (PbrVty.pbr_map_nexthop_group pbr_map_check pbr_map_delete_nexthop_group
     nhgc_find).

(** X15.  [[no] set nexthop-group NAME] fails exactly when an
    individual nexthop is configured, or the [no] form names a group that
    is not the configured one, or the positive form names a group while
    another is configured; on failure the sequence is unchanged and
    nothing is called. *)
Theorem nexthop_group_failure no name pbrms :
  let res := nexthop_group_cmd no name pbrms in
  (fst (fst res) = PbrVty.CMD_WARNING_CONFIG_FAILED <->
     PbrVty.nhg pbrms <> None
     \/ (no = true /\ PbrVty.nhgrp_name pbrms <> Some name)
     \/ (no = false /\ exists cur, PbrVty.nhgrp_name pbrms = Some cur
                                  /\ cur <> name))
  /\ (fst (fst res) = PbrVty.CMD_WARNING_CONFIG_FAILED ->
        snd (fst res) = pbrms
        /\ List.filter PbrVty.is_call (snd res) = []).
Proof.
  intros res. subst res. unfold PbrVty.pbr_map_nexthop_group.
  destruct (PbrVty.nhg pbrms) as [g|] eqn:Hg.
  { split; [|intros _; split; reflexivity].
    split; [intros _; left; discriminate | reflexivity]. }
  cbv zeta.
  set (tr := if nhgc_find name then [] else _).
  assert (Htr : List.filter PbrVty.is_call tr = [])
    by (subst tr; destruct (nhgc_find name); reflexivity).
  destruct no.
  - destruct (PbrVty.nhgrp_name pbrms) as [cur|] eqn:Hn.
    + destruct (PbrVty.streq name cur) eqn:E.
      * apply streq_eq in E. subst cur. cbn [fst snd].
        split; [|discriminate].
        split; [discriminate|].
        intros [H|[[_ H]|[H _]]]; [contradiction | contradiction
                                   | discriminate].
      * apply streq_neq in E. cbn [fst snd].
        split.
        -- split; [|reflexivity]. intros _. right. left.
           split; [reflexivity|]. intros [= ->]. contradiction.
        -- intros _. split; [reflexivity|].
           rewrite filter_is_call_app, Htr. reflexivity.
    + cbn [fst snd]. split.
      * split; [|reflexivity]. intros _. right. left.
        split; [reflexivity | discriminate].
      * intros _. split; [reflexivity|].
        rewrite filter_is_call_app, Htr. reflexivity.
  - destruct (PbrVty.nhgrp_name pbrms) as [cur|] eqn:Hn.
    + destruct (PbrVty.streq name cur) eqn:E; cbn [negb fst snd].
      * apply streq_eq in E. subst cur.
        split; [|discriminate].
        split; [discriminate|].
        intros [H|[[H _]|(_ & c & [= <-] & H)]];
          [contradiction | discriminate | contradiction].
      * apply streq_neq in E. split.
        -- split; [|reflexivity]. intros _. right. right.
           split; [reflexivity|]. exists cur. split; [reflexivity|].
           intros ->. contradiction.
        -- intros _. split; [reflexivity|].
           rewrite filter_is_call_app, Htr. reflexivity.
    + cbn [fst snd]. split; [|discriminate].
      split; [discriminate|].
      intros [H|[[H _]|(_ & c & H & _)]];
        [contradiction | discriminate | discriminate].
Qed.

(** X16.  With no individual nexthop configured, [set nexthop-group
    NAME] on a sequence without group records the name and calls
    [pbr_map_check], whether or not the group exists (when it does not,
    two warning lines are printed first); repeating the configured name
    changes and calls nothing. *)
Theorem nexthop_group_set_accepted name pbrms :
  PbrVty.nhg pbrms = None ->
  let res := nexthop_group_cmd false name pbrms in
  (PbrVty.nhgrp_name pbrms = None ->
     let q := PbrVty.set_nhgrp_name (Some name) pbrms in
     fst res = (PbrVty.CMD_SUCCESS, pbr_map_check q)
     /\ List.filter PbrVty.is_call (snd res) = [PbrVty.CallMapCheck q]
     /\ (nhgc_find name = true -> snd res = [PbrVty.CallMapCheck q])
     /\ (nhgc_find name = false -> length (snd res) = 3%nat))
  /\ (PbrVty.nhgrp_name pbrms = Some name ->
        fst res = (PbrVty.CMD_SUCCESS, pbrms)
        /\ List.filter PbrVty.is_call (snd res) = []).
Proof.
  intros Hg res. subst res. unfold PbrVty.pbr_map_nexthop_group.
  rewrite Hg. cbv zeta. split.
  - intros ->. destruct (nhgc_find name); cbn;
      repeat split; try reflexivity; discriminate.
  - intros ->. rewrite streq_refl. cbn [negb fst snd].
    destruct (nhgc_find name); split; reflexivity.
Qed.

End NexthopGroupCommand.

Section NexthopCommand.

Variable pbr_map_check : PbrVty.pbr_map_sequence -> PbrVty.pbr_map_sequence.
Variable pbr_nht_add_individual_nexthop :
  PbrVty.pbr_map_sequence -> PbrVty.pbr_map_sequence.
Variable pbr_nht_delete_individual_nexthop :
  PbrVty.pbr_map_sequence -> PbrVty.pbr_map_sequence.
Variable pbr_nht_nexthop_make_name : String.string -> Z -> Z -> String.string.
Variable PBR_MAP_NAMELEN : Z.
Variable nexthop_exists :
  PbrVty.nexthop_group -> PbrVty.nexthop -> option PbrVty.nexthop.
Variable nexthop_group_new : PbrVty.nexthop_group.
Variable nexthop_add :
  list PbrVty.nexthop -> PbrVty.nexthop -> list PbrVty.nexthop.
Variable vrf_lookup_by_name : String.string -> option PbrVty.vrf.
Variable vrf_lookup_by_id : Z -> option PbrVty.vrf.
Variable VRF_DEFAULT : Z.
Variable ifname2ifindex : String.string -> Z -> Z.
Variable IFINDEX_INTERNAL : Z.

Local Abbreviation nexthop_cmd :=
  (PbrVty.pbr_map_nexthop pbr_map_check pbr_nht_add_individual_nexthop
     pbr_nht_delete_individual_nexthop pbr_nht_nexthop_make_name
     PBR_MAP_NAMELEN nexthop_exists nexthop_group_new nexthop_add
     vrf_lookup_by_name vrf_lookup_by_id VRF_DEFAULT ifname2ifindex
     IFINDEX_INTERNAL).

Ltac fin :=
  cbn [fst snd]; repeat split; intros;
  solve [reflexivity | discriminate | contradiction | congruence].

(** X17.  When [[no] set nexthop ...] fails it leaves the sequence
    unchanged, calls nothing and prints one message; it always fails when
    a nexthop-group is configured, and in the [no] form when the sequence
    has no nexthops. *)
Theorem nexthop_failure_atomic no addr intf name pbrms :
  PbrVty.nhg_nexthop nexthop_group_new = [] ->
  let res := nexthop_cmd no addr intf name pbrms in
  (fst (fst res) = PbrVty.CMD_WARNING_CONFIG_FAILED ->
     snd (fst res) = pbrms
     /\ List.filter PbrVty.is_call (snd res) = []
     /\ length (snd res) = 1%nat)
  /\ (PbrVty.nhgrp_name pbrms <> None ->
        fst (fst res) = PbrVty.CMD_WARNING_CONFIG_FAILED)
  /\ (no = true -> PbrVty.nhg pbrms = None ->
        fst (fst res) = PbrVty.CMD_WARNING_CONFIG_FAILED).
Proof.
  intros Hnew res. subst res. unfold PbrVty.pbr_map_nexthop. cbv zeta.
  destruct (PbrVty.nhgrp_name pbrms) as [g|] eqn:Hn; [fin|].
  destruct (match name with
            | Some nm => vrf_lookup_by_name nm
            | None => vrf_lookup_by_id VRF_DEFAULT
            end) as [v|] eqn:Hv; [|fin].
  destruct intf as [i|].
  - cbn [PbrVty.nh_ifindex].
    destruct (ifname2ifindex i (PbrVty.vrf_id v) =? IFINDEX_INTERNAL);
      [fin|].
    destruct (PbrVty.nhg pbrms) as [g|] eqn:Hg.
    + destruct no, (nexthop_exists g _); try fin;
        destruct (PbrVty.nhg_nexthop g); fin.
    + destruct no; [fin|]. rewrite Hnew. fin.
  - destruct (PbrVty.nhg pbrms) as [g|] eqn:Hg.
    + destruct no, (nexthop_exists g _); try fin;
        destruct (PbrVty.nhg_nexthop g); fin.
    + destruct no; [fin|]. rewrite Hnew. fin.
Qed.

(** X18.  The first [set nexthop ADDR [INTF] [nexthop-vrf NAME]] on a
    sequence creates its nexthop group with exactly one nexthop (vrf id
    of the vrf found, type by address family and presence of INTF, the
    interface's index, the address bytes), names the group with
    [pbr_nht_nexthop_make_name], and calls
    [pbr_nht_add_individual_nexthop] and then [pbr_map_check]; the match
    settings are untouched. *)
Theorem nexthop_first_add addr intf name pbrms v :
  PbrVty.nhgrp_name pbrms = None ->
  PbrVty.nhg pbrms = None ->
  match name with
  | Some nm => vrf_lookup_by_name nm
  | None => vrf_lookup_by_id VRF_DEFAULT
  end = Some v ->
  (forall i, intf = Some i ->
             ifname2ifindex i (PbrVty.vrf_id v) <> IFINDEX_INTERNAL) ->
  PbrVty.nhg_nexthop nexthop_group_new = [] ->
  (forall nh, nexthop_add [] nh = [nh]) ->
  exists q,
    nexthop_cmd false addr intf name pbrms =
      (PbrVty.CMD_SUCCESS,
       pbr_map_check (pbr_nht_add_individual_nexthop q),
       [PbrVty.CallNhtAddIndividualNexthop q;
        PbrVty.CallMapCheck (pbr_nht_add_individual_nexthop q)])
    /\ PbrVty.nhg q = Some (PbrVty.mk_nhg [built_nexthop ifname2ifindex addr intf v])
    /\ PbrVty.internal_nhg_name q =
         Some (pbr_nht_nexthop_make_name (PbrVty.parent_name pbrms)
                 PBR_MAP_NAMELEN (PbrVty.seqno pbrms))
    /\ PbrVty.src q = PbrVty.src pbrms
    /\ PbrVty.dst q = PbrVty.dst pbrms
    /\ PbrVty.family q = PbrVty.family pbrms
    /\ PbrVty.nhgrp_name q = None.
Proof.
  intros Hn Hg Hv Hi Hnew Hadd.
  unfold PbrVty.pbr_map_nexthop. cbv zeta. rewrite Hn, Hv, Hg.
  destruct intf as [i|].
  - cbn [PbrVty.nh_ifindex].
    destruct (Z.eqb_spec (ifname2ifindex i (PbrVty.vrf_id v))
                IFINDEX_INTERNAL) as [E|E].
    { exfalso. exact (Hi i eq_refl E). }
    rewrite Hnew, Hadd. eexists. split; [reflexivity|].
    unfold built_nexthop. cbn.
    destruct (PbrVty.sa_family addr =? AF_INET); rewrite ?Hn;
      repeat split; reflexivity.
  - rewrite Hnew, Hadd. eexists. split; [reflexivity|].
    unfold built_nexthop. cbn.
    destruct (PbrVty.sa_family addr =? AF_INET); rewrite ?Hn;
      repeat split; reflexivity.
Qed.

End NexthopCommand.

Section PolicyCommand.

Variable pbrm_find : String.string -> option PbrVty.pbr_map.
Variable pbr_if_new : interface -> PbrVty.pbr_interface.
Variable sizeof_mapname : nat.

Local Abbreviation policy :=
  (PbrVty.pbr_policy pbrm_find pbr_if_new sizeof_mapname).

Lemma strcpy_fits s :
  (String.length s < sizeof_mapname)%nat ->
  PbrVty.strcpy sizeof_mapname s = Returned s.
Proof.
  intros H. unfold PbrVty.strcpy.
  destruct (Nat.ltb_spec (String.length s) sizeof_mapname); [reflexivity|lia].
Qed.

Lemma strcpy_overflow s :
  (sizeof_mapname <= String.length s)%nat ->
  PbrVty.strcpy sizeof_mapname s = Fault.
Proof.
  intros H. unfold PbrVty.strcpy.
  destruct (Nat.ltb_spec (String.length s) sizeof_mapname); [lia|reflexivity].
Qed.

Lemma pbr_ifp_eta (p : PbrVty.pbr_interface) :
  PbrVty.mk_pbr_ifp (PbrVty.mapname p) = p.
Proof. destruct p. reflexivity. Qed.

Lemma policy_bind_unbound mapname ifp info :
  PbrVty.mapname (policy_target pbr_if_new ifp info) = String.EmptyString ->
  policy false mapname ifp info =
  match PbrVty.strcpy sizeof_mapname mapname with
  | Fault => (Fault, policy_new_events ifp info)
  | Returned m =>
      (Returned (PbrVty.CMD_SUCCESS, PbrVty.mk_pbr_ifp m),
       policy_new_events ifp info
       ++ PbrVty.map_event PbrVty.CallMapAddInterface (pbrm_find mapname) ifp)
  end.
Proof.
  unfold PbrVty.pbr_policy, policy_target, policy_new_events.
  destruct info as [p|]; cbv zeta; intros ->; reflexivity.
Qed.

Lemma policy_bind_same mapname ifp info :
  PbrVty.mapname (policy_target pbr_if_new ifp info) = mapname ->
  mapname <> String.EmptyString ->
  policy false mapname ifp info =
  (Returned (PbrVty.CMD_SUCCESS, policy_target pbr_if_new ifp info),
   policy_new_events ifp info).
Proof.
  unfold PbrVty.pbr_policy, policy_target, policy_new_events.
  intros Hc Hne. apply streq_neq in Hne.
  destruct info as [p|]; cbv zeta; rewrite Hc, Hne, streq_refl; reflexivity.
Qed.

Lemma policy_bind_other mapname ifp info :
  PbrVty.mapname (policy_target pbr_if_new ifp info) <> String.EmptyString ->
  PbrVty.mapname (policy_target pbr_if_new ifp info) <> mapname ->
  policy false mapname ifp info =
  let tr := policy_new_events ifp info
            ++ PbrVty.map_event PbrVty.CallMapInterfaceDelete
                 (pbrm_find (PbrVty.mapname (policy_target pbr_if_new ifp info))) ifp in
  match PbrVty.strcpy sizeof_mapname mapname with
  | Fault => (Fault, tr)
  | Returned m =>
      (Returned (PbrVty.CMD_SUCCESS, PbrVty.mk_pbr_ifp m),
       tr ++ PbrVty.map_event PbrVty.CallMapAddInterface (pbrm_find mapname)
               ifp)
  end.
Proof.
  unfold PbrVty.pbr_policy, policy_target, policy_new_events.
  intros H0 H1. apply streq_neq in H0, H1.
  destruct info as [p|]; cbv zeta; rewrite H0, H1; reflexivity.
Qed.

Lemma policy_unbind_cases mapname ifp info :
  policy true mapname ifp info =
  if PbrVty.streq (PbrVty.mapname (policy_target pbr_if_new ifp info)) mapname then
    match PbrVty.strcpy sizeof_mapname String.EmptyString with
    | Fault => (Fault, policy_new_events ifp info)
    | Returned m =>
        (Returned (PbrVty.CMD_SUCCESS, PbrVty.mk_pbr_ifp m),
         policy_new_events ifp info
         ++ PbrVty.map_event PbrVty.CallMapInterfaceDelete
              (pbrm_find mapname) ifp)
    end
  else (Returned (PbrVty.CMD_SUCCESS, policy_target pbr_if_new ifp info),
        policy_new_events ifp info).
Proof.
  unfold PbrVty.pbr_policy, policy_target, policy_new_events.
  destruct info as [p|]; reflexivity.
Qed.

Lemma not_in_map_event_other f g o ifp (m : PbrVty.pbr_map) :
  (forall a b c d, f a b <> g c d) ->
  ~ In (g m ifp) (PbrVty.map_event f o ifp).
Proof.
  intros Hfg. destruct o as [x|]; cbn; [|tauto].
  intros [H|[]]. exact (Hfg _ _ _ _ H).
Qed.

(** X19.  [pbr-policy NAME] leaves the interface bound to NAME when
    NAME fits the [mapname] buffer; a NAME that does not fit overruns it,
    before any [pbr_map_add_interface], unless the interface is already
    bound to NAME, in which case nothing is written or called. *)
Theorem policy_bind mapname ifp info :
  let cur := PbrVty.mapname (policy_target pbr_if_new ifp info) in
  let res := policy false mapname ifp info in
  ((String.length mapname < sizeof_mapname)%nat ->
     fst res = Returned (PbrVty.CMD_SUCCESS, PbrVty.mk_pbr_ifp mapname))
  /\ ((sizeof_mapname <= String.length mapname)%nat ->
        cur = String.EmptyString \/ cur <> mapname ->
        fst res = Fault
        /\ (forall m, ~ In (PbrVty.CallMapAddInterface m ifp) (snd res)))
  /\ (cur = mapname -> cur <> String.EmptyString ->
        res = (Returned (PbrVty.CMD_SUCCESS, policy_target pbr_if_new ifp info),
               policy_new_events ifp info)).
Proof.
  intros cur res. subst cur res.
  assert (Hnew : forall m, ~ In (PbrVty.CallMapAddInterface m ifp)
                             (policy_new_events ifp info)).
  { intros m. unfold policy_new_events. destruct info; cbn; [tauto|].
    intros [H|[]]. discriminate H. }
  destruct (String.string_dec
              (PbrVty.mapname (policy_target pbr_if_new ifp info)) String.EmptyString)
    as [E0|E0];
    [|destruct (String.string_dec
                  (PbrVty.mapname (policy_target pbr_if_new ifp info)) mapname)
        as [E1|E1]].
  - rewrite (policy_bind_unbound mapname ifp info E0).
    split; [|split].
    + intros Hlen. rewrite (strcpy_fits mapname Hlen). reflexivity.
    + intros Hlen _. rewrite (strcpy_overflow mapname Hlen).
      split; [reflexivity | exact Hnew].
    + intros Hc Hne. congruence.
  - assert (Hne : mapname <> String.EmptyString) by congruence.
    rewrite (policy_bind_same mapname ifp info E1 Hne).
    split; [|split].
    + intros _. cbn [fst]. rewrite <- E1, pbr_ifp_eta. reflexivity.
    + intros _ [Hc|Hc]; contradiction.
    + reflexivity.
  - rewrite (policy_bind_other mapname ifp info E0 E1). cbv zeta.
    split; [|split].
    + intros Hlen. rewrite (strcpy_fits mapname Hlen). reflexivity.
    + intros Hlen _. rewrite (strcpy_overflow mapname Hlen).
      split; [reflexivity|]. cbn [snd]. intros m Hin.
      apply in_app_or in Hin as [Hin|Hin]; [exact (Hnew m Hin)|].
      revert Hin. apply not_in_map_event_other. discriminate.
    + intros Hc. contradiction.
Qed.

(** X20.  Re-binding an interface from one map to another calls
    [pbr_map_interface_delete] on the old map and then
    [pbr_map_add_interface] on the new one, each only if that map
    exists. *)
Theorem policy_switch mapname ifp p :
  PbrVty.mapname p <> String.EmptyString ->
  PbrVty.mapname p <> mapname ->
  (String.length mapname < sizeof_mapname)%nat ->
  policy false mapname ifp (Some p) =
  (Returned (PbrVty.CMD_SUCCESS, PbrVty.mk_pbr_ifp mapname),
   PbrVty.map_event PbrVty.CallMapInterfaceDelete
     (pbrm_find (PbrVty.mapname p)) ifp
   ++ PbrVty.map_event PbrVty.CallMapAddInterface (pbrm_find mapname) ifp).
Proof.
  intros H0 H1 Hlen.
  rewrite (policy_bind_other mapname ifp (Some p) H0 H1). cbv zeta.
  rewrite (strcpy_fits mapname Hlen). reflexivity.
Qed.

(** X21.  [no pbr-policy NAME] clears the binding and calls
    [pbr_map_interface_delete] (if the map exists) when the interface is
    bound to NAME; with any other NAME it succeeds and leaves the binding
    as it is. *)
Theorem policy_unbind mapname ifp info :
  (0 < sizeof_mapname)%nat ->
  let cur := PbrVty.mapname (policy_target pbr_if_new ifp info) in
  let res := policy true mapname ifp info in
  (cur = mapname ->
     res = (Returned (PbrVty.CMD_SUCCESS,
                      PbrVty.mk_pbr_ifp String.EmptyString),
            policy_new_events ifp info
            ++ PbrVty.map_event PbrVty.CallMapInterfaceDelete
                 (pbrm_find mapname) ifp))
  /\ (cur <> mapname ->
        res = (Returned (PbrVty.CMD_SUCCESS, policy_target pbr_if_new ifp info),
               policy_new_events ifp info)).
Proof.
  intros Hsz cur res. subst cur res. rewrite policy_unbind_cases.
  split.
  - intros ->. rewrite streq_refl, strcpy_fits by exact Hsz. reflexivity.
  - intros H. apply streq_neq in H. rewrite H. reflexivity.
Qed.

(** X22.  Binding an unbound interface to NAME and then unbinding it
    gives back the unbound interface; together the two commands call
    [pbr_map_add_interface] and then [pbr_map_interface_delete] on the
    map, if it exists. *)
Theorem policy_bind_unbind mapname ifp p :
  PbrVty.mapname p = String.EmptyString ->
  (String.length mapname < sizeof_mapname)%nat ->
  exists p1 tr1 tr2,
    policy false mapname ifp (Some p)
      = (Returned (PbrVty.CMD_SUCCESS, p1), tr1)
    /\ PbrVty.mapname p1 = mapname
    /\ policy true mapname ifp (Some p1)
        = (Returned (PbrVty.CMD_SUCCESS, p), tr2)
    /\ tr1 ++ tr2
        = PbrVty.map_event PbrVty.CallMapAddInterface (pbrm_find mapname) ifp
          ++ PbrVty.map_event PbrVty.CallMapInterfaceDelete
               (pbrm_find mapname) ifp.
Proof.
  intros Hp Hlen.
  exists (PbrVty.mk_pbr_ifp mapname),
    (PbrVty.map_event PbrVty.CallMapAddInterface (pbrm_find mapname) ifp),
    (PbrVty.map_event PbrVty.CallMapInterfaceDelete (pbrm_find mapname) ifp).
  split; [|split; [reflexivity|split; [|reflexivity]]].
  - rewrite (policy_bind_unbound mapname ifp (Some p) Hp),
      (strcpy_fits mapname Hlen). reflexivity.
  - rewrite policy_unbind_cases. cbn [policy_target PbrVty.mapname].
    rewrite streq_refl, strcpy_fits by (cbn; lia).
    cbn [policy_new_events app].
    rewrite <- Hp, pbr_ifp_eta. reflexivity.
Qed.

End PolicyCommand.

(** * The further properties at sample inputs *)

Lemma wf_rule_no_ifp : wf_rule Sample2.rule_no_ifp.
Proof. reflexivity. Qed.

Lemma request_fixed_fields_witness :
  let req := netlink_rule_update_req 7 RTM_DELRULE Sample.rule_table5 in
  nlmsg_type (n req) = RTM_DELRULE /\ nlmsg_flags (n req) = NLM_F_REQUEST
  /\ nlmsg_pid (n req) = 7 /\ frh_action (frh req) = FR_ACT_TO_TBL.
Proof.
  pose proof (request_fixed_fields 7 RTM_DELRULE Sample.rule_table5
                ltac:(unfold RTM_DELRULE; lia))
    as (H1 & H2 & _ & H4 & H5 & _).
  repeat split; assumption.
Defined.

Lemma ifname_attribute_witness :
  attrs_of_type FRA_IFNAME
    (rtattrs (netlink_rule_update_req 0 RTM_NEWRULE Sample.rule_table5))
  = [mk_rtattr 9 FRA_IFNAME (Sample.eth0_name ++ [0])]
  /\ attrs_of_type FRA_IFNAME
       (rtattrs (netlink_rule_update_req 0 RTM_NEWRULE Sample2.rule_no_ifp))
     = [].
Proof.
  split.
  - exact (proj1 (ifname_attribute 0 RTM_NEWRULE Sample.rule_table5
                    wf_rule_table5)).
  - exact (proj1 (ifname_attribute 0 RTM_NEWRULE Sample2.rule_no_ifp
                    wf_rule_no_ifp)).
Defined.

Lemma src_attribute_witness :
  attrs_of_type FRA_SRC
    (rtattrs (netlink_rule_update_req 0 RTM_NEWRULE Sample.rule_table5))
  = [mk_rtattr 8 FRA_SRC [10; 0; 0; 0]]
  /\ frh_src_len (frh (netlink_rule_update_req 0 RTM_NEWRULE
                         Sample.rule_table5)) = 24.
Proof.
  pose proof (proj1 (src_attribute 0 RTM_NEWRULE Sample.rule_table5
                       wf_rule_table5) eq_refl) as (H1 & _ & H3).
  split; [exact H1 | exact H3].
Defined.

Lemma dst_attribute_witness :
  attrs_of_type FRA_DST
    (rtattrs (netlink_rule_update_req 0 RTM_NEWRULE Sample.rule_dst_only))
  = [mk_rtattr 20 FRA_DST ([192; 168; 1; 0] ++ replicate 12 0)]
  /\ frh_dst_len (frh (netlink_rule_update_req 0 RTM_NEWRULE
                         Sample.rule_dst_only)) = 24.
Proof.
  pose proof (proj1 (dst_attribute 0 RTM_NEWRULE Sample.rule_dst_only
                       wf_rule_dst_only) eq_refl) as (H1 & _ & H3).
  split; [exact H1 | exact H3].
Defined.

Lemma request_fits_buffer_witness :
  nlmsg_len (n (netlink_rule_update_req 0 RTM_NEWRULE Sample.rule_table1000))
  = 72.
Proof.
  pose proof (request_fits_buffer 0 RTM_NEWRULE Sample.rule_table1000
                wf_rule_table1000) as (H & _).
  exact H.
Defined.

Lemma attribute_order_witness :
  map rta_type
    (rtattrs (netlink_rule_update_req 0 RTM_NEWRULE Sample.rule_table1000))
  = [FRA_PRIORITY; FRA_IFNAME; FRA_SRC; FRA_DST; FRA_TABLE].
Proof.
  exact (attribute_order 0 RTM_NEWRULE Sample.rule_table1000
           wf_rule_table1000).
Defined.

Lemma delete_request_round_trip_witness :
  let req := netlink_rule_update_req 0 RTM_DELRULE Sample.rule_table1000 in
  exists r',
    netlink_rule_change Sample.lookup_eth0 (fun _ => 0) false
      (n req) (wire_data req) 0 0
    = (Returned 0, [EvRuleDel r'])
    /\ priority r' = 300 /\ table (action r') = 1000 /\ ifp r' = None.
Proof.
  intros req.
  destruct (delete_request_round_trip 0 Sample.lookup_eth0 (fun _ => 0) false
              Sample.rule_table1000 0 0 Sample.eth0 Sample.eth0
              (wire_data req)
              wf_rule_table1000 eq_refl eq_refl (or_introl eq_refl) eq_refl
              ltac:(vm_compute; repeat split))
    as (r' & H & Hp & Ht & _ & _ & _ & _ & Hi & _).
  exists r'. repeat split; assumption.
Defined.

Lemma delete_request_without_interface_dropped_witness :
  let req := netlink_rule_update_req 0 RTM_DELRULE Sample2.rule_no_ifp in
  netlink_rule_change Sample.lookup_eth0 (fun _ => 0) false
    (n req) (wire_data req) 0 0
  = (Returned 0, []).
Proof.
  intros req.
  exact (delete_request_without_interface_dropped 0 Sample.lookup_eth0
           (fun _ => 0) false Sample2.rule_no_ifp 0 0 (wire_data req)
           wf_rule_no_ifp eq_refl ltac:(vm_compute; repeat split)).
Defined.

(** X9 at the AF_INET6 notification whose SRC attribute holds four bytes:
    the address runs on into the PRIORITY attribute that follows and into
    the bytes left in the buffer. *)
Lemma decoded_filter_witness :
  exists r,
    netlink_rule_change Sample.lookup_eth0 (fun _ => 0) false
      (n Sample.notif_del_src_short)
      (wire_data Sample.notif_del_src_short ++ Sample.stale) 0 0
    = (Returned 0, [EvRuleDel r])
    /\ priority r = 300
    /\ IS_RULE_FILTERING_ON_SRC_IP r = true
    /\ IS_RULE_FILTERING_ON_DST_IP r = false
    /\ src_ip (filter r) =
         mk_prefix 0 24
           [10; 0; 0; 0; 8; 0; 6; 0; 44; 1; 0; 0; 170; 170; 170; 170].
Proof.
  destruct (decoded_filter Sample.lookup_eth0 (fun _ => 0) false
              (n Sample.notif_del_src_short)
              (wire_data Sample.notif_del_src_short ++ Sample.stale) 0 0
              ltac:(vm_compute; split; [discriminate | reflexivity])
              passes_notif_del_src_short)
    as (attrs & fam & Ha & Hf & Hd & Hprog).
  destruct (Hprog eq_refl ltac:(vm_compute; discriminate) eq_refl) as [r Hr].
  exists r. split; [exact Hr|].
  specialize (Hd r). rewrite Hr in Hd. specialize (Hd (or_introl eq_refl)).
  vm_compute in Ha. injection Ha as <-.
  vm_compute in Hf. injection Hf as <-.
  cbv zeta in Hd. destruct Hd as (H1 & H2 & H3).
  remember (priority r) as pr. remember (src_ip (filter r)) as sp.
  remember (IS_RULE_FILTERING_ON_SRC_IP r) as fs.
  remember (IS_RULE_FILTERING_ON_DST_IP r) as fd.
  clear Hr.
  vm_compute in H1. destruct H1 as [H1 _].
  change (message_attr FRA_SRC _) with
    (Some (mk_rtattr 8 FRA_SRC [10; 0; 0; 0],
           [8; 0; 2; 0; 10; 0; 0; 0; 8; 0; 6; 0; 44; 1; 0; 0] ++ Sample.stale))
    in H2.
  cbv iota in H2.
  destruct H2 as (H2 & bytes & src_len & Hb & Hl & Hs & _).
  vm_compute in Hb. injection Hb as <-. vm_compute in Hl.
  injection Hl as <-.
  change (message_attr FRA_DST _) with (@None (rtattr * list Z)) in H3.
  cbv iota in H3. destruct H3 as [H3 _].
  split; [congruence|]. split; [exact H2|]. split; [exact H3|]. exact Hs.
Defined.

Lemma callback_rule_has_no_interface_witness :
  ifp Sample.rule_decoded_eth0 = None.
Proof.
  refine (proj1 (callback_rule_has_no_interface Sample.lookup_eth0
                   (fun _ => 0) false (n Sample.notif_del_eth0)
                   (wire_data Sample.notif_del_eth0) 0 0
                   Sample.rule_decoded_eth0 _)).
  left. reflexivity.
Defined.

Lemma huge_delrule_is_error_witness :
  netlink_rule_change Sample.lookup_eth0 (fun _ => 0) false
    (n Sample2.notif_del_huge) (wire_data Sample2.notif_del_huge) 0 0
  = (Returned (-1), []).
Proof.
  refine (proj2 (huge_delrule_is_error Sample.lookup_eth0 (fun _ => 0) false
                   (n Sample2.notif_del_huge)
                   (wire_data Sample2.notif_del_huge) 0 0 _ _)).
  - reflexivity.
  - vm_compute. split; [discriminate | reflexivity].
Defined.

Lemma match_src_behaviour_witness :
  let res := PbrVty.pbr_map_match_src SampleCli.prefix_same prefix_zero
               SampleCli.prefix_copy SampleCli.keep true Sample.net10
               (PbrVty.set_src (Some Sample.net192) SampleCli.pbrms10) in
  let q := PbrVty.set_family AF_INET SampleCli.pbrms10 in
  fst (fst res) = PbrVty.CMD_SUCCESS
  /\ snd res = [PbrVty.CallMapCheck q]
  /\ snd (fst res) = SampleCli.keep q
  /\ PbrVty.src q = None.
Proof.
  intros res q.
  pose proof (match_src_behaviour SampleCli.prefix_same prefix_zero
                SampleCli.prefix_copy SampleCli.keep true Sample.net10
                (PbrVty.set_src (Some Sample.net192) SampleCli.pbrms10))
    as (Hr & _ & _ & H & _ & _ & _ & _ & _ & _ & _ & Hs & _).
  cbv zeta in H, Hs.
  destruct H as [Htr Hq]; [intros [? _]; discriminate|].
  split; [exact Hr|]. split; [exact Htr|]. split; [exact Hq|].
  exact (Hs eq_refl).
Defined.

Lemma match_dst_behaviour_witness :
  let res := PbrVty.pbr_map_match_dst SampleCli.prefix_same prefix_zero
               SampleCli.prefix_copy SampleCli.keep false Sample.net192
               SampleCli.pbrms10 in
  let q := PbrVty.set_dst (Some Sample.net192)
             (PbrVty.set_family AF_INET SampleCli.pbrms10) in
  fst (fst res) = PbrVty.CMD_SUCCESS
  /\ snd res = [PbrVty.CallMapCheck q]
  /\ snd (fst res) = SampleCli.keep q
  /\ PbrVty.src q = None.
Proof.
  intros res q.
  pose proof (match_dst_behaviour SampleCli.prefix_same prefix_zero
                SampleCli.prefix_copy SampleCli.keep false Sample.net192
                SampleCli.pbrms10)
    as (Hr & _ & _ & H & _ & Hs & _).
  cbv zeta in H, Hs.
  destruct H as [Htr Hq]; [intros [_ ?]; discriminate|].
  split; [exact Hr|]. split; [exact Htr|]. split; [exact Hq|]. exact Hs.
Defined.

(** X23 at the RTM_DELRULE request for the table-1000 rule, serialized
    with zero padding: the five attributes are read back. *)
Lemma laid_out_attributes_read_back_witness :
  let req := netlink_rule_update_req 0 RTM_DELRULE Sample.rule_table1000 in
  option_map (map fst) (message_attrs (n req) (wire_data req))
  = Some (rtattrs req)
  /\ map rta_type (rtattrs req)
     = [FRA_PRIORITY; FRA_IFNAME; FRA_SRC; FRA_DST; FRA_TABLE].
Proof.
  intros req.
  pose proof (laid_out_attributes_read_back req (wire_data req)
                ltac:(subst req;
                      rewrite (rtattrs_netlink_rule_update_req 0 _ _
                                 wf_rule_table1000);
                      apply rule_attrs_wf, wf_rule_table1000)
                ltac:(vm_compute; repeat split)
                eq_refl) as (H1 & H2 & _).
  cbv zeta in H1, H2. rewrite H1. cbn [option_map]. rewrite H2.
  split; reflexivity.
Defined.

(** X24 at the attributes of the eth0 notification, with 100 turns
    allowed for 20 bytes. *)
Lemma netlink_parse_rtattr_total_witness :
  let rta := RTM_RTA (wire_data Sample.notif_del_eth0) in
  let tb := replicate 25 None in
  netlink_parse_rtattr_loop 100 tb FRA_MAX rta 20
  = netlink_parse_rtattr tb FRA_MAX rta 20
  /\ exists tb', netlink_parse_rtattr tb FRA_MAX rta 20 = Some tb'
                 /\ length tb' = 25%nat.
Proof.
  intros rta tb.
  pose proof (netlink_parse_rtattr_total 100 tb FRA_MAX rta 20
                ltac:(vm_compute; lia)) as [H1 H2].
  split; [exact H1|].
  exact (H2 ltac:(vm_compute; discriminate)).
Defined.

Lemma no_pbr_map_deletes_matching_witness :
  snd (PbrVty.no_pbr_map SampleCli.pbrm_find SampleCli.name_MAP (Some 20))
  = [PbrVty.CallMapDelete SampleCli.pbrms20]
  /\ snd (PbrVty.no_pbr_map SampleCli.pbrm_find SampleCli.name_MAP None)
     = [PbrVty.CallMapDelete SampleCli.pbrms10;
        PbrVty.CallMapDelete SampleCli.pbrms20]
  /\ snd (PbrVty.no_pbr_map SampleCli.pbrm_find SampleCli.name_MAP (Some 30)) = [].
Proof.
  pose proof (no_pbr_map_deletes_matching SampleCli.pbrm_find SampleCli.name_MAP (Some 20))
    as (_ & _ & H20).
  pose proof (no_pbr_map_deletes_matching SampleCli.pbrm_find SampleCli.name_MAP None)
    as (_ & _ & Hall).
  pose proof (no_pbr_map_deletes_matching SampleCli.pbrm_find SampleCli.name_MAP (Some 30))
    as (_ & _ & H30).
  split; [|split].
  - exact (proj2 (H20 SampleCli.pbrm_MAP eq_refl) 20 eq_refl
             ltac:(vm_compute; split; reflexivity)).
  - exact (proj1 (Hall SampleCli.pbrm_MAP eq_refl) eq_refl).
  - exact (proj2 (H30 SampleCli.pbrm_MAP eq_refl) 30 eq_refl
             ltac:(vm_compute; split; reflexivity)).
Defined.

Lemma nexthop_group_failure_witness :
  let res := PbrVty.pbr_map_nexthop_group SampleCli.keep SampleCli.keep
               (fun _ => true) false SampleCli.name_OTHER SampleCli.pbrms10_grp in
  fst res = (PbrVty.CMD_WARNING_CONFIG_FAILED, SampleCli.pbrms10_grp).
Proof.
  intros res.
  pose proof (nexthop_group_failure SampleCli.keep SampleCli.keep
                (fun _ => true) false SampleCli.name_OTHER SampleCli.pbrms10_grp)
    as [Hiff Hat].
  assert (Hf : fst (fst res) = PbrVty.CMD_WARNING_CONFIG_FAILED).
  { apply Hiff. right. right. split; [reflexivity|].
    exists SampleCli.name_GRP. split; [reflexivity | discriminate]. }
  destruct (Hat Hf) as [Hs _].
  apply injective_projections; [exact Hf | exact Hs].
Defined.

Lemma nexthop_group_set_accepted_witness :
  let res := PbrVty.pbr_map_nexthop_group SampleCli.keep SampleCli.keep
               (fun _ => false) false SampleCli.name_GRP SampleCli.pbrms10 in
  fst res = (PbrVty.CMD_SUCCESS, SampleCli.pbrms10_grp)
  /\ length (snd res) = 3%nat.
Proof.
  intros res.
  pose proof (nexthop_group_set_accepted SampleCli.keep SampleCli.keep
                (fun _ => false) SampleCli.name_GRP SampleCli.pbrms10 eq_refl)
    as [H _].
  destruct (H eq_refl) as (H1 & _ & _ & H4).
  split; [exact H1 | exact (H4 eq_refl)].
Defined.

Lemma nexthop_failure_atomic_witness :
  let res := PbrVty.pbr_map_nexthop SampleCli.keep SampleCli.keep
               SampleCli.keep SampleCli.make_name 100
               SampleCli.nexthop_exists (PbrVty.mk_nhg [])
               SampleCli.nexthop_add SampleCli.vrf_lookup_by_name
               SampleCli.vrf_lookup_by_id 0 SampleCli.ifname2ifindex 0
               true SampleCli.gw10 None None SampleCli.pbrms10 in
  fst res = (PbrVty.CMD_WARNING_CONFIG_FAILED, SampleCli.pbrms10).
Proof.
  intros res.
  pose proof (nexthop_failure_atomic SampleCli.keep SampleCli.keep
               SampleCli.keep SampleCli.make_name 100
               SampleCli.nexthop_exists (PbrVty.mk_nhg [])
               SampleCli.nexthop_add SampleCli.vrf_lookup_by_name
               SampleCli.vrf_lookup_by_id 0 SampleCli.ifname2ifindex 0
               true SampleCli.gw10 None None SampleCli.pbrms10 eq_refl)
    as (Hat & _ & Hno).
  pose proof (Hno eq_refl eq_refl) as Hf.
  destruct (Hat Hf) as [Hs _].
  apply injective_projections; [exact Hf | exact Hs].
Defined.

Lemma nexthop_first_add_witness :
  exists q,
    PbrVty.pbr_map_nexthop SampleCli.keep SampleCli.keep
      SampleCli.keep SampleCli.make_name 100
      SampleCli.nexthop_exists (PbrVty.mk_nhg [])
      SampleCli.nexthop_add SampleCli.vrf_lookup_by_name
      SampleCli.vrf_lookup_by_id 0 SampleCli.ifname2ifindex 0
      false SampleCli.gw10 (Some SampleCli.name_eth0) None SampleCli.pbrms10
    = (PbrVty.CMD_SUCCESS, q,
       [PbrVty.CallNhtAddIndividualNexthop q; PbrVty.CallMapCheck q])
    /\ PbrVty.nhg q =
         Some (PbrVty.mk_nhg
                 [PbrVty.mk_nexthop 0 2 PbrVty.NEXTHOP_TYPE_IPV4_IFINDEX
                    ([10; 0; 0; 1] ++ replicate 12 0)]).
Proof.
  destruct (nexthop_first_add SampleCli.keep SampleCli.keep
              SampleCli.keep SampleCli.make_name 100
              SampleCli.nexthop_exists (PbrVty.mk_nhg [])
              SampleCli.nexthop_add SampleCli.vrf_lookup_by_name
              SampleCli.vrf_lookup_by_id 0 SampleCli.ifname2ifindex 0
              SampleCli.gw10 (Some SampleCli.name_eth0) None SampleCli.pbrms10
              SampleCli.vrf_default eq_refl eq_refl eq_refl)
    as (q & H & Hg & _).
  - intros i [= <-]. vm_compute. discriminate.
  - reflexivity.
  - intros nh. reflexivity.
  - exists q. split; [exact H | exact Hg].
Defined.

Lemma policy_bind_witness :
  fst (PbrVty.pbr_policy SampleCli.pbrm_find SampleCli.pbr_if_new 100
         false SampleCli.name_MAP Sample.eth0 (Some SampleCli.pbr_ifp_OLD))
  = Returned (PbrVty.CMD_SUCCESS, SampleCli.pbr_ifp_MAP)
  /\ fst (PbrVty.pbr_policy SampleCli.pbrm_find SampleCli.pbr_if_new 3
            false SampleCli.name_MAP Sample.eth0 (Some SampleCli.pbr_ifp_OLD))
     = Fault.
Proof.
  split.
  - apply (policy_bind SampleCli.pbrm_find SampleCli.pbr_if_new 100 SampleCli.name_MAP
             Sample.eth0 (Some SampleCli.pbr_ifp_OLD)).
    vm_compute. lia.
  - refine (proj1 (proj1 (proj2 (policy_bind SampleCli.pbrm_find
              SampleCli.pbr_if_new 3 SampleCli.name_MAP Sample.eth0
              (Some SampleCli.pbr_ifp_OLD))) _ _)).
    + vm_compute. lia.
    + right. discriminate.
Defined.

Lemma policy_switch_witness :
  PbrVty.pbr_policy SampleCli.pbrm_find SampleCli.pbr_if_new 100
    false SampleCli.name_MAP Sample.eth0 (Some SampleCli.pbr_ifp_OLD)
  = (Returned (PbrVty.CMD_SUCCESS, SampleCli.pbr_ifp_MAP),
     [PbrVty.CallMapAddInterface SampleCli.pbrm_MAP Sample.eth0]).
Proof.
  apply (policy_switch SampleCli.pbrm_find SampleCli.pbr_if_new 100 SampleCli.name_MAP
           Sample.eth0 SampleCli.pbr_ifp_OLD).
  - discriminate.
  - discriminate.
  - vm_compute. lia.
Defined.

Lemma policy_unbind_witness :
  PbrVty.pbr_policy SampleCli.pbrm_find SampleCli.pbr_if_new 100
    true SampleCli.name_OTHER Sample.eth0 (Some SampleCli.pbr_ifp_MAP)
  = (Returned (PbrVty.CMD_SUCCESS, SampleCli.pbr_ifp_MAP), [])
  /\ PbrVty.pbr_policy SampleCli.pbrm_find SampleCli.pbr_if_new 100
       true SampleCli.name_MAP Sample.eth0 (Some SampleCli.pbr_ifp_MAP)
     = (Returned (PbrVty.CMD_SUCCESS, SampleCli.pbr_ifp_none),
        [PbrVty.CallMapInterfaceDelete SampleCli.pbrm_MAP Sample.eth0]).
Proof.
  split.
  - apply (policy_unbind SampleCli.pbrm_find SampleCli.pbr_if_new 100
             SampleCli.name_OTHER Sample.eth0 (Some SampleCli.pbr_ifp_MAP)
             ltac:(lia)).
    discriminate.
  - apply (policy_unbind SampleCli.pbrm_find SampleCli.pbr_if_new 100
             SampleCli.name_MAP Sample.eth0 (Some SampleCli.pbr_ifp_MAP)
             ltac:(lia)).
    reflexivity.
Defined.

Lemma policy_bind_unbind_witness :
  exists p1 tr1 tr2,
    PbrVty.pbr_policy SampleCli.pbrm_find SampleCli.pbr_if_new 100
      false SampleCli.name_MAP Sample.eth0 (Some SampleCli.pbr_ifp_none)
    = (Returned (PbrVty.CMD_SUCCESS, p1), tr1)
    /\ PbrVty.pbr_policy SampleCli.pbrm_find SampleCli.pbr_if_new 100
         true SampleCli.name_MAP Sample.eth0 (Some p1)
       = (Returned (PbrVty.CMD_SUCCESS, SampleCli.pbr_ifp_none), tr2)
    /\ tr1 ++ tr2
       = [PbrVty.CallMapAddInterface SampleCli.pbrm_MAP Sample.eth0;
          PbrVty.CallMapInterfaceDelete SampleCli.pbrm_MAP Sample.eth0].
Proof.
  destruct (policy_bind_unbind SampleCli.pbrm_find SampleCli.pbr_if_new 100
              SampleCli.name_MAP Sample.eth0 SampleCli.pbr_ifp_none eq_refl
              ltac:(vm_compute; lia))
    as (p1 & tr1 & tr2 & H1 & _ & H2 & H3).
  exists p1, tr1, tr2. repeat split; assumption.
Defined.
